(** * License bot: the lifecycle handlers of [bot.py] and [telegram-bot/bot.py]

    A shallow embedding of the two variants of the Telegram license bot.
    Both keep every license in one JSON document [licenses.json] that is
    read from and written back to a GitHub repository.

    - A license is a Python [dict] decoded from JSON: a finite map from
      member names to scalars.
    - The list of licenses is a Python [list]; the handlers look a record
      up, mutate that very [dict] in place and hand the same list to
      [save_licenses], so an update is an update of the list at the
      index of the record.
    - A [str] is a sequence of characters with code points below 256;
      on such text [\d] is one of the ten digits, [str.strip] removes
      the white space of that range (no-break space included) and the
      order of [str] is the order of the code points.
    - The outside world (clock, random source, HTTP responses) is passed
      in explicitly.
    - What [date.fromisoformat] reads besides [YYYY-MM-DD] depends on
      the version of Python; the handlers and the statements about them
      take the version as a parameter, and the examples run on versions
      named in them.
    - An exception that no [except] clause of the source catches ends
      the handler; it is the [Raise] outcome of the [result] monad. *)

From Stdlib Require Import ZArith Ascii String List Sorting.Sorted Sorting.Permutation.
From Stdlib Require Import Structures.OrderedTypeEx.
From stdpp Require Import gmap strings list fin_maps pretty.

Local Open Scope string_scope.
Local Open Scope Z_scope.

(* ===================================================================== *)
(** ** Python values and exceptions *)
(* ===================================================================== *)

(** The scalars the program stores in a license: [str] everywhere, and
    the [int] of ["max_users"]. *)
Inductive value :=
  | VStr (s : string)
  | VInt (n : Z).

#[global] Instance value_eq_dec : EqDecision value.
Proof. solve_decision. Defined.

(** A license record, the [dict] of one entry of ["licenses"]. *)
Abbreviation license := (gmap string value).

(** Exceptions that escape a handler. *)
Inductive exn :=
  | TypeError
  | AttributeError
  | OverflowError
  | ValueError
  | KeyError.

#[global] Instance exn_eq_dec : EqDecision exn.
Proof. solve_decision. Defined.

Inductive result (A : Type) :=
  | Ok (a : A)
  | Raise (e : exn).
Arguments Ok {A} a.
Arguments Raise {A} e.

#[global] Instance result_ret : MRet result := fun _ a => Ok a.

#[global] Instance result_bind : MBind result := fun _ _ k m =>
  match m with
  | Ok a => k a
  | Raise e => Raise e
  end.

(** [try: m except (handled): h] *)
Definition try_except {A} (m : result A) (handled : list exn) (h : result A) : result A :=
  match m with
  | Ok a => Ok a
  | Raise e => if bool_decide (e ∈ handled) then h else Raise e
  end.

(** [d[k]] *)
Definition dict_item (lic : license) (k : string) : result value :=
  match lic !! k with
  | Some v => Ok v
  | None => Raise KeyError
  end.

(** [d.get(k, default)] *)
Definition dict_get (lic : license) (k : string) (default : value) : value :=
  match lic !! k with
  | Some v => v
  | None => default
  end.

(** Truth value of a [dict]: an empty [dict] is falsy. *)
Definition dict_truthy (lic : license) : bool :=
  bool_decide (lic <> ∅).

(* ===================================================================== *)
(** ** Strings *)
(* ===================================================================== *)

Module Str.

Definition chars (s : string) : list ascii := list_ascii_of_string s.
Definition of_chars (l : list ascii) : string := string_of_list_ascii l.

(** [sep.join(parts)] *)
Fixpoint join (sep : string) (parts : list string) : string :=
  match parts with
  | [] => ""
  | [p] => p
  | p :: rest => p +:+ sep +:+ join sep rest
  end.

(** [s[-n:]] for [n > 0]: the last [n] characters, the whole string
    when it is shorter. *)
Definition last_n (n : nat) (s : string) : string :=
  of_chars (skipn (List.length (chars s) - n)%nat (chars s)).

(** Characters [str.strip()] removes, among the code points below 256:
    space, tab, line feed, vertical tab, form feed, carriage return, the
    four separators 28 to 31, next line (133) and no-break space
    (160). *)
Definition is_space (c : ascii) : bool :=
  let n := nat_of_ascii c in
  ((n =? 32) || ((9 <=? n) && (n <=? 13)) || ((28 <=? n) && (n <=? 31))
   || (n =? 133) || (n =? 160))%nat.

Fixpoint lstrip (l : list ascii) : list ascii :=
  match l with
  | c :: r => if is_space c then lstrip r else l
  | [] => []
  end.

(** [s.strip()] *)
Definition strip (s : string) : string :=
  of_chars (rev (lstrip (rev (lstrip (chars s))))).

(** [\d] on the characters a string of this file holds, the code
    points below 256: the digits 0 to 9. *)
Definition is_digit (c : ascii) : bool :=
  let n := nat_of_ascii c in ((48 <=? n) && (n <=? 57))%nat.

(** [s[a:b]] for [0 <= a <= b], cut short at the end of [s]. *)
Definition slice (a b : nat) (s : string) : string :=
  of_chars (firstn (b - a) (skipn a (chars s))).

(** [s[a:]] for [0 <= a]. *)
Definition slice_from (a : nat) (s : string) : string :=
  of_chars (skipn a (chars s)).

(** [s.lower()] on code points below 256: the capital letters A to Z
    and 192 to 222 (the multiplication sign 215 apart) move up by
    32. *)
Definition lower_char (c : ascii) : ascii :=
  let n := nat_of_ascii c in
  if (((65 <=? n) && (n <=? 90))
      || ((192 <=? n) && (n <=? 222) && negb (n =? 215)))%nat
  then ascii_of_nat (n + 32) else c.

Definition lower (s : string) : string :=
  of_chars (List.map lower_char (chars s)).

(** [s.split(sep)] for a separator of one character: the pieces
    between the separators, empty pieces included; an empty string
    yields one empty piece. *)
Fixpoint split_on (sep : ascii) (l : list ascii) : list (list ascii) :=
  match l with
  | [] => [[]]
  | c :: r =>
      if Ascii.eqb c sep then [] :: split_on sep r
      else
        match split_on sep r with
        | w :: ws => (c :: w) :: ws
        | [] => [[c]]
        end
  end.

Definition split (sep : ascii) (s : string) : list string :=
  List.map of_chars (split_on sep (chars s)).

End Str.

(* ===================================================================== *)
(** ** Identifiers *)
(* ===================================================================== *)

(** [re.sub(r"[^\d]", "", value)]; a value that is not a [str] makes
    [re.sub] raise [TypeError]. *)
Definition normalize_str (s : string) : string :=
  Str.of_chars (List.filter Str.is_digit (Str.chars s)).

Definition normalize_cpf_cnpj (v : value) : result string :=
  match v with
  | VStr s => Ok (normalize_str s)
  | VInt _ => Raise TypeError
  end.

(** [format_cpf_cnpj(value)]: [###.###.###-##] for 11 digits,
    [##.###.###/####-##] for 14, and the value as given otherwise. *)
Definition format_cpf_cnpj (value : string) : string :=
  let digits := normalize_str value in
  if (String.length digits =? 11)%nat then
    Str.slice 0 3 digits +:+ "." +:+ Str.slice 3 6 digits +:+ "."
    +:+ Str.slice 6 9 digits +:+ "-" +:+ Str.slice_from 9 digits
  else if (String.length digits =? 14)%nat then
    Str.slice 0 2 digits +:+ "." +:+ Str.slice 2 5 digits +:+ "."
    +:+ Str.slice 5 8 digits +:+ "/" +:+ Str.slice 8 12 digits +:+ "-"
    +:+ Str.slice_from 12 digits
  else value.

(* ===================================================================== *)
(** ** License keys *)
(* ===================================================================== *)

(** The alphabet of [generate_license_key]. *)
Definition key_chars : string := "ABCDEFGHJKMNPQRSTUVWXYZ23456789".

(** [secrets.choice(seq)] returns [seq[randbelow(len(seq))]].  The
    random source is the number [r]; the index drawn is [r mod len(seq)],
    so every index below the length can be drawn and no other. *)
Definition secrets_choice (seq : string) (r : nat) : ascii :=
  nth (r mod List.length (Str.chars seq))%nat (Str.chars seq) "000"%char.

(** ["".join(secrets.choice(chars) for _ in range(4))], the draws
    numbered from [k]. *)
Definition key_part (rnd : nat -> nat) (k : nat) : string :=
  Str.of_chars (List.map (fun i => secrets_choice key_chars (rnd (k + i)%nat)) (seq 0 4)).

(** [generate_license_key()]: four parts of four draws, joined by ["-"].
    [rnd i] is the outcome of the [i]-th draw. *)
Definition generate_license_key (rnd : nat -> nat) : string :=
  Str.join "-" (List.map (fun p => key_part rnd (4 * p)%nat) (seq 0 4)).

(* ===================================================================== *)
(** ** Calendar dates: [datetime.date] and [datetime.timedelta] *)
(* ===================================================================== *)

Module Date.

(** A [date] is its proleptic Gregorian ordinal: day 1 is 0001-01-01
    and [max_ordinal] is 9999-12-31. *)
Definition t := Z.

Definition max_ordinal : Z := 3652059.

Definition valid (d : t) : Prop := 1 <= d <= max_ordinal.

Definition is_leap (y : Z) : bool :=
  (y mod 4 =? 0) && (negb (y mod 100 =? 0) || (y mod 400 =? 0)).

Definition days_before_year (year : Z) : Z :=
  let y := year - 1 in y * 365 + y / 4 - y / 100 + y / 400.

(** [_DAYS_IN_MONTH] and [_DAYS_BEFORE_MONTH], for a year that is
    not leap. *)
Definition days_in_month_tbl : list Z :=
  [0; 31; 28; 31; 30; 31; 30; 31; 31; 30; 31; 30; 31].

Definition days_before_month_tbl : list Z :=
  [0; 0; 31; 59; 90; 120; 151; 181; 212; 243; 273; 304; 334].

Definition days_in_month_of (leap : bool) (m : Z) : Z :=
  nth (Z.to_nat m) days_in_month_tbl 0
  + (if (m =? 2) && leap then 1 else 0).

Definition days_before_month_of (leap : bool) (m : Z) : Z :=
  nth (Z.to_nat m) days_before_month_tbl 0
  + (if (2 <? m) && leap then 1 else 0).

Definition days_in_month (y m : Z) : Z := days_in_month_of (is_leap y) m.

Definition days_before_month (y m : Z) : Z := days_before_month_of (is_leap y) m.

Definition ymd2ord (y m d : Z) : Z :=
  days_before_year y + days_before_month y m + d.

(** The fields a [date(y, m, d)] accepts. *)
Definition valid_ymd (y m d : Z) : bool :=
  (1 <=? y) && (y <=? 9999) && (1 <=? m) && (m <=? 12)
  && (1 <=? d) && (d <=? days_in_month y m).

(** Month and day of the [n]-th day (from 0) of a year: an estimate
    of the month that is exact or one too large, then the
    correction. *)
Definition ord2md (leapyear : bool) (n : Z) : Z * Z :=
  let month := Z.shiftr (n + 50) 5 in
  let preceding := days_before_month_of leapyear month in
  if n <? preceding then
    let month' := month - 1 in
    let preceding' := preceding - days_in_month_of leapyear month' in
    (month', n - preceding' + 1)
  else (month, n - preceding + 1).

(** [ord2md] yields a month and a day of that month, the day of the
    year being [n + 1]. *)
Definition ord2md_ok (leap : bool) (n : Z) : bool :=
  let '(m, d) := ord2md leap n in
  (1 <=? m) && (m <=? 12) && (1 <=? d) && (d <=? days_in_month_of leap m)
  && (days_before_month_of leap m + d =? n + 1).

(** A month with its days ends before a later month begins. *)
Definition month_step_ok (leap : bool) : bool :=
  forallb (fun m1 =>
    forallb (fun m2 =>
      if (m1 <? m2)%nat
      then days_before_month_of leap (Z.of_nat m1)
           + days_in_month_of leap (Z.of_nat m1)
           <=? days_before_month_of leap (Z.of_nat m2)
      else true) (seq 1 12)) (seq 1 12).

(** Ordinal to (year, month, day), by the 400, 100, 4 and 1 year
    cycles. *)
Definition ord2ymd (n0 : Z) : Z * Z * Z :=
  let n := n0 - 1 in
  let n400 := n / 146097 in let n := n mod 146097 in
  let n100 := n / 36524 in let n := n mod 36524 in
  let n4 := n / 1461 in let n := n mod 1461 in
  let n1 := n / 365 in let n := n mod 365 in
  let year := n400 * 400 + 1 + n100 * 100 + n4 * 4 + n1 in
  if (n1 =? 4) || (n100 =? 4) then (year - 1, 12, 31)
  else
    let leapyear := (n1 =? 3) && (negb (n4 =? 24) || (n100 =? 3)) in
    let '(month, day) := ord2md leapyear n in
    (year, month, day).

Definition digit (n : Z) : ascii := ascii_of_nat (48 + Z.to_nat (n mod 10)).

(** [%04d] and [%02d] for a number that fits the width. *)
Definition fmt4 (n : Z) : list ascii :=
  [digit (n / 1000); digit (n / 100); digit (n / 10); digit n].
Definition fmt2 (n : Z) : list ascii := [digit (n / 10); digit n].

(** [d.isoformat()]: [YYYY-MM-DD]. *)
Definition isoformat (d : t) : string :=
  let '(y, m, dd) := ord2ymd d in
  Str.of_chars (fmt4 y ++ "-"%char :: fmt2 m ++ "-"%char :: fmt2 dd).

Definition digit_val (c : ascii) : option Z :=
  if Str.is_digit c then Some (Z.of_nat (nat_of_ascii c) - 48) else None.

Fixpoint parse_digits (acc : Z) (l : list ascii) : option Z :=
  match l with
  | [] => Some acc
  | c :: r =>
      match digit_val c with
      | Some v => parse_digits (10 * acc + v) r
      | None => None
      end
  end.

(** The format every version of [date.fromisoformat] reads, and the
    one [isoformat] writes: ten characters [YYYY-MM-DD]. *)
Definition fromisoformat_ymd (s : string) : result t :=
  match Str.chars s with
  | [y1; y2; y3; y4; s1; m1; m2; s2; d1; d2] =>
      if negb (Ascii.eqb s1 "-" && Ascii.eqb s2 "-") then Raise ValueError
      else
        match parse_digits 0 [y1; y2; y3; y4],
              parse_digits 0 [m1; m2], parse_digits 0 [d1; d2] with
        | Some y, Some m, Some d =>
            if valid_ymd y m d then Ok (ymd2ord y m d) else Raise ValueError
        | _, _, _ => Raise ValueError
        end
  | _ => Raise ValueError
  end.

(** What [date.fromisoformat] reads besides [YYYY-MM-DD] depends on
    the version of Python that runs the bot: nothing up to Python 3.10;
    from 3.11 on also the basic format [YYYYMMDD], ISO week dates and
    whatever else that version lets through.  [also_reads s] is the date
    the version in use reads from a string that is not a [YYYY-MM-DD]
    date, if it reads one. *)
Class version := also_reads : string -> option t.

(** Python up to 3.10. *)
Definition py310 : version := fun _ => None.

(** A version that reads the basic format [YYYYMMDD] as well, as
    Python 3.11 and later do (they read ISO week dates besides). *)
Definition with_basic_format : version := fun s =>
  match Str.chars s with
  | [y1; y2; y3; y4; m1; m2; d1; d2] =>
      match parse_digits 0 [y1; y2; y3; y4],
            parse_digits 0 [m1; m2], parse_digits 0 [d1; d2] with
      | Some y, Some m, Some d =>
          if valid_ymd y m d then Some (ymd2ord y m d) else None
      | _, _, _ => None
      end
  | _ => None
  end.

(** [date.fromisoformat(s)]: the date read, which is always a date of
    the calendar, or a [ValueError]; no version reads the empty
    string. *)
Definition fromisoformat_str {py : version} (s : string) : result t :=
  match fromisoformat_ymd s with
  | Ok d => Ok d
  | Raise _ =>
      if String.eqb s "" then Raise ValueError
      else
        match also_reads s with
        | Some d =>
            if (1 <=? d) && (d <=? max_ordinal) then Ok d else Raise ValueError
        | None => Raise ValueError
        end
  end.

(** A value that is not a [str] is a [TypeError]. *)
Definition fromisoformat {py : version} (v : value) : result t :=
  match v with
  | VStr s => fromisoformat_str s
  | VInt _ => Raise TypeError
  end.

(** [timedelta(days=n)]: the number of days, [OverflowError] beyond
    999999999 in magnitude. *)
Definition timedelta (days : Z) : result Z :=
  if Z.abs days <=? 999999999 then Ok days else Raise OverflowError.

(** [d + delta]: [OverflowError] when the result leaves the
    calendar. *)
Definition add (d : t) (delta : Z) : result t :=
  let o := d + delta in
  if (0 <? o) && (o <=? max_ordinal) then Ok o else Raise OverflowError.

(** [(a - b).days] *)
Definition days_between (a b : t) : Z := a - b.

End Date.

(* ===================================================================== *)
(** ** Truth values, equality and [str()] of scalars *)
(* ===================================================================== *)

(** [bool(v)]: an empty [str] and the [int] 0 are falsy. *)
Definition truthy (v : value) : bool :=
  match v with
  | VStr s => negb (String.eqb s "")
  | VInt n => negb (n =? 0)
  end.

(** [a == b] *)
Definition value_eqb (a b : value) : bool := bool_decide (a = b).

(** [str(d.get(k))] inside an f-string: a missing member prints as
    [None]. *)
Definition fmt_member (lic : license) (k : string) : string :=
  match lic !! k with
  | Some (VStr s) => s
  | Some (VInt n) => pretty n
  | None => "None"
  end.

(* ===================================================================== *)
(** ** The GitHub store: [get_licenses] and [save_licenses] *)
(* ===================================================================== *)

(** What [urllib.request.urlopen] does with a request: it returns the
    response of a 2xx answer, raises [HTTPError] for any other status,
    and raises [URLError] when the server cannot be reached. *)
Inductive http (A : Type) :=
  | Response (status : Z) (body : A)
  | HTTPError (code : Z)
  | URLError.
Arguments Response {A} status body.
Arguments HTTPError {A} code.
Arguments URLError {A}.

(** The body of the answer to the GET, after [json.loads], base64 and
    the second [json.loads]: the ["licenses"] member of the document
    (if it has one) and the ["sha"] member of the answer (if it has one);
    [Undecodable] when any of the decoding steps raises. *)
Inductive get_body :=
  | Decoded (licenses : option (list license)) (sha : option string)
  | Undecodable.

(** The PUT that [save_licenses] sends. *)
Record put_request := {
  put_licenses : list license;
  put_updated_at : string;
  put_message : string;
  put_sha : option string;
}.

(** The world around one handler call.  The clock is read once: every
    [date.today()] of a call yields [today], and [datetime.now()] prints
    as [now]. *)
Record env := {
  github_token : string;
  today : Date.t;
  now : string;
  rnd : nat -> nat;
  get_answer : http get_body;
  put_answer : http unit;
}.

(** [get_licenses()]: the list and the sha, and [([], None)] without a
    token or on any exception. *)
Definition get_licenses (e : env) : list license * option string :=
  if String.eqb (github_token e) "" then ([], None)
  else
    match get_answer e with
    | Response _ (Decoded licenses sha) => (default [] licenses, sha)
    | Response _ Undecodable => ([], None)
    | HTTPError _ => ([], None)
    | URLError => ([], None)
    end.

(** [save_licenses(licenses, sha, message)]: the PUT sent (none without
    a token) and the boolean returned.  The ["sha"] member is sent only
    for a truthy [sha]. *)
Definition save_licenses (e : env) (licenses : list license)
    (sha : option string) (message : string) : option put_request * bool :=
  if String.eqb (github_token e) "" then (None, false)
  else
    let body := {|
      put_licenses := licenses;
      put_updated_at := now e;
      put_message := message;
      put_sha := match sha with
                 | Some s => if String.eqb s "" then None else Some s
                 | None => None
                 end |} in
    (Some body,
     match put_answer e with
     | Response status _ => (status =? 200) || (status =? 201)
     | HTTPError _ => false
     | URLError => false
     end).

(** [find_license_by_cpf(cpf, licenses)]: the first record whose
    normalized ["cpf_cnpj"] equals the normalized [cpf].  The reference
    to the [dict] found is its index in the list. *)
Fixpoint find_from (cpf_clean : string) (licenses : list license) (i : nat)
    : result (option nat) :=
  match licenses with
  | [] => Ok None
  | lic :: rest =>
      lic_cpf ← normalize_cpf_cnpj (dict_get lic "cpf_cnpj" (VStr ""));
      if String.eqb lic_cpf cpf_clean then Ok (Some i)
      else find_from cpf_clean rest (S i)
  end.

Definition find_license_by_cpf (cpf : string) (licenses : list license)
    : result (option nat) :=
  find_from (normalize_str cpf) licenses 0.

(** The test [if not lic] / [if existing] on what the search returned:
    [None] and an empty [dict] are both falsy. *)
Definition found_truthy (licenses : list license) (found : option nat)
    : option (nat * license) :=
  match found with
  | Some i =>
      match licenses !! i with
      | Some lic => if dict_truthy lic then Some (i, lic) else None
      | None => None
      end
  | None => None
  end.

(* ===================================================================== *)
(** ** What a handler does *)
(* ===================================================================== *)

(** The messages of [reply_text], by kind, with the data they show. *)
Inductive reply :=
  | Processing
  | InvalidCpf
  | InvalidMonths
  | AlreadyExists (customer : string)
  | Activated (nome cpf : string) (meses : Z) (key : string)
  | SaveFailed
  | NotFound (cpf : string)
  | Renewed (from_zero : bool) (customer : string) (new_expires : string) (meses : Z)
  | Cancelled (customer : string)
  | Suspended (customer : string)
  | NoLicenses
  | Listing (licenses : list license)
  | NothingExpiring
  | Expiring (proximas : list (license * Z)).

(** The effects of one handler call: the messages sent, the list of
    licenses in memory when it returns, and the PUT it sent, if any. *)
Record outcome := {
  replies : list reply;
  licenses_after : list license;
  put : option put_request;
}.

(** The common tail of the mutating handlers:
    [if save_licenses(...): reply(ok) else: reply("Erro ao salvar")]. *)
Definition save_and_reply (e : env) (licenses : list license)
    (sha : option string) (message : string) (ok : reply) : outcome :=
  let '(req, saved) := save_licenses e licenses sha message in
  {| replies := [Processing; if saved then ok else SaveFailed];
     licenses_after := licenses;
     put := req |}.

Definition no_write (rs : list reply) (licenses : list license) : outcome :=
  {| replies := rs; licenses_after := licenses; put := None |}.

(* ===================================================================== *)
(** ** [list.sort(key=...)] *)
(* ===================================================================== *)

(** Python's sort is stable and compares with [<] only.  [insert_by]
    puts [x], which stood before every element of [sorted], in front of
    the first element that is not smaller than it. *)
Fixpoint insert_by {A} (lt : A -> A -> result bool) (x : A) (sorted : list A)
    : result (list A) :=
  match sorted with
  | [] => Ok [x]
  | y :: rest =>
      smaller ← lt y x;
      if (smaller : bool) then (rest' ← insert_by lt x rest; Ok (y :: rest'))
      else Ok (x :: y :: rest)
  end.

(** The sort; a comparison that raises ends it.  When no comparison
    raises, the result is the one stable sorted arrangement of the list,
    whatever the order in which the comparisons are made. *)
Fixpoint sort_by {A} (lt : A -> A -> result bool) (l : list A) : result (list A) :=
  match l with
  | [] => Ok []
  | x :: rest => sorted ← sort_by lt rest; insert_by lt x sorted
  end.

(** The same with a comparison that cannot raise. *)
Fixpoint insert_pure {A} (ltb : A -> A -> bool) (x : A) (sorted : list A) : list A :=
  match sorted with
  | [] => [x]
  | y :: rest => if ltb y x then y :: insert_pure ltb x rest else x :: y :: rest
  end.

Fixpoint sort_pure {A} (ltb : A -> A -> bool) (l : list A) : list A :=
  match l with
  | [] => []
  | x :: rest => insert_pure ltb x (sort_pure ltb rest)
  end.

(** [a < b] on scalars: code point order on [str], numeric order on
    [int], [TypeError] between the two. *)
Definition value_lt (a b : value) : result bool :=
  match a, b with
  | VStr s, VStr t => Ok (String.ltb s t)
  | VInt m, VInt n => Ok (m <? n)
  | _, _ => Raise TypeError
  end.

(** [a < b] on the pairs [(int, scalar)]: the first components decide
    unless they are equal. *)
Definition pair_lt (a b : Z * value) : result bool :=
  if negb (a.1 =? b.1) then Ok (a.1 <? b.1)
  else if negb (value_eqb a.2 b.2) then value_lt a.2 b.2
  else Ok false.

(* ===================================================================== *)
(** ** [bot.py] *)
(* ===================================================================== *)

Module Root.

(** [nome = " ".join(args[2:]) if len(args) > 2 else f"Cliente {cpf[-4:]}"] *)
Definition default_nome (cpf : string) (rest : list string) : string :=
  match rest with
  | [] => "Cliente " +:+ Str.last_n 4 cpf
  | _ => Str.join " " rest
  end.

(** [/ativar CPF MESES [NOME]], after the admin and arity checks;
    [meses] is [int(args[1])] and [rest] is [args[2:]]. *)
Definition ativar (e : env) (arg_cpf : string) (meses : Z) (rest : list string)
    : result outcome :=
  let cpf := normalize_str arg_cpf in
  let n := String.length cpf in
  if negb ((n =? 11) || (n =? 14))%nat then Ok (no_write [InvalidCpf] [])
  else if (meses <? 1) || (24 <? meses) then Ok (no_write [InvalidMonths] [])
  else
    let nome := default_nome cpf rest in
    let '(licenses, sha) := get_licenses e in
    found ← find_license_by_cpf cpf licenses;
    match found_truthy licenses found with
    | Some (_, existing) =>
        Ok (no_write [Processing; AlreadyExists (fmt_member existing "customer")]
              licenses)
    | None =>
        let key := generate_license_key (rnd e) in
        delta ← Date.timedelta (30 * meses);
        expires ← Date.add (today e) delta;
        let nova_licenca : license :=
          list_to_map
            [("key", VStr key); ("cpf_cnpj", VStr cpf); ("customer", VStr nome);
             ("email", VStr ""); ("plan", VStr "profissional");
             ("status", VStr "active");
             ("expires", VStr (Date.isoformat expires));
             ("max_users", VInt 3); ("created_at", VStr (now e))] in
        Ok (save_and_reply e (licenses ++ [nova_licenca]) sha
              ("Ativar: " +:+ nome) (Activated nome cpf meses key))
    end.

(** [is_key_empty = not current_key or current_key.strip() == ""];
    an [int] other than 0 has no [strip]. *)
Definition is_key_empty (current_key : value) : result bool :=
  if negb (truthy current_key) then Ok true
  else
    match current_key with
    | VStr s => Ok (String.eqb (Str.strip s) "")
    | VInt _ => Raise AttributeError
    end.

(** [/renovar CPF MESES], after the admin and arity checks; [meses]
    is [int(args[1])]. *)
Definition renovar {py : Date.version} (e : env) (arg_cpf : string) (meses : Z)
    : result outcome :=
  let cpf := normalize_str arg_cpf in
  let '(licenses, sha) := get_licenses e in
  found ← find_license_by_cpf cpf licenses;
  match found_truthy licenses found with
  | None => Ok (no_write [Processing; NotFound cpf] licenses)
  | Some (i, lic) =>
      let current_status := dict_get lic "status" (VStr "") in
      let current_key := dict_get lic "key" (VStr "") in
      current_expires ←
        try_except (Date.fromisoformat (dict_get lic "expires" (VStr "")))
          [ValueError] (Ok (today e));
      let is_cancelled := value_eqb current_status (VStr "cancelled") in
      key_empty ← is_key_empty current_key;
      let is_expired := current_expires <=? today e in
      let should_start_from_zero := is_cancelled || key_empty || is_expired in
      let '(base_date, lic) :=
        if should_start_from_zero
        then (today e, <["key" := VStr (generate_license_key (rnd e))]> lic)
        else (current_expires, lic) in
      delta ← Date.timedelta (30 * meses);
      new_expires ← Date.add base_date delta;
      let lic := <["expires" := VStr (Date.isoformat new_expires)]> lic in
      let lic := <["status" := VStr "active"]> lic in
      Ok (save_and_reply e (<[i := lic]> licenses) sha
            ("Renovar: " +:+ fmt_member lic "customer")
            (Renewed should_start_from_zero (fmt_member lic "customer")
               (Date.isoformat new_expires) meses))
  end.

(** [/cancelar CPF], after the admin and arity checks. *)
Definition cancelar (e : env) (arg_cpf : string) : result outcome :=
  let cpf := normalize_str arg_cpf in
  let '(licenses, sha) := get_licenses e in
  found ← find_license_by_cpf cpf licenses;
  match found_truthy licenses found with
  | None => Ok (no_write [Processing; NotFound cpf] licenses)
  | Some (i, lic) =>
      let lic := <["status" := VStr "cancelled"]> lic in
      let lic := <["expires" := VStr (Date.isoformat (today e))]> lic in
      let lic := <["key" := VStr ""]> lic in
      Ok (save_and_reply e (<[i := lic]> licenses) sha
            ("Cancelar: " +:+ fmt_member lic "customer")
            (Cancelled (fmt_member lic "customer")))
  end.

(** [ADMIN_USER_IDS]: the entries of the setting [AUTHORIZED_USER_ID]
    (the empty string when it is not set), stripped, the blank ones
    left out. *)
Definition ADMIN_USER_IDS (setting : string) : list string :=
  List.filter (fun x => negb (String.eqb x ""))
    (List.map Str.strip (Str.split "," setting)).

(** [is_admin(user_id)]: everybody when the list is empty. *)
Definition is_admin (setting : string) (user_id : Z) : bool :=
  match ADMIN_USER_IDS setting with
  | [] => true
  | ids => existsb (String.eqb (pretty user_id)) ids
  end.

(** [cpf_masked = f"...{cpf[-4:]}" if len(cpf) > 4 else cpf] *)
Definition mask_cpf (cpf : string) : string :=
  if (4 <? String.length cpf)%nat then "..." +:+ Str.last_n 4 cpf else cpf.

(** The glyph of a status in [/listar] and [/status]. *)
Inductive glyph := Green | Red | Yellow | Black | White.

Definition status_emoji (status : value) : glyph :=
  match status with
  | VStr s =>
      if String.eqb s "active" then Green
      else if String.eqb s "expired" then Red
      else if String.eqb s "suspended" then Yellow
      else if String.eqb s "cancelled" then Black
      else White
  | VInt _ => White
  end.

(** One line of [/listar]: glyph, customer cut to 15 characters, masked
    identifier, expiration as stored. *)
Record line := {
  line_glyph : glyph;
  line_customer : string;
  line_cpf : string;
  line_expires : string;
}.

(** The line of one record; slicing or measuring an [int] is a
    [TypeError]. *)
Definition listar_line (lic : license) : result line :=
  match dict_get lic "cpf_cnpj" (VStr ""), dict_get lic "customer" (VStr "N/A") with
  | VStr cpf, VStr customer =>
      Ok {| line_glyph := status_emoji (dict_get lic "status" (VStr ""));
            line_customer := Str.slice 0 15 customer;
            line_cpf := mask_cpf cpf;
            line_expires := match lic !! "expires" with
                            | Some (VStr s) => s
                            | Some (VInt n) => pretty n
                            | None => ""
                            end |}
  | _, _ => Raise TypeError
  end.

Fixpoint listar_lines (licenses : list license) : result (list line) :=
  match licenses with
  | [] => Ok []
  | lic :: rest =>
      l ← listar_line lic;
      ls ← listar_lines rest;
      Ok (l :: ls)
  end.

(** What [/listar] shows: the message that there is no license
    ([Nothing]) for an empty list, else the lines of the first 15 records
    and the total. *)
Inductive listing :=
  | Nothing
  | Lines (lines : list line) (total : nat).

Definition listar (e : env) : result listing :=
  let '(licenses, _) := get_licenses e in
  match licenses with
  | [] => Ok Nothing
  | _ =>
      lines ← listar_lines (firstn 15 licenses);
      Ok (Lines lines (List.length licenses))
  end.

End Root.

(* ===================================================================== *)
(** ** [telegram-bot/bot.py] *)
(* ===================================================================== *)

Module Telegram.

Definition default_nome (cpf : string) (rest : list string) : string :=
  match rest with
  | [] => "Cliente " +:+ Str.last_n 4 cpf
  | _ => Str.join " " rest
  end.

(** [/ativar CPF MESES [NOME]] *)
Definition ativar (e : env) (arg_cpf : string) (meses : Z) (rest : list string)
    : result outcome :=
  let cpf := normalize_str arg_cpf in
  let n := String.length cpf in
  if negb ((n =? 11) || (n =? 14))%nat then Ok (no_write [InvalidCpf] [])
  else if (meses <? 1) || (24 <? meses) then Ok (no_write [InvalidMonths] [])
  else
    let nome := default_nome cpf rest in
    let '(licenses, sha) := get_licenses e in
    found ← find_license_by_cpf cpf licenses;
    match found_truthy licenses found with
    | Some (_, existing) =>
        Ok (no_write [Processing; AlreadyExists (fmt_member existing "customer")]
              licenses)
    | None =>
        let key := generate_license_key (rnd e) in
        delta ← Date.timedelta (30 * meses);
        expires ← Date.add (today e) delta;
        let nova_licenca : license :=
          list_to_map
            [("key", VStr key); ("cpf_cnpj", VStr cpf); ("customer", VStr nome);
             ("email", VStr ""); ("plan", VStr "profissional");
             ("status", VStr "active");
             ("expires", VStr (Date.isoformat expires));
             ("max_users", VInt 3); ("created_at", VStr (now e))] in
        Ok (save_and_reply e (licenses ++ [nova_licenca]) sha
              ("Ativar licenca: " +:+ nome) (Activated nome cpf meses key))
    end.

(** [/renovar CPF MESES]: the base date is the later of the current
    expiration and today. *)
Definition renovar {py : Date.version} (e : env) (arg_cpf : string) (meses : Z)
    : result outcome :=
  let cpf := normalize_str arg_cpf in
  let '(licenses, sha) := get_licenses e in
  found ← find_license_by_cpf cpf licenses;
  match found_truthy licenses found with
  | None => Ok (no_write [Processing; NotFound cpf] licenses)
  | Some (i, lic) =>
      current_expires ←
        try_except (v ← dict_item lic "expires"; Date.fromisoformat v)
          [KeyError; ValueError] (Ok (today e));
      let base_date := Z.max current_expires (today e) in
      delta ← Date.timedelta (30 * meses);
      new_expires ← Date.add base_date delta;
      let lic := <["expires" := VStr (Date.isoformat new_expires)]> lic in
      let lic := <["status" := VStr "active"]> lic in
      Ok (save_and_reply e (<[i := lic]> licenses) sha
            ("Renovar licenca: " +:+ fmt_member lic "customer")
            (Renewed false (fmt_member lic "customer")
               (Date.isoformat new_expires) meses))
  end.

(** [/cancelar CPF]: only the status changes. *)
Definition cancelar (e : env) (arg_cpf : string) : result outcome :=
  let cpf := normalize_str arg_cpf in
  let '(licenses, sha) := get_licenses e in
  found ← find_license_by_cpf cpf licenses;
  match found_truthy licenses found with
  | None => Ok (no_write [Processing; NotFound cpf] licenses)
  | Some (i, lic) =>
      let lic := <["status" := VStr "cancelled"]> lic in
      Ok (save_and_reply e (<[i := lic]> licenses) sha
            ("Cancelar licenca: " +:+ fmt_member lic "customer")
            (Cancelled (fmt_member lic "customer")))
  end.

(** [/suspender CPF] *)
Definition suspender (e : env) (arg_cpf : string) : result outcome :=
  let cpf := normalize_str arg_cpf in
  let '(licenses, sha) := get_licenses e in
  found ← find_license_by_cpf cpf licenses;
  match found_truthy licenses found with
  | None => Ok (no_write [Processing; NotFound cpf] licenses)
  | Some (i, lic) =>
      let lic := <["status" := VStr "suspended"]> lic in
      Ok (save_and_reply e (<[i := lic]> licenses) sha
            ("Suspender licenca: " +:+ fmt_member lic "customer")
            (Suspended (fmt_member lic "customer")))
  end.

(** [status_order.get(lic.get("status", ""), 9)] *)
Definition status_order (status : value) : Z :=
  match status with
  | VStr s =>
      if String.eqb s "active" then 0
      else if String.eqb s "suspended" then 1
      else if String.eqb s "expired" then 2
      else if String.eqb s "cancelled" then 3
      else 9
  | VInt _ => 9
  end.

(** [sort_key(lic)] of [/listar] *)
Definition sort_key (lic : license) : Z * value :=
  (status_order (dict_get lic "status" (VStr "")),
   dict_get lic "expires" (VStr "")).

(** [licenses.sort(key=sort_key)] *)
Definition sort_for_listing (licenses : list license) : result (list license) :=
  sort_by (fun a b => pair_lt (sort_key a) (sort_key b)) licenses.

(** [/listar] *)
Definition listar (e : env) : result outcome :=
  let '(licenses, _) := get_licenses e in
  match licenses with
  | [] => Ok (no_write [NoLicenses] licenses)
  | _ =>
      licenses ← sort_for_listing licenses;
      Ok (no_write [Listing licenses] licenses)
  end.

(** The loop of [/vencendo] that collects [(lic, dias)] for the
    active licenses that expire on or before [limite]; an expiration
    that does not parse is skipped. *)
Fixpoint collect_proximas {py : Date.version} (hoje limite : Date.t)
    (licenses : list license)
    : result (list (license * Z)) :=
  match licenses with
  | [] => Ok []
  | lic :: rest =>
      if negb (bool_decide (lic !! "status" = Some (VStr "active")))
      then collect_proximas hoje limite rest
      else
        parsed ← try_except
          (expires ← Date.fromisoformat (dict_get lic "expires" (VStr ""));
           Ok (Some expires))
          [ValueError] (Ok None);
        more ← collect_proximas hoje limite rest;
        match parsed with
        | Some expires =>
            if expires <=? limite
            then Ok ((lic, Date.days_between expires hoje) :: more)
            else Ok more
        | None => Ok more
        end
  end.

(** [proximas.sort(key=lambda x: x[1])] *)
Definition sort_proximas (proximas : list (license * Z)) : list (license * Z) :=
  sort_pure (fun a b => a.2 <? b.2) proximas.

(** The list [/vencendo] shows, for [date.today() = hoje]. *)
Definition expiring_soon {py : Date.version} (hoje : Date.t) (licenses : list license)
    : result (list (license * Z)) :=
  delta ← Date.timedelta 7;
  limite ← Date.add hoje delta;
  proximas ← collect_proximas hoje limite licenses;
  Ok (sort_proximas proximas).

(** [/vencendo] *)
Definition vencendo {py : Date.version} (e : env) : result outcome :=
  let '(licenses, _) := get_licenses e in
  proximas ← expiring_soon (today e) licenses;
  match proximas with
  | [] => Ok (no_write [NothingExpiring] licenses)
  | _ => Ok (no_write [Expiring proximas] licenses)
  end.

(** [ADMIN_USER_IDS]: the entries of the setting [ADMIN_USER_IDS] (the
    empty string when it is not set), as they are. *)
Definition ADMIN_USER_IDS (setting : string) : list string :=
  Str.split "," setting.

(** [is_admin(user_id)]: a listed user, or everybody when the first
    entry is empty. *)
Definition is_admin (setting : string) (user_id : Z) : bool :=
  existsb (String.eqb (pretty user_id)) (ADMIN_USER_IDS setting)
  || match ADMIN_USER_IDS setting with
     | first :: _ => String.eqb first ""
     | [] => false
     end.

(** The identifier as [/listar] shows it:
    [f"{cpf[:3]}...{cpf[-4:]}" if len(cpf) > 8 else cpf]. *)
Definition mask_cpf (cpf : string) : string :=
  if (8 <? String.length cpf)%nat
  then Str.slice 0 3 cpf +:+ "..." +:+ Str.last_n 4 cpf
  else cpf.

(** [PLANOS]: name, users and price of each plan. *)
Definition PLANOS : list (string * (string * Z * string)) :=
  [("basico", ("Basico", 1, "R$ 49,90/mes"));
   ("profissional", ("Profissional", 3, "R$ 89,90/mes"));
   ("empresarial", ("Empresarial", 10, "R$ 149,90/mes"))].

(** [PLANOS.get(tipo)] *)
Fixpoint planos_get (catalog : list (string * (string * Z * string)))
    (tipo : string) : option (string * Z * string) :=
  match catalog with
  | [] => None
  | (k, info) :: rest => if String.eqb k tipo then Some info else planos_get rest tipo
  end.

(** The messages of [/plano]: those of the other handlers and its
    own. *)
Inductive plano_reply :=
  | Said (r : reply)
  | InvalidPlan
  | PlanChanged (customer nome : string) (usuarios : Z).

Record plano_outcome := {
  plano_replies : list plano_reply;
  plano_licenses_after : list license;
  plano_put : option put_request;
}.

(** [/plano TIPO CPF], after the admin and arity checks. *)
Definition plano (e : env) (arg_tipo arg_cpf : string) : result plano_outcome :=
  let tipo := Str.lower arg_tipo in
  let cpf := normalize_str arg_cpf in
  match planos_get PLANOS tipo with
  | None =>
      Ok {| plano_replies := [InvalidPlan];
            plano_licenses_after := [];
            plano_put := None |}
  | Some (nome, usuarios, _) =>
      let '(licenses, sha) := get_licenses e in
      found ← find_license_by_cpf cpf licenses;
      match found_truthy licenses found with
      | None =>
          Ok {| plano_replies := [Said Processing; Said (NotFound cpf)];
                plano_licenses_after := licenses;
                plano_put := None |}
      | Some (i, lic) =>
          let lic := <["plan" := VStr tipo]> lic in
          let lic := <["max_users" := VInt usuarios]> lic in
          let '(req, saved) :=
            save_licenses e (<[i := lic]> licenses) sha
              ("Alterar plano: " +:+ fmt_member lic "customer" +:+ " -> " +:+ tipo) in
          Ok {| plano_replies :=
                  [Said Processing;
                   if saved then PlanChanged (fmt_member lic "customer") nome usuarios
                   else Said SaveFailed];
                plano_licenses_after := <[i := lic]> licenses;
                plano_put := req |}
      end
  end.

End Telegram.

(* ===================================================================== *)
(** ** Vocabulary of the statements *)
(* ===================================================================== *)

(** The handler called with [arg_cpf] finds the record [lic] at index
    [i] of the list it fetched: the search returns it and the test on
    the result lets it through. *)
Definition finds (e : env) (arg_cpf : string) (i : nat) (lic : license) : Prop :=
  exists found,
    find_license_by_cpf (normalize_str arg_cpf) (get_licenses e).1 = Ok found
    /\ found_truthy (get_licenses e).1 found = Some (i, lic).

(** The member [k] of [lic] is a [str] or is missing. *)
Definition str_member (lic : license) (k : string) : Prop :=
  forall n, lic !! k <> Some (VInt n).

(** The expiration date of a record, as the handlers read it. *)
Definition expires_on {py : Date.version} (lic : license) : result Date.t :=
  Date.fromisoformat (dict_get lic "expires" (VStr "")).

(** The expiration a renewal starts from: today when the stored one is
    missing or does not read as a date. *)
Definition current_expiry {py : Date.version} (today : Date.t) (lic : license)
    : Date.t :=
  match expires_on lic with
  | Ok d => d
  | Raise _ => today
  end.

(** The record has no usable key: none, the empty string, or white
    space only. *)
Definition blank_key (lic : license) : bool :=
  match lic !! "key" with
  | None => true
  | Some (VStr s) => String.eqb (Str.strip s) ""
  | Some (VInt n) => n =? 0
  end.

(** The renewal rule of [bot.py]: start again from today when the
    record is cancelled, has no usable key, or is not valid beyond
    today. *)
Definition starts_from_zero {py : Date.version} (today : Date.t) (lic : license)
    : bool :=
  bool_decide (lic !! "status" = Some (VStr "cancelled"))
  || blank_key lic
  || (current_expiry today lic <=? today).

Definition root_base {py : Date.version} (today : Date.t) (lic : license) : Date.t :=
  if starts_from_zero today lic then today else current_expiry today lic.

(** The renewal rule of [telegram-bot/bot.py]. *)
Definition telegram_base {py : Date.version} (today : Date.t) (lic : license)
    : Date.t :=
  Z.max (current_expiry today lic) today.

(** A license with the members [ativar] writes. *)
Definition mk_license (key cpf customer status expires : string) : license :=
  list_to_map
    [("key", VStr key); ("cpf_cnpj", VStr cpf); ("customer", VStr customer);
     ("email", VStr ""); ("plan", VStr "profissional"); ("status", VStr status);
     ("expires", VStr expires); ("max_users", VInt 3);
     ("created_at", VStr "2025-01-01T12:00:00")].

(** A world in which GitHub answers the GET with [licenses] and accepts
    the PUT, on the day [today]; the [i]-th random draw is [i]. *)
Definition mk_env (today : Date.t) (licenses : list license) : env :=
  {| github_token := "token";
     today := today;
     now := "2025-06-01T12:00:00";
     rnd := fun i => i;
     get_answer := Response 200 (Decoded (Some licenses) (Some "3f2a"));
     put_answer := Response 200 () |}.

(** The same world with other answers of GitHub to the GET and to the
    PUT. *)
Definition with_answers (e : env) (g : http get_body) (p : http unit) : env :=
  {| github_token := github_token e;
     today := today e;
     now := now e;
     rnd := rnd e;
     get_answer := g;
     put_answer := p |}.

(** 2025-06-01 *)
Definition day0 : Date.t := 739403.

(** The record at index [i] of the list in memory when a handler has
    returned, and its member [k]. *)
Definition record_after (r : result outcome) (i : nat) : option license :=
  match r with
  | Ok o => licenses_after o !! i
  | Raise _ => None
  end.

Definition member_after (r : result outcome) (i : nat) (k : string) : option value :=
  match record_after r i with
  | Some lic => lic !! k
  | None => None
  end.

(** The PUT a handler sent. *)
Definition put_of (r : result outcome) : option put_request :=
  match r with
  | Ok o => put o
  | Raise _ => None
  end.

(** The symbols of the key alphabet, and the characters that are easy
    to misread. *)
Definition key_alphabet : list ascii := Str.chars key_chars.

Definition ambiguous : list ascii := ["0"; "1"; "I"; "O"]%char.

(** Lexicographic combination of two comparisons. *)
Definition lexc (c1 c2 : comparison) : comparison :=
  match c1 with
  | Eq => c2
  | Lt => Lt
  | Gt => Gt
  end.

(** In the order of a comparison [ltb], [a] is not after [b]. *)
Definition not_after {A} (ltb : A -> A -> bool) (a b : A) : Prop :=
  ltb b a = false.

(** The record of the examples: an active license of Ana that expires
    on 2025-06-11, ten days after [day0]. *)
Definition ana : license :=
  mk_license "XK3F-9MPQ-7RTV-2WZY" "12345678901" "Ana" "active" "2025-06-11".

(** Ana's license with a key of one space, and as a cancelled
    license. *)
Definition ana_blank : license :=
  mk_license " " "12345678901" "Ana" "active" "2025-06-11".

(** Ana's license with a key of one no-break space. *)
Definition ana_nbsp : license :=
  mk_license (String "160" "") "12345678901" "Ana" "active" "2025-06-11".

(** Ana's license with the expiration 2025-06-03, two days after
    [day0], written in the basic format. *)
Definition ana_basic : license :=
  mk_license "XK3F-9MPQ-7RTV-2WZY" "12345678901" "Ana" "active" "20250603".

Definition ana_cancelled : license :=
  mk_license "XK3F-9MPQ-7RTV-2WZY" "12345678901" "Ana" "cancelled" "2025-06-11".

(** Ana's license when it expired the day before [day0], and as a
    suspended license. *)
Definition ana_overdue : license :=
  mk_license "XK3F-9MPQ-7RTV-2WZY" "12345678901" "Ana" "active" "2025-05-31".

Definition ana_suspended : license :=
  mk_license "XK3F-9MPQ-7RTV-2WZY" "12345678901" "Ana" "suspended" "2025-06-11".


(** The two keys of [/listar]: the rank of the stored status, and the
    stored expiration as a string. *)
Definition rank (lic : license) : Z :=
  Telegram.status_order (dict_get lic "status" (VStr "")).

Definition expires_str (lic : license) : string :=
  match dict_get lic "expires" (VStr "") with
  | VStr s => s
  | VInt _ => ""
  end.

(** [a] comes before [b] in the listing: a smaller rank, or the same
    rank and a smaller expiration in code point order. *)
Definition listing_ltb (a b : license) : bool :=
  if negb (rank a =? rank b) then rank a <? rank b
  else String.ltb (expires_str a) (expires_str b).

(** The record [/ativar] builds. *)
Definition nova_licenca (key cpf nome expires now : string) : license :=
  list_to_map
    [("key", VStr key); ("cpf_cnpj", VStr cpf); ("customer", VStr nome);
     ("email", VStr ""); ("plan", VStr "profissional");
     ("status", VStr "active"); ("expires", VStr expires);
     ("max_users", VInt 3); ("created_at", VStr now)].

(** The normalized identifier of a record; none when the member is not
    a string. *)
Definition identifier (lic : license) : option string :=
  match normalize_cpf_cnpj (dict_get lic "cpf_cnpj" (VStr "")) with
  | Ok c => Some c
  | Raise _ => None
  end.


(** The members ["cpf_cnpj"] of the records, in the order of the
    list. *)
Definition cpf_members (licenses : list license) : list (option value) :=
  List.map (fun lic => lic !! "cpf_cnpj") licenses.

(** The list a handler leaves has the records of the list it fetched,
    each with the identifier it had, and a PUT carries that list. *)
Definition same_records (licenses : list license) (o : outcome) : Prop :=
  cpf_members (licenses_after o) = cpf_members licenses
  /\ List.length (licenses_after o) = List.length licenses
  /\ forall req, put o = Some req -> put_licenses req = licenses_after o.

(** The store cannot be read: no token, or GitHub does not answer the
    GET with a body that decodes. *)
Definition store_unreadable (e : env) : bool :=
  String.eqb (github_token e) ""
  || match get_answer e with
     | Response _ (Decoded _ _) => false
     | _ => true
     end.

(** The revision a PUT names after a GET that returned [sha]: none for
    [None] and for the empty string. *)
Definition sent_sha (sha : option string) : option string :=
  match sha with
  | Some s => if String.eqb s "" then None else Some s
  | None => None
  end.

(** The PUT [req] of a call in the world [e] is sent with a token,
    names the revision that the GET of the same call returned, and is
    stamped with the time of the call. *)
Definition names_fetched_revision (e : env) (req : put_request) : Prop :=
  github_token e <> ""
  /\ put_sha req = sent_sha (get_licenses e).2
  /\ put_updated_at req = now e.

(** The list in memory when a handler has returned. *)
Definition list_after (r : result outcome) : result (list license) :=
  o ← r; Ok (licenses_after o).

(** The list with the status [s] written to the record that the search
    for [arg] finds; the list as fetched when it finds none. *)
Definition marked (s : string) (e : env) (arg : string) : result (list license) :=
  let '(licenses, _) := get_licenses e in
  found ← find_license_by_cpf (normalize_str arg) licenses;
  match found_truthy licenses found with
  | None => Ok licenses
  | Some (i, lic) => Ok (<[i := <["status" := VStr s]> lic]> licenses)
  end.

(** The setting that lists the users [ids], separated by [sep]. *)
Definition id_list (sep : string) (ids : list Z) : string :=
  Str.join sep (List.map pretty ids).

(** A character of an entry that needs no stripping and does not
    separate: neither white space nor a comma. *)
Definition plain_char (c : ascii) : bool :=
  negb (Str.is_space c) && negb (Ascii.eqb c ","%char).

Definition plain (s : string) : Prop :=
  forallb plain_char (Str.chars s) = true.



(* ===================================================================== *)
(** * Properties *)
(* ===================================================================== *)

(** Closes an equation between closed terms by evaluation. *)
Ltac vm_refl :=
  lazymatch goal with
  | |- ?a = ?b => vm_cast_no_check (@eq_refl _ b)
  end.

(** ** The calendar *)

Module DateFacts.
Import Date.

Lemma ord2md_ok_all (leap : bool) :
  forallb (fun k => ord2md_ok leap (Z.of_nat k))
    (seq 0 (if leap then 366 else 365)) = true.
Proof. destruct leap; vm_compute; reflexivity. Qed.

Lemma ord2md_spec (leap : bool) (n : Z) :
  0 <= n < 365 + (if leap then 1 else 0) ->
  ord2md_ok leap n = true.
Proof.
  intros Hn.
  pose proof (ord2md_ok_all leap) as H.
  rewrite forallb_forall in H.
  specialize (H (Z.to_nat n)).
  rewrite Z2Nat.id in H by lia.
  apply H. apply in_seq. destruct leap; lia.
Qed.

(** Days before the year that follows [400a + 100b + 4c + e] whole
    years. *)
Lemma days_before_year_cycles (a b c e : Z) :
  0 <= b <= 3 -> 0 <= c <= 24 -> 0 <= e <= 3 ->
  days_before_year (400 * a + 100 * b + 4 * c + e + 1)
  = 146097 * a + 36524 * b + 1461 * c + 365 * e.
Proof.
  intros Hb Hc He. unfold days_before_year.
  replace (400 * a + 100 * b + 4 * c + e + 1 - 1)
    with (400 * a + 100 * b + 4 * c + e) by lia.
  assert (H4 : (400 * a + 100 * b + 4 * c + e) / 4 = 100 * a + 25 * b + c)
    by (symmetry; apply Z.div_unique with (r := e); lia).
  assert (H100 : (400 * a + 100 * b + 4 * c + e) / 100 = 4 * a + b)
    by (symmetry; apply Z.div_unique with (r := 4 * c + e); lia).
  assert (H400 : (400 * a + 100 * b + 4 * c + e) / 400 = a)
    by (symmetry; apply Z.div_unique with (r := 100 * b + 4 * c + e); lia).
  rewrite H4, H100, H400. lia.
Qed.

Lemma is_leap_cycles (a b c e : Z) :
  0 <= b <= 3 -> 0 <= c <= 24 -> 0 <= e <= 3 ->
  is_leap (400 * a + 100 * b + 4 * c + e + 1)
  = (e =? 3) && (negb (c =? 24) || (b =? 3)).
Proof.
  intros Hb Hc He. unfold is_leap.
  assert (H4 : (400 * a + 100 * b + 4 * c + e + 1) mod 4 = (e + 1) mod 4).
  { replace (400 * a + 100 * b + 4 * c + e + 1)
      with ((e + 1) + (100 * a + 25 * b + c) * 4) by lia.
    apply Z_mod_plus_full. }
  assert (H100 : (400 * a + 100 * b + 4 * c + e + 1) mod 100
                 = (4 * c + e + 1) mod 100).
  { replace (400 * a + 100 * b + 4 * c + e + 1)
      with ((4 * c + e + 1) + (4 * a + b) * 100) by lia.
    apply Z_mod_plus_full. }
  assert (H400 : (400 * a + 100 * b + 4 * c + e + 1) mod 400
                 = (100 * b + 4 * c + e + 1) mod 400).
  { replace (400 * a + 100 * b + 4 * c + e + 1)
      with ((100 * b + 4 * c + e + 1) + a * 400) by lia.
    apply Z_mod_plus_full. }
  rewrite H4, H100, H400.
  destruct (Z.eqb_spec e 3) as [->|He3].
  - replace ((3 + 1) mod 4) with 0 by reflexivity. simpl.
    destruct (Z.eqb_spec c 24) as [->|Hc24]; simpl.
    + replace ((4 * 24 + 3 + 1) mod 100) with 0 by reflexivity. simpl.
      destruct (Z.eqb_spec b 3) as [->|Hb3]; [reflexivity|].
      apply Z.eqb_neq. intros Hm.
      apply Z.mod_divide in Hm; [|lia]. destruct Hm as [q Hq]. lia.
    + replace ((4 * c + 3 + 1) mod 100 =? 0) with false; [reflexivity|].
      symmetry. apply Z.eqb_neq. rewrite Z.mod_small by lia. lia.
  - replace ((e + 1) mod 4 =? 0) with false; [reflexivity|].
    symmetry. apply Z.eqb_neq. rewrite Z.mod_small by lia. lia.
Qed.

(** [ord2ymd] yields the fields of a date, and [ymd2ord] leads back. *)
Lemma ord2ymd_spec (d : Z) :
  valid d ->
  let '(y, m, dd) := ord2ymd d in
  valid_ymd y m dd = true /\ ymd2ord y m dd = d.
Proof.
  intros [Hlo Hhi]. unfold max_ordinal in Hhi. unfold ord2ymd.
  set (n := d - 1).
  pose proof (Z.div_mod n 146097 ltac:(lia)) as E400.
  pose proof (Z.mod_pos_bound n 146097 ltac:(lia)) as B400.
  set (a := n / 146097) in *. set (r400 := n mod 146097) in *.
  pose proof (Z.div_mod r400 36524 ltac:(lia)) as E100.
  pose proof (Z.mod_pos_bound r400 36524 ltac:(lia)) as B100.
  set (b := r400 / 36524) in *. set (r100 := r400 mod 36524) in *.
  pose proof (Z.div_mod r100 1461 ltac:(lia)) as E4.
  pose proof (Z.mod_pos_bound r100 1461 ltac:(lia)) as B4.
  set (c := r100 / 1461) in *. set (r4 := r100 mod 1461) in *.
  pose proof (Z.div_mod r4 365 ltac:(lia)) as E1.
  pose proof (Z.mod_pos_bound r4 365 ltac:(lia)) as B1.
  set (e := r4 / 365) in *. set (r1 := r4 mod 365) in *.
  assert (Hn : n = d - 1) by reflexivity.
  clearbody n a r400 b r100 c r4 e r1.
  assert (Ha : 0 <= a <= 24) by lia.
  assert (Hb : 0 <= b <= 4) by lia.
  assert (Hc : 0 <= c <= 24) by lia.
  assert (He : 0 <= e <= 4) by lia.
  destruct (Z.eqb_spec e 4) as [He4|He4]; simpl.
  - (* the last day of a leap year that closes a 4-year cycle *)
    assert (Hc23 : c <= 23) by lia.
    replace (a * 400 + 1 + b * 100 + c * 4 + e - 1)
      with (400 * a + 100 * b + 4 * c + 3 + 1) by lia.
    assert (Hb3 : b <= 3) by lia.
    unfold valid_ymd, ymd2ord, days_in_month, days_before_month.
    rewrite days_before_year_cycles, is_leap_cycles by lia.
    replace (c =? 24) with false by (symmetry; apply Z.eqb_neq; lia).
    simpl.
    change (days_before_month_of true 12) with 335.
    change (days_in_month_of true 12) with 31.
    split; [|lia].
    repeat (apply andb_true_intro; split); try reflexivity; apply Z.leb_le; lia.
  - destruct (Z.eqb_spec b 4) as [Hb4|Hb4]; simpl.
    + (* the last day of a 400-year cycle *)
      assert (Hc0 : c = 0) by lia. assert (He0 : e = 0) by lia.
      replace (a * 400 + 1 + b * 100 + c * 4 + e - 1)
        with (400 * a + 100 * 3 + 4 * 24 + 3 + 1) by lia.
      unfold valid_ymd, ymd2ord, days_in_month, days_before_month.
      rewrite days_before_year_cycles, is_leap_cycles by lia.
      simpl.
      change (days_before_month_of true 12) with 335.
      change (days_in_month_of true 12) with 31.
      split; [|lia].
      repeat (apply andb_true_intro; split); try reflexivity; apply Z.leb_le; lia.
    + replace (a * 400 + 1 + b * 100 + c * 4 + e)
        with (400 * a + 100 * b + 4 * c + e + 1) by lia.
      pose proof (is_leap_cycles a b c e ltac:(lia) ltac:(lia) ltac:(lia)) as Hleap.
      pose proof (days_before_year_cycles a b c e ltac:(lia) ltac:(lia) ltac:(lia))
        as Hdby.
      set (leap := (e =? 3) && (negb (c =? 24) || (b =? 3))) in *.
      assert (Hr : 0 <= r1 < 365 + (if leap then 1 else 0))
        by (destruct leap; lia).
      pose proof (ord2md_spec leap r1 Hr) as Hmd. unfold ord2md_ok in Hmd.
      destruct (ord2md leap r1) as [m dd].
      repeat (apply andb_prop in Hmd; destruct Hmd as [Hmd ?]).
      unfold valid_ymd, ymd2ord, days_in_month, days_before_month.
      rewrite Hleap, Hdby. split.
      * repeat (apply andb_true_intro; split); try assumption; apply Z.leb_le; lia.
      * apply Z.eqb_eq in H. lia.
Qed.

Lemma digit_val_digit (n : Z) : digit_val (digit n) = Some (n mod 10).
Proof.
  unfold digit. pose proof (Z.mod_pos_bound n 10 ltac:(lia)) as Hb.
  assert (Hcases : n mod 10 = 0 \/ n mod 10 = 1 \/ n mod 10 = 2 \/ n mod 10 = 3
                   \/ n mod 10 = 4 \/ n mod 10 = 5 \/ n mod 10 = 6
                   \/ n mod 10 = 7 \/ n mod 10 = 8 \/ n mod 10 = 9) by lia.
  repeat (destruct Hcases as [-> | Hcases]; [reflexivity|]).
  rewrite Hcases. reflexivity.
Qed.

Lemma parse_fmt4 (y : Z) : 0 <= y <= 9999 -> parse_digits 0 (fmt4 y) = Some y.
Proof.
  intros Hy. unfold fmt4. cbn [parse_digits]. rewrite !digit_val_digit. f_equal.
  replace (y / 1000) with (y / 10 / 10 / 10) by (rewrite !Z.div_div by lia; reflexivity).
  replace (y / 100) with (y / 10 / 10) by (rewrite !Z.div_div by lia; reflexivity).
  pose proof (Z.div_mod y 10 ltac:(lia)) as E0.
  pose proof (Z.mod_pos_bound y 10 ltac:(lia)) as B0.
  set (q1 := y / 10) in *.
  pose proof (Z.div_mod q1 10 ltac:(lia)) as E1.
  pose proof (Z.mod_pos_bound q1 10 ltac:(lia)) as B1.
  set (q2 := q1 / 10) in *.
  pose proof (Z.div_mod q2 10 ltac:(lia)) as E2.
  pose proof (Z.mod_pos_bound q2 10 ltac:(lia)) as B2.
  set (q3 := q2 / 10) in *.
  assert (E3 : q3 mod 10 = q3) by (apply Z.mod_small; lia).
  clearbody q1 q2 q3. lia.
Qed.

Lemma parse_fmt2 (m : Z) : 0 <= m <= 99 -> parse_digits 0 (fmt2 m) = Some m.
Proof.
  intros Hm. unfold fmt2. cbn [parse_digits]. rewrite !digit_val_digit. f_equal.
  pose proof (Z.div_mod m 10 ltac:(lia)) as E0.
  pose proof (Z.mod_pos_bound m 10 ltac:(lia)) as B0.
  set (q1 := m / 10) in *.
  assert (E1 : q1 mod 10 = q1) by (apply Z.mod_small; lia).
  clearbody q1. lia.
Qed.

Lemma days_in_month_le_31 (y m : Z) : days_in_month y m <= 31.
Proof.
  unfold days_in_month, days_in_month_of.
  destruct (Z_lt_le_dec m 0) as [Hneg|Hnn].
  - rewrite Z2Nat.nonpos by lia. simpl.
    destruct (m =? 2) eqn:E; [apply Z.eqb_eq in E; lia|]. simpl. lia.
  - destruct (Z_le_gt_dec 13 m) as [Hbig|Hsmall].
    + rewrite nth_overflow by (simpl; lia).
      destruct (m =? 2) eqn:E; [apply Z.eqb_eq in E; lia|]. simpl. lia.
    + assert (Hcases : m = 0 \/ m = 1 \/ m = 2 \/ m = 3 \/ m = 4 \/ m = 5
                       \/ m = 6 \/ m = 7 \/ m = 8 \/ m = 9 \/ m = 10
                       \/ m = 11 \/ m = 12) by lia.
      repeat (destruct Hcases as [-> | Hcases];
              [destruct (is_leap y); simpl; lia|]).
      rewrite Hcases. destruct (is_leap y); simpl; lia.
Qed.

(** What [isoformat] writes, [fromisoformat] reads back. *)
Lemma fromisoformat_ymd_isoformat (d : Z) :
  valid d -> fromisoformat_ymd (isoformat d) = Ok d.
Proof.
  intros Hd. pose proof (ord2ymd_spec d Hd) as Hspec.
  unfold fromisoformat_ymd, isoformat.
  destruct (ord2ymd d) as [[y m] dd]. destruct Hspec as [Hv Hord].
  unfold Str.chars, Str.of_chars. rewrite list_ascii_of_string_of_list_ascii.
  pose proof Hv as Hv'. unfold valid_ymd in Hv'.
  repeat (apply andb_prop in Hv'; destruct Hv' as [Hv' ?]).
  pose proof (days_in_month_le_31 y m).
  cbn [fmt4 fmt2 app].
  change (negb (Ascii.eqb "-" "-" && Ascii.eqb "-" "-")) with false.
  cbv iota.
  change [digit (y / 1000); digit (y / 100); digit (y / 10); digit y] with (fmt4 y).
  change [digit (m / 10); digit m] with (fmt2 m).
  change [digit (dd / 10); digit dd] with (fmt2 dd).
  rewrite parse_fmt4, !parse_fmt2 by lia.
  rewrite Hv, Hord. reflexivity.
Qed.

Lemma isoformat_inj (d1 d2 : Z) :
  valid d1 -> valid d2 -> isoformat d1 = isoformat d2 -> d1 = d2.
Proof.
  intros H1 H2 Heq.
  pose proof (fromisoformat_ymd_isoformat d1 H1) as E1.
  rewrite Heq, (fromisoformat_ymd_isoformat d2 H2) in E1. congruence.
Qed.

Lemma days_before_year_bound (y : Z) :
  1 <= y <= 9998 -> 0 <= days_before_year y <= 3651329.
Proof.
  intros Hy. unfold days_before_year.
  pose proof (Z.div_mod (y - 1) 4 ltac:(lia)) as E4.
  pose proof (Z.mod_pos_bound (y - 1) 4 ltac:(lia)) as B4.
  pose proof (Z.div_mod (y - 1) 100 ltac:(lia)) as E100.
  pose proof (Z.mod_pos_bound (y - 1) 100 ltac:(lia)) as B100.
  pose proof (Z.div_mod (y - 1) 400 ltac:(lia)) as E400.
  pose proof (Z.mod_pos_bound (y - 1) 400 ltac:(lia)) as B400.
  set (q4 := (y - 1) / 4) in *. set (q100 := (y - 1) / 100) in *.
  set (q400 := (y - 1) / 400) in *.
  clearbody q4 q100 q400. lia.
Qed.

Lemma day_of_year_bound (leap : bool) (m d : Z) :
  1 <= m <= 12 -> 1 <= d <= days_in_month_of leap m ->
  1 <= days_before_month_of leap m + d <= 365 + (if leap then 1 else 0).
Proof.
  intros Hm Hd.
  assert (Htbl : 0 <= days_before_month_of leap m
                 /\ days_before_month_of leap m + days_in_month_of leap m
                    <= 365 + (if leap then 1 else 0)).
  { assert (Hcases : m = 1 \/ m = 2 \/ m = 3 \/ m = 4 \/ m = 5 \/ m = 6 \/ m = 7
                     \/ m = 8 \/ m = 9 \/ m = 10 \/ m = 11 \/ m = 12) by lia.
    repeat (destruct Hcases as [-> | Hcases];
            [destruct leap; split; apply Z.leb_le; reflexivity|]).
    subst m. destruct leap; split; apply Z.leb_le; reflexivity. }
  lia.
Qed.

(** A date that is read is a date of the calendar. *)
Lemma ymd2ord_valid (y m d : Z) :
  valid_ymd y m d = true -> valid (ymd2ord y m d).
Proof.
  unfold valid_ymd. intros H.
  repeat (apply andb_prop in H; destruct H as [H ?]).
  pose proof (day_of_year_bound (is_leap y) m d ltac:(lia)) as Hdoy.
  unfold days_in_month in *. specialize (Hdoy ltac:(lia)).
  unfold valid, max_ordinal, ymd2ord, days_before_month.
  destruct (Z.eq_dec y 9999) as [->|Hy].
  - change (is_leap 9999) with false in *.
    change (days_before_year 9999) with 3651694. lia.
  - pose proof (days_before_year_bound y ltac:(lia)).
    destruct (is_leap y); lia.
Qed.

Lemma fromisoformat_ymd_cases (s : string) :
  (exists d, fromisoformat_ymd s = Ok d /\ valid d)
  \/ fromisoformat_ymd s = Raise ValueError.
Proof.
  unfold fromisoformat_ymd.
  repeat (match goal with
          | |- context [match ?l with [] => _ | _ :: _ => _ end] =>
              destruct l; try (right; reflexivity)
          end).
  - destruct (negb _); [by right|].
    repeat (match goal with
            | |- context [match ?o with Some _ => _ | None => _ end] =>
                destruct o; try (right; reflexivity)
            end).
    destruct (valid_ymd _ _ _) eqn:Hv; [|by right].
    left. eexists. split; [reflexivity|]. by apply ymd2ord_valid.
Qed.

(** Whatever the version of Python, [fromisoformat] reads back what
    [isoformat] writes, and it returns a date of the calendar or raises
    [ValueError]. *)
Lemma fromisoformat_isoformat {py : version} (d : Z) :
  valid d -> fromisoformat (VStr (isoformat d)) = Ok d.
Proof.
  intros Hd. unfold fromisoformat, fromisoformat_str.
  rewrite (fromisoformat_ymd_isoformat d Hd). reflexivity.
Qed.

Lemma fromisoformat_str_cases {py : version} (s : string) :
  (exists d, fromisoformat_str s = Ok d /\ valid d)
  \/ fromisoformat_str s = Raise ValueError.
Proof.
  unfold fromisoformat_str.
  destruct (fromisoformat_ymd_cases s) as [(d & -> & Hd) | ->].
  - left. exists d. split; [reflexivity|exact Hd].
  - destruct (String.eqb s ""); [right; reflexivity|].
    destruct (also_reads s) as [d|]; [|right; reflexivity].
    destruct ((1 <=? d) && (d <=? max_ordinal)) eqn:E; [|right; reflexivity].
    left. exists d. split; [reflexivity|].
    apply andb_true_iff in E as [E1 E2].
    apply Z.leb_le in E1, E2. unfold valid. lia.
Qed.

(** On a [YYYY-MM-DD] date every version reads the same. *)
Lemma fromisoformat_str_ymd {py : version} (s : string) (d : Z) :
  fromisoformat_ymd s = Ok d -> fromisoformat_str s = Ok d.
Proof. intros E. unfold fromisoformat_str. rewrite E. reflexivity. Qed.

End DateFacts.

(** ** The order of dates and the order of their strings *)

Module DateOrder.
Import Date.

Lemma lexc_assoc (a b c : comparison) : lexc (lexc a b) c = lexc a (lexc b c).
Proof. by destruct a. Qed.

Lemma days_before_year_succ (y : Z) :
  days_before_year (y + 1)
  = days_before_year y + 365 + (if is_leap y then 1 else 0).
Proof.
  unfold days_before_year, is_leap.
  replace (y + 1 - 1) with y by lia.
  pose proof (Z.div_mod y 4 ltac:(lia)) as E4.
  pose proof (Z.mod_pos_bound y 4 ltac:(lia)) as B4.
  pose proof (Z.div_mod y 100 ltac:(lia)) as E100.
  pose proof (Z.mod_pos_bound y 100 ltac:(lia)) as B100.
  pose proof (Z.div_mod y 400 ltac:(lia)) as E400.
  pose proof (Z.mod_pos_bound y 400 ltac:(lia)) as B400.
  pose proof (Z.div_mod (y - 1) 4 ltac:(lia)) as F4.
  pose proof (Z.mod_pos_bound (y - 1) 4 ltac:(lia)) as C4.
  pose proof (Z.div_mod (y - 1) 100 ltac:(lia)) as F100.
  pose proof (Z.mod_pos_bound (y - 1) 100 ltac:(lia)) as C100.
  pose proof (Z.div_mod (y - 1) 400 ltac:(lia)) as F400.
  pose proof (Z.mod_pos_bound (y - 1) 400 ltac:(lia)) as C400.
  destruct (Z.eqb_spec (y mod 4) 0), (Z.eqb_spec (y mod 100) 0),
           (Z.eqb_spec (y mod 400) 0); cbn [negb andb orb]; lia.
Qed.

Lemma days_before_year_mono (y y' : Z) :
  y <= y' -> days_before_year y <= days_before_year y'.
Proof.
  intros Hle. unfold days_before_year.
  pose proof (Z.div_mod (y - 1) 4 ltac:(lia)) as E4.
  pose proof (Z.mod_pos_bound (y - 1) 4 ltac:(lia)) as B4.
  pose proof (Z.div_mod (y - 1) 100 ltac:(lia)) as E100.
  pose proof (Z.mod_pos_bound (y - 1) 100 ltac:(lia)) as B100.
  pose proof (Z.div_mod (y - 1) 400 ltac:(lia)) as E400.
  pose proof (Z.mod_pos_bound (y - 1) 400 ltac:(lia)) as B400.
  pose proof (Z.div_mod (y' - 1) 4 ltac:(lia)) as F4.
  pose proof (Z.mod_pos_bound (y' - 1) 4 ltac:(lia)) as C4.
  pose proof (Z.div_mod (y' - 1) 100 ltac:(lia)) as F100.
  pose proof (Z.mod_pos_bound (y' - 1) 100 ltac:(lia)) as C100.
  pose proof (Z.div_mod (y' - 1) 400 ltac:(lia)) as F400.
  pose proof (Z.mod_pos_bound (y' - 1) 400 ltac:(lia)) as C400.
  lia.
Qed.

Lemma month_step (leap : bool) (m1 m2 : Z) :
  1 <= m1 -> m1 < m2 -> m2 <= 12 ->
  days_before_month_of leap m1 + days_in_month_of leap m1
  <= days_before_month_of leap m2.
Proof.
  intros H1 H12 H2.
  assert (Hall : month_step_ok leap = true) by (destruct leap; vm_compute; reflexivity).
  unfold month_step_ok in Hall. rewrite forallb_forall in Hall.
  assert (In1 : In (Z.to_nat m1) (seq 1 12)) by (apply in_seq; lia).
  assert (In2 : In (Z.to_nat m2) (seq 1 12)) by (apply in_seq; lia).
  specialize (Hall (Z.to_nat m1) In1). rewrite forallb_forall in Hall.
  specialize (Hall (Z.to_nat m2) In2).
  rewrite !Z2Nat.id in Hall by lia.
  replace (Z.to_nat m1 <? Z.to_nat m2)%nat with true in Hall
    by (symmetry; apply Nat.ltb_lt; lia).
  by apply Z.leb_le.
Qed.

(** The ordinal grows with the fields taken in the order year, month,
    day. *)
Lemma ymd2ord_lex_lt (y1 m1 d1 y2 m2 d2 : Z) :
  valid_ymd y1 m1 d1 = true -> valid_ymd y2 m2 d2 = true ->
  y1 < y2 \/ (y1 = y2 /\ (m1 < m2 \/ (m1 = m2 /\ d1 < d2))) ->
  ymd2ord y1 m1 d1 < ymd2ord y2 m2 d2.
Proof.
  unfold valid_ymd. intros V1 V2 Hlt.
  repeat (apply andb_prop in V1; destruct V1 as [V1 ?]).
  repeat (apply andb_prop in V2; destruct V2 as [V2 ?]).
  unfold days_in_month in *.
  pose proof (DateFacts.day_of_year_bound (is_leap y1) m1 d1 ltac:(lia) ltac:(lia)).
  pose proof (DateFacts.day_of_year_bound (is_leap y2) m2 d2 ltac:(lia) ltac:(lia)).
  unfold ymd2ord, days_before_month.
  destruct Hlt as [Hy | [-> [Hm | [-> Hd]]]].
  - pose proof (days_before_year_succ y1).
    pose proof (days_before_year_mono (y1 + 1) y2 ltac:(lia)).
    destruct (is_leap y1); lia.
  - pose proof (month_step (is_leap y2) m1 m2 ltac:(lia) Hm ltac:(lia)). lia.
  - lia.
Qed.

Lemma ymd2ord_compare (y1 m1 d1 y2 m2 d2 : Z) :
  valid_ymd y1 m1 d1 = true -> valid_ymd y2 m2 d2 = true ->
  (ymd2ord y1 m1 d1 ?= ymd2ord y2 m2 d2)
  = lexc (y1 ?= y2) (lexc (m1 ?= m2) (d1 ?= d2)).
Proof.
  intros V1 V2.
  destruct (Z.compare_spec y1 y2) as [Hy|Hy|Hy]; cbn [lexc].
  - destruct (Z.compare_spec m1 m2) as [Hm|Hm|Hm]; cbn [lexc].
    + destruct (Z.compare_spec d1 d2) as [Hd|Hd|Hd].
      * subst. apply Z.compare_refl.
      * apply Z.compare_lt_iff. apply ymd2ord_lex_lt; auto.
      * apply Z.compare_gt_iff. apply ymd2ord_lex_lt; auto.
    + apply Z.compare_lt_iff. apply ymd2ord_lex_lt; auto.
    + apply Z.compare_gt_iff. apply ymd2ord_lex_lt; auto.
  - apply Z.compare_lt_iff. apply ymd2ord_lex_lt; auto.
  - apply Z.compare_gt_iff. apply ymd2ord_lex_lt; auto.
Qed.

(** Decimal digits compare as the numbers they write. *)
Lemma ascii_compare_digit (a b : Z) :
  Ascii.compare (digit a) (digit b) = (a mod 10 ?= b mod 10).
Proof.
  unfold digit.
  pose proof (Z.mod_pos_bound a 10 ltac:(lia)) as Ha.
  pose proof (Z.mod_pos_bound b 10 ltac:(lia)) as Hb.
  assert (Hca : a mod 10 = 0 \/ a mod 10 = 1 \/ a mod 10 = 2 \/ a mod 10 = 3
                \/ a mod 10 = 4 \/ a mod 10 = 5 \/ a mod 10 = 6
                \/ a mod 10 = 7 \/ a mod 10 = 8 \/ a mod 10 = 9) by lia.
  assert (Hcb : b mod 10 = 0 \/ b mod 10 = 1 \/ b mod 10 = 2 \/ b mod 10 = 3
                \/ b mod 10 = 4 \/ b mod 10 = 5 \/ b mod 10 = 6
                \/ b mod 10 = 7 \/ b mod 10 = 8 \/ b mod 10 = 9) by lia.
  repeat (destruct Hca as [-> | Hca]);
    try rewrite Hca;
    repeat (destruct Hcb as [-> | Hcb]);
    try rewrite Hcb; reflexivity.
Qed.

Lemma lex_step (q1 r1 q2 r2 : Z) :
  0 <= r1 < 10 -> 0 <= r2 < 10 ->
  (10 * q1 + r1 ?= 10 * q2 + r2) = lexc (q1 ?= q2) (r1 ?= r2).
Proof.
  intros H1 H2.
  destruct (Z.compare_spec q1 q2) as [Hq|Hq|Hq]; cbn [lexc].
  - subst. destruct (Z.compare_spec r1 r2).
    + subst. apply Z.compare_refl.
    + apply Z.compare_lt_iff. lia.
    + apply Z.compare_gt_iff. lia.
  - apply Z.compare_lt_iff. lia.
  - apply Z.compare_gt_iff. lia.
Qed.

Lemma compare_by_tens (a b : Z) :
  (a ?= b) = lexc (a / 10 ?= b / 10) (a mod 10 ?= b mod 10).
Proof.
  rewrite (Z.div_mod a 10) at 1 by lia. rewrite (Z.div_mod b 10) at 1 by lia.
  apply lex_step; apply Z.mod_pos_bound; lia.
Qed.

Lemma compare_fmt2 (a b : Z) (rest : comparison) :
  0 <= a <= 99 -> 0 <= b <= 99 ->
  lexc (a / 10 mod 10 ?= b / 10 mod 10) (lexc (a mod 10 ?= b mod 10) rest)
  = lexc (a ?= b) rest.
Proof.
  intros Ha Hb.
  rewrite (Z.mod_small (a / 10)), (Z.mod_small (b / 10))
    by (split; [apply Z.div_pos; lia|apply Z.div_lt_upper_bound; lia]).
  rewrite <- lexc_assoc, <- compare_by_tens. reflexivity.
Qed.

Lemma compare_fmt4 (a b : Z) (rest : comparison) :
  0 <= a <= 9999 -> 0 <= b <= 9999 ->
  lexc (a / 1000 mod 10 ?= b / 1000 mod 10)
    (lexc (a / 100 mod 10 ?= b / 100 mod 10)
       (lexc (a / 10 mod 10 ?= b / 10 mod 10) (lexc (a mod 10 ?= b mod 10) rest)))
  = lexc (a ?= b) rest.
Proof.
  intros Ha Hb.
  rewrite (Z.mod_small (a / 1000)), (Z.mod_small (b / 1000))
    by (split; [apply Z.div_pos; lia|apply Z.div_lt_upper_bound; lia]).
  replace (a / 1000) with (a / 100 / 10) by (rewrite Z.div_div by lia; reflexivity).
  replace (b / 1000) with (b / 100 / 10) by (rewrite Z.div_div by lia; reflexivity).
  rewrite <- (lexc_assoc (a / 100 / 10 ?= b / 100 / 10)), <- compare_by_tens.
  replace (a / 100) with (a / 10 / 10) by (rewrite Z.div_div by lia; reflexivity).
  replace (b / 100) with (b / 10 / 10) by (rewrite Z.div_div by lia; reflexivity).
  rewrite <- (lexc_assoc (a / 10 / 10 ?= b / 10 / 10)), <- compare_by_tens.
  rewrite <- lexc_assoc, <- compare_by_tens. reflexivity.
Qed.

Lemma string_compare_cons (a b : ascii) (s t : string) :
  String.compare (String a s) (String b t)
  = lexc (Ascii.compare a b) (String.compare s t).
Proof. reflexivity. Qed.

(** The strings of two dates compare as the dates. *)
Lemma isoformat_compare (d1 d2 : Z) :
  valid d1 -> valid d2 ->
  String.compare (isoformat d1) (isoformat d2) = (d1 ?= d2).
Proof.
  intros H1 H2.
  pose proof (DateFacts.ord2ymd_spec d1 H1) as S1.
  pose proof (DateFacts.ord2ymd_spec d2 H2) as S2.
  unfold isoformat.
  destruct (ord2ymd d1) as [[y1 m1] dd1], (ord2ymd d2) as [[y2 m2] dd2].
  destruct S1 as [V1 <-], S2 as [V2 <-].
  rewrite ymd2ord_compare by assumption.
  pose proof (DateFacts.days_in_month_le_31 y1 m1).
  pose proof (DateFacts.days_in_month_le_31 y2 m2).
  unfold valid_ymd in V1, V2.
  repeat (apply andb_prop in V1; destruct V1 as [V1 ?]).
  repeat (apply andb_prop in V2; destruct V2 as [V2 ?]).
  cbn [fmt4 fmt2 app Str.of_chars string_of_list_ascii].
  rewrite !string_compare_cons, !ascii_compare_digit.
  change (Ascii.compare "-" "-") with Eq.
  change (String.compare "" "") with Eq.
  cbn [lexc].
  rewrite (compare_fmt2 dd1 dd2 Eq) by lia.
  rewrite (compare_fmt2 m1 m2) by lia.
  rewrite (compare_fmt4 y1 y2) by lia.
  f_equal. f_equal. by destruct (dd1 ?= dd2).
Qed.

Lemma isoformat_ltb (d1 d2 : Z) :
  valid d1 -> valid d2 ->
  String.ltb (isoformat d1) (isoformat d2) = (d1 <? d2).
Proof.
  intros H1 H2. unfold String.ltb, Z.ltb.
  by rewrite isoformat_compare.
Qed.

Lemma isoformat_leb (d1 d2 : Z) :
  valid d1 -> valid d2 ->
  String.leb (isoformat d1) (isoformat d2) = (d1 <=? d2).
Proof.
  intros H1 H2. unfold String.leb, Z.leb.
  by rewrite isoformat_compare.
Qed.

End DateOrder.

(** ** Looking a record up *)

Section Lookup.

Lemma found_truthy_Some (licenses : list license) found (i : nat) (lic : license) :
  found_truthy licenses found = Some (i, lic) ->
  found = Some i /\ licenses !! i = Some lic /\ lic <> ∅.
Proof.
  unfold found_truthy. destruct found as [j|]; [|discriminate].
  destruct (licenses !! j) as [l|] eqn:Hl; [|discriminate].
  unfold dict_truthy. case_bool_decide; [|discriminate].
  intros [= <- <-]. auto.
Qed.

Lemma finds_lookup (e : env) (arg : string) (i : nat) (lic : license) :
  finds e arg i lic -> (get_licenses e).1 !! i = Some lic /\ lic <> ∅.
Proof.
  intros (found & _ & Ht). apply found_truthy_Some in Ht. tauto.
Qed.

(** Without a token nothing is fetched, so nothing is found. *)
Lemma finds_token (e : env) (arg : string) (i : nat) (lic : license) :
  finds e arg i lic -> String.eqb (github_token e) "" = false.
Proof.
  intros Hf. apply finds_lookup in Hf as [Hl _].
  unfold get_licenses in Hl.
  destruct (String.eqb (github_token e) ""); [discriminate|reflexivity].
Qed.

Lemma save_and_reply_after (e : env) licenses sha message ok :
  licenses_after (save_and_reply e licenses sha message ok) = licenses.
Proof. unfold save_and_reply. destruct (save_licenses _ _ _ _). reflexivity. Qed.

(** With a token the list in memory is the list that is sent. *)
Lemma save_and_reply_put (e : env) licenses sha message ok :
  String.eqb (github_token e) "" = false ->
  exists req,
    put (save_and_reply e licenses sha message ok) = Some req
    /\ put_licenses req = licenses.
Proof.
  intros Htok. unfold save_and_reply, save_licenses. rewrite Htok.
  eexists; split; reflexivity.
Qed.

(** Facts about the examples. *)
Lemma ana_found : finds (mk_env day0 [ana]) "123.456.789-01" 0 ana.
Proof. exists (Some 0%nat). split; vm_refl. Defined.

Lemma ana_str_key : str_member ana "key".
Proof.
  intros n. replace (ana !! "key") with (Some (VStr "XK3F-9MPQ-7RTV-2WZY")) by vm_refl.
  discriminate.
Defined.

Lemma ana_str_expires : str_member ana "expires".
Proof.
  intros n. replace (ana !! "expires") with (Some (VStr "2025-06-11")) by vm_refl.
  discriminate.
Defined.

Lemma day0_valid : Date.valid day0.
Proof. unfold Date.valid, day0, Date.max_ordinal. lia. Defined.

End Lookup.

(** Unfolds a handler at a record that it finds. *)
Ltac at_found H :=
  let found := fresh "found" in
  let Hfind := fresh "Hfind" in
  let Htruthy := fresh "Htruthy" in
  destruct H as (found & Hfind & Htruthy);
  destruct (get_licenses _) as [licenses sha] eqn:Hget;
  cbn [fst snd] in *;
  rewrite Hfind; cbn [mbind result_bind];
  rewrite Htruthy.

(** ** Suspension *)

(** C9. For every record that [/suspender] finds, the handler sets
    ["status"] to ["suspended"] and leaves every other member of the
    record (["expires"] and ["key"] among them) as it was; the record
    stays at its place, the other records are untouched, and the list is
    sent to the store. *)
Theorem suspender_frame (e : env) (arg : string) (i : nat) (lic : license) :
  finds e arg i lic ->
  exists o lic',
    Telegram.suspender e arg = Ok o
    /\ licenses_after o !! i = Some lic'
    /\ lic' !! "status" = Some (VStr "suspended")
    /\ (forall k, k <> "status" -> lic' !! k = lic !! k)
    /\ lic' !! "expires" = lic !! "expires"
    /\ lic' !! "key" = lic !! "key"
    /\ length (licenses_after o) = length (get_licenses e).1
    /\ (forall j, j <> i -> licenses_after o !! j = (get_licenses e).1 !! j)
    /\ (exists req, put o = Some req /\ put_licenses req = licenses_after o).
Proof.
  intros Hf.
  pose proof (finds_lookup _ _ _ _ Hf) as [Hl Hne].
  pose proof (finds_token _ _ _ _ Hf) as Htok.
  unfold Telegram.suspender. at_found Hf.
  eexists. exists (<["status" := VStr "suspended"]> lic).
  split; [reflexivity|].
  rewrite save_and_reply_after.
  assert (Hi : (i < length licenses)%nat) by (eapply lookup_lt_Some; eauto).
  repeat split.
  - by apply list_lookup_insert_eq.
  - by rewrite lookup_insert_eq.
  - intros k Hk. by rewrite lookup_insert_ne.
  - by rewrite lookup_insert_ne.
  - by rewrite lookup_insert_ne.
  - by rewrite length_insert.
  - intros j Hj. by rewrite list_lookup_insert_ne.
  - by apply save_and_reply_put.
Qed.

Lemma suspender_frame_witness :
  finds (mk_env day0 [ana]) "123.456.789-01" 0 ana
  /\ exists o lic',
      Telegram.suspender (mk_env day0 [ana]) "123.456.789-01" = Ok o
      /\ licenses_after o !! 0%nat = Some lic'
      /\ lic' !! "status" = Some (VStr "suspended")
      /\ lic' !! "expires" = ana !! "expires"
      /\ lic' !! "key" = ana !! "key".
Proof.
  assert (H : finds (mk_env day0 [ana]) "123.456.789-01" 0 ana)
    by (exists (Some 0%nat); split; vm_refl).
  split; [exact H|].
  destruct (suspender_frame _ _ _ _ H)
    as (o & lic' & Ho & Hi & Hs & _ & He & Hk & _).
  exists o, lic'. auto.
Defined.

(** ** Cancellation *)

(** C2, as stated, fails on [telegram-bot/bot.py]: its [/cancelar]
    changes the status only.  Ana's license keeps its key and its
    expiration of 2025-06-11 when it is cancelled on 2025-06-01. *)
Lemma cancelar_telegram_keeps_key_and_expires :
  let e := mk_env day0 [ana] in
  let r := Telegram.cancelar e "123.456.789-01" in
  finds e "123.456.789-01" 0 ana
  /\ member_after r 0 "status" = Some (VStr "cancelled")
  /\ member_after r 0 "key" = Some (VStr "XK3F-9MPQ-7RTV-2WZY")
  /\ member_after r 0 "key" <> Some (VStr "")
  /\ member_after r 0 "expires" = Some (VStr "2025-06-11")
  /\ Date.isoformat (today e) = "2025-06-01"
  /\ member_after r 0 "expires" <> Some (VStr (Date.isoformat (today e))).
Proof.
  cbv zeta.
  assert (Hk : member_after (Telegram.cancelar (mk_env day0 [ana]) "123.456.789-01")
                 0 "key" = Some (VStr "XK3F-9MPQ-7RTV-2WZY")) by vm_refl.
  assert (He : member_after (Telegram.cancelar (mk_env day0 [ana]) "123.456.789-01")
                 0 "expires" = Some (VStr "2025-06-11")) by vm_refl.
  assert (Ht : Date.isoformat (today (mk_env day0 [ana])) = "2025-06-01") by vm_refl.
  split; [exists (Some 0%nat); split; vm_refl|].
  split; [vm_refl|].
  split; [exact Hk|].
  split; [rewrite Hk; discriminate|].
  split; [exact He|].
  split; [exact Ht|].
  rewrite He, Ht. discriminate.
Qed.

(** C2, amended.  For every record that [/cancelar] finds:
    - [bot.py] sets ["status"] to ["cancelled"], ["expires"] to today
      and ["key"] to the empty string, and changes no other member;
    - [telegram-bot/bot.py] sets ["status"] to ["cancelled"] and changes
      no other member, so the expiration and the key stay.
    In both the record stays at its place in the list, no record is
    removed or added, and the list is sent to the store. *)
Theorem cancelar_effect {py : Date.version}
    (e : env) (arg : string) (i : nat) (lic : license) :
  finds e arg i lic ->
  (exists o lic',
      Root.cancelar e arg = Ok o
      /\ licenses_after o !! i = Some lic'
      /\ lic' !! "status" = Some (VStr "cancelled")
      /\ lic' !! "expires" = Some (VStr (Date.isoformat (today e)))
      /\ (Date.valid (today e) -> expires_on lic' = Ok (today e))
      /\ lic' !! "key" = Some (VStr "")
      /\ (forall k, k <> "status" -> k <> "expires" -> k <> "key" ->
                    lic' !! k = lic !! k)
      /\ length (licenses_after o) = length (get_licenses e).1
      /\ (forall j, j <> i -> licenses_after o !! j = (get_licenses e).1 !! j)
      /\ (exists req, put o = Some req /\ put_licenses req = licenses_after o))
  /\ (exists o lic',
      Telegram.cancelar e arg = Ok o
      /\ licenses_after o !! i = Some lic'
      /\ lic' !! "status" = Some (VStr "cancelled")
      /\ (forall k, k <> "status" -> lic' !! k = lic !! k)
      /\ length (licenses_after o) = length (get_licenses e).1
      /\ (forall j, j <> i -> licenses_after o !! j = (get_licenses e).1 !! j)
      /\ (exists req, put o = Some req /\ put_licenses req = licenses_after o)).
Proof.
  intros Hf.
  pose proof (finds_lookup _ _ _ _ Hf) as [Hl Hne].
  pose proof (finds_token _ _ _ _ Hf) as Htok.
  assert (Hi : (i < length (get_licenses e).1)%nat) by (eapply lookup_lt_Some; eauto).
  split.
  - unfold Root.cancelar. at_found Hf.
    eexists. eexists. split; [reflexivity|].
    rewrite save_and_reply_after.
    split; [by apply list_lookup_insert_eq|].
    repeat split.
    + by rewrite lookup_insert_ne, lookup_insert_ne, lookup_insert_eq.
    + by rewrite lookup_insert_ne, lookup_insert_eq.
    + intros Hv. unfold expires_on, dict_get.
      rewrite lookup_insert_ne, lookup_insert_eq by done.
      by apply DateFacts.fromisoformat_isoformat.
    + by rewrite lookup_insert_eq.
    + intros k H1 H2 H3. by rewrite !lookup_insert_ne.
    + by rewrite length_insert.
    + intros j Hj. by rewrite list_lookup_insert_ne.
    + by apply save_and_reply_put.
  - unfold Telegram.cancelar. at_found Hf.
    eexists. eexists. split; [reflexivity|].
    rewrite save_and_reply_after.
    split; [by apply list_lookup_insert_eq|].
    repeat split.
    + by rewrite lookup_insert_eq.
    + intros k Hk. by rewrite lookup_insert_ne.
    + by rewrite length_insert.
    + intros j Hj. by rewrite list_lookup_insert_ne.
    + by apply save_and_reply_put.
Qed.

Section Python310.

(** Examples run on Python 3.10; their dates are written [YYYY-MM-DD],
    which every version reads alike. *)
#[local] Existing Instance Date.py310.

Lemma cancelar_effect_witness :
  finds (mk_env day0 [ana]) "123.456.789-01" 0 ana
  /\ (exists o lic',
        Root.cancelar (mk_env day0 [ana]) "123.456.789-01" = Ok o
        /\ licenses_after o !! 0%nat = Some lic'
        /\ lic' !! "status" = Some (VStr "cancelled")
        /\ lic' !! "expires" = Some (VStr (Date.isoformat day0))
        /\ lic' !! "key" = Some (VStr ""))
  /\ (exists o lic',
        Telegram.cancelar (mk_env day0 [ana]) "123.456.789-01" = Ok o
        /\ licenses_after o !! 0%nat = Some lic'
        /\ lic' !! "status" = Some (VStr "cancelled")
        /\ lic' !! "key" = ana !! "key").
Proof.
  assert (H : finds (mk_env day0 [ana]) "123.456.789-01" 0 ana)
    by (exists (Some 0%nat); split; vm_refl).
  split; [exact H|].
  destruct (cancelar_effect _ _ _ _ H) as [HR HT]. split.
  - destruct HR as (o & lic' & Ho & Hi & Hs & He & _ & Hk & _).
    exists o, lic'. auto.
  - destruct HT as (o & lic' & Ho & Hi & Hs & Hother & _).
    exists o, lic'. repeat split; auto.
Defined.

End Python310.

(** ** License keys *)

Section Keys.

Lemma secrets_choice_in (r : nat) : In (secrets_choice key_chars r) key_alphabet.
Proof.
  unfold secrets_choice, key_alphabet. apply nth_In.
  apply Nat.mod_upper_bound. discriminate.
Qed.

Lemma key_alphabet_nodup : List.NoDup key_alphabet.
Proof.
  unfold key_alphabet, key_chars. cbn.
  repeat (constructor; [cbn; intuition discriminate|]). constructor.
Qed.

Lemma key_alphabet_unambiguous (a : ascii) :
  In a key_alphabet -> ~ In a ("L"%char :: ambiguous).
Proof.
  unfold key_alphabet, key_chars, ambiguous. cbn.
  intros Hin Hamb.
  repeat (destruct Hin as [<- | Hin]; [intuition discriminate|]).
  exact Hin.
Qed.

(** An index below 31 is the only one to draw its symbol. *)
Lemma secrets_choice_inj (r1 r2 : nat) :
  (r1 < 31)%nat -> (r2 < 31)%nat ->
  secrets_choice key_chars r1 = secrets_choice key_chars r2 -> r1 = r2.
Proof.
  intros H1 H2. unfold secrets_choice.
  change (List.length (Str.chars key_chars)) with 31%nat.
  rewrite !Nat.mod_small by assumption.
  intros Heq.
  apply (proj1 (List.NoDup_nth key_alphabet "000"%char) key_alphabet_nodup);
    assumption.
Qed.

End Keys.

(** C7, as stated, fails on the size of the alphabet: it has 31
    symbols, not 32, because the letter L is left out as well. *)
Lemma key_alphabet_has_31_symbols :
  List.length key_alphabet = 31%nat
  /\ List.length key_alphabet <> 32%nat
  /\ ~ In "L"%char key_alphabet.
Proof.
  split; [reflexivity|]. split; [discriminate|].
  intros H. apply key_alphabet_unambiguous in H. apply H. left. reflexivity.
Qed.

(** C7, amended.  Whatever the random source yields,
    [generate_license_key] returns 19 characters: four groups of four
    joined by hyphens, the [k]-th of the 16 characters being the symbol
    of the [k]-th draw alone.  The alphabet has 31 distinct symbols, each
    drawn by exactly one index below 31, and holds none of 0, 1, I, O
    (nor L); so no character of a key is one of these. *)
Theorem generate_license_key_shape (rnd : nat -> nat) :
  let key := generate_license_key rnd in
  let c := fun k => secrets_choice key_chars (rnd k) in
  Str.chars key
  = [c 0; c 1; c 2; c 3; "-"; c 4; c 5; c 6; c 7; "-";
     c 8; c 9; c 10; c 11; "-"; c 12; c 13; c 14; c 15]%nat%char
  /\ String.length key = 19%nat
  /\ (forall k, In (c k) key_alphabet)
  /\ List.length key_alphabet = 31%nat
  /\ List.NoDup key_alphabet
  /\ (forall a, In a key_alphabet ->
        exists r, (r < 31)%nat /\ secrets_choice key_chars r = a
                  /\ forall r', (r' < 31)%nat ->
                        secrets_choice key_chars r' = a -> r' = r)
  /\ (forall a, In a key_alphabet -> ~ In a ambiguous)
  /\ (forall a, In a (Str.chars key) -> ~ In a ambiguous).
Proof.
  cbv zeta.
  assert (Hshape : Str.chars (generate_license_key rnd)
    = [secrets_choice key_chars (rnd 0); secrets_choice key_chars (rnd 1);
       secrets_choice key_chars (rnd 2); secrets_choice key_chars (rnd 3); "-";
       secrets_choice key_chars (rnd 4); secrets_choice key_chars (rnd 5);
       secrets_choice key_chars (rnd 6); secrets_choice key_chars (rnd 7); "-";
       secrets_choice key_chars (rnd 8); secrets_choice key_chars (rnd 9);
       secrets_choice key_chars (rnd 10); secrets_choice key_chars (rnd 11); "-";
       secrets_choice key_chars (rnd 12); secrets_choice key_chars (rnd 13);
       secrets_choice key_chars (rnd 14); secrets_choice key_chars (rnd 15)]%nat%char)
    by reflexivity.
  assert (Hun : forall a, In a key_alphabet -> ~ In a ambiguous).
  { intros a Ha Hamb. apply (key_alphabet_unambiguous a Ha). right. exact Hamb. }
  split; [exact Hshape|].
  split; [reflexivity|].
  split; [intros k; apply secrets_choice_in|].
  split; [reflexivity|].
  split; [apply key_alphabet_nodup|].
  split.
  - intros a Ha. apply (In_nth _ _ "000"%char) in Ha as (r & Hr & Hnth).
    change (List.length key_alphabet) with 31%nat in Hr.
    exists r. split; [exact Hr|]. split.
    + unfold secrets_choice.
      change (List.length (Str.chars key_chars)) with 31%nat.
      rewrite Nat.mod_small by exact Hr. exact Hnth.
    + intros r' Hr' Heq. apply secrets_choice_inj; [assumption..|].
      rewrite Heq. unfold secrets_choice.
      change (List.length (Str.chars key_chars)) with 31%nat.
      rewrite Nat.mod_small by exact Hr. symmetry. exact Hnth.
  - split; [exact Hun|].
    intros a Ha. rewrite Hshape in Ha. cbn [In] in Ha.
    assert (Hhy : ~ In "-"%char ambiguous) by (cbn; intuition discriminate).
    repeat (destruct Ha as [<- | Ha];
            [first [exact Hhy | apply Hun, secrets_choice_in]|]).
    destruct Ha.
Qed.

(** ** The store *)

(** C4, as stated, fails: [save_licenses] returns a boolean, and a
    stale revision (HTTP 409) and an unreachable server both yield
    [False]; [get_licenses] returns the pair [([], None)] for an
    unreachable server, a refused token (HTTP 401), an undecodable body
    and a missing token alike, the very value of a readable answer that
    has neither licenses nor sha. *)
Lemma save_licenses_conflict_like_unavailable :
  let e := mk_env day0 [ana] in
  let conflict := with_answers e (get_answer e) (HTTPError 409) in
  let offline := with_answers e (get_answer e) URLError in
  (save_licenses conflict [ana] (Some "0ld") "Renovar: Ana").2 = false
  /\ (save_licenses offline [ana] (Some "0ld") "Renovar: Ana").2 = false
  /\ save_licenses conflict [ana] (Some "0ld") "Renovar: Ana"
     = save_licenses offline [ana] (Some "0ld") "Renovar: Ana"
  /\ get_licenses (with_answers e URLError (put_answer e)) = ([], None)
  /\ get_licenses (with_answers e (HTTPError 401) (put_answer e)) = ([], None)
  /\ get_licenses (with_answers e (Response 200 Undecodable) (put_answer e))
     = ([], None)
  /\ get_licenses (with_answers e (Response 200 (Decoded None None)) (put_answer e))
     = ([], None).
Proof. cbv zeta. repeat split; reflexivity. Qed.

(** C4, amended.  [get_licenses] returns a pair: with a token and an
    answer that decodes, the licenses of the document (an empty list for
    a document without ["licenses"]) and the sha of the answer; without
    a token or with any other answer, [([], None)].  [save_licenses]
    returns a boolean that is [True] exactly when there is a token and
    the PUT is answered 200 or 201; a missing token, any HTTP error (a
    stale revision among them) and an unreachable server all yield
    [False]. *)
Theorem store_outcomes (e : env) (licenses : list license) (sha : option string)
    (message : string) :
  (forall status fetched sha',
      github_token e <> "" ->
      get_answer e = Response status (Decoded fetched sha') ->
      get_licenses e = (default [] fetched, sha'))
  /\ (github_token e = ""
      \/ (forall status fetched sha',
            get_answer e <> Response status (Decoded fetched sha')) ->
      get_licenses e = ([], None))
  /\ ((save_licenses e licenses sha message).2 = true
      <-> github_token e <> ""
          /\ exists body, put_answer e = Response 200 body
                          \/ put_answer e = Response 201 body)
  /\ (github_token e = "" -> save_licenses e licenses sha message = (None, false))
  /\ (forall code, put_answer e = HTTPError code ->
        (save_licenses e licenses sha message).2 = false)
  /\ (put_answer e = URLError ->
        (save_licenses e licenses sha message).2 = false).
Proof.
  unfold get_licenses, save_licenses.
  destruct (String.eqb_spec (github_token e) "") as [Htok|Htok].
  - split; [intros status fetched sha' Hne; contradiction|].
    split; [intros _; reflexivity|].
    split; [split; [discriminate|intros [? _]; done]|].
    repeat split; done.
  - split; [intros status fetched sha' _ ->; reflexivity|].
    split.
    + intros [Hempty|Hnone]; [contradiction|].
      destruct (get_answer e) as [status [fetched sha'|]| |]; try reflexivity.
      destruct (Hnone status fetched sha' eq_refl).
    + split; [|split; [done|]].
      * cbn [snd]. destruct (put_answer e) as [status body| |].
        -- split.
           ++ intros H. split; [done|]. exists body.
              apply orb_true_iff in H as [H|H]; apply Z.eqb_eq in H; subst; auto.
           ++ intros [_ [body' [H|H]]]; injection H as -> _; reflexivity.
        -- split; [discriminate|]. intros [_ [? [?|?]]]; discriminate.
        -- split; [discriminate|]. intros [_ [? [?|?]]]; discriminate.
      * split.
        -- intros code ->. reflexivity.
        -- intros ->. reflexivity.
Qed.

Lemma store_outcomes_witness :
  let e := with_answers (mk_env day0 [ana]) URLError (HTTPError 409) in
  get_licenses (mk_env day0 [ana]) = ([ana], Some "3f2a")
  /\ get_licenses e = ([], None)
  /\ (save_licenses e [ana] (Some "0ld") "Renovar: Ana").2 = false.
Proof.
  cbv zeta.
  destruct (store_outcomes (mk_env day0 [ana]) [ana] (Some "0ld") "Renovar: Ana")
    as (Hread & _).
  destruct (store_outcomes
              (with_answers (mk_env day0 [ana]) URLError (HTTPError 409))
              [ana] (Some "0ld") "Renovar: Ana")
    as (_ & Hfail & _ & _ & Hhttp & _).
  split; [apply (Hread 200 (Some [ana]) (Some "3f2a")); [discriminate|reflexivity]|].
  split; [apply Hfail; right; intros status fetched sha'; discriminate|].
  apply (Hhttp 409). reflexivity.
Defined.

(** ** Renewal *)

Section Renewal.

Context {py : Date.version}.

Lemma expires_on_cases (lic : license) :
  str_member lic "expires" ->
  (exists d, expires_on lic = Ok d /\ Date.valid d)
  \/ expires_on lic = Raise ValueError.
Proof.
  intros Hstr. unfold expires_on, dict_get.
  destruct (lic !! "expires") as [[s|n]|] eqn:E.
  - apply DateFacts.fromisoformat_str_cases.
  - by destruct (Hstr n).
  - apply DateFacts.fromisoformat_str_cases.
Qed.

Lemma current_expiry_valid (today : Date.t) (lic : license) :
  str_member lic "expires" -> Date.valid today ->
  Date.valid (current_expiry today lic).
Proof.
  intros Hstr Hv. unfold current_expiry.
  destruct (expires_on_cases lic Hstr) as [(d & -> & Hd) | ->]; assumption.
Qed.

(** The [try] of [bot.py] around [date.fromisoformat]. *)
Lemma root_current (today : Date.t) (lic : license) :
  str_member lic "expires" ->
  try_except (Date.fromisoformat (dict_get lic "expires" (VStr "")))
    [ValueError] (Ok today)
  = Ok (current_expiry today lic).
Proof.
  intros Hstr. unfold current_expiry.
  destruct (expires_on_cases lic Hstr) as [(d & E & _) | E];
    rewrite E; unfold expires_on in E; rewrite E; reflexivity.
Qed.

(** The [try] of [telegram-bot/bot.py] around [lic["expires"]] and
    [date.fromisoformat]. *)
Lemma telegram_current (today : Date.t) (lic : license) :
  str_member lic "expires" ->
  try_except (v ← dict_item lic "expires"; Date.fromisoformat v)
    [KeyError; ValueError] (Ok today)
  = Ok (current_expiry today lic).
Proof.
  intros Hstr. unfold current_expiry.
  pose proof (expires_on_cases lic Hstr) as Hc.
  unfold expires_on, dict_get, dict_item in *.
  destruct (lic !! "expires") as [v|] eqn:E.
  - cbn [mbind result_bind].
    destruct Hc as [(d & -> & _) | ->]; reflexivity.
  - reflexivity.
Qed.

Lemma is_key_empty_blank (lic : license) :
  str_member lic "key" ->
  Root.is_key_empty (dict_get lic "key" (VStr "")) = Ok (blank_key lic).
Proof.
  intros Hstr. unfold Root.is_key_empty, blank_key, dict_get.
  destruct (lic !! "key") as [[s|n]|] eqn:E.
  - cbn [truthy]. destruct (String.eqb_spec s "") as [->|Hs]; reflexivity.
  - by destruct (Hstr n).
  - reflexivity.
Qed.

Lemma status_cancelled (lic : license) :
  value_eqb (dict_get lic "status" (VStr "")) (VStr "cancelled")
  = bool_decide (lic !! "status" = Some (VStr "cancelled")).
Proof.
  unfold value_eqb, dict_get.
  destruct (lic !! "status") as [v|];
    repeat case_bool_decide; congruence.
Qed.

Lemma timedelta_cases (days : Z) :
  Date.timedelta days = Ok days \/ Date.timedelta days = Raise OverflowError.
Proof. unfold Date.timedelta. destruct (_ <=? _); auto. Qed.

Lemma timedelta_ok (base days : Z) :
  Date.valid base -> Date.valid (base + days) -> Date.timedelta days = Ok days.
Proof.
  unfold Date.valid, Date.max_ordinal, Date.timedelta. intros Hb Hn.
  destruct (Z.leb_spec (Z.abs days) 999999999); [reflexivity|lia].
Qed.

Lemma add_ok (base days : Z) :
  Date.valid (base + days) -> Date.add base days = Ok (base + days).
Proof.
  unfold Date.valid, Date.add. intros Hn.
  destruct (Z.ltb_spec 0 (base + days)); [|lia].
  destruct (Z.leb_spec (base + days) Date.max_ordinal); [reflexivity|lia].
Qed.

Lemma add_overflow (base days : Z) :
  ~ Date.valid (base + days) -> Date.add base days = Raise OverflowError.
Proof.
  unfold Date.valid, Date.add. intros Hn.
  destruct (Z.ltb_spec 0 (base + days)); [|reflexivity].
  destruct (Z.leb_spec (base + days) Date.max_ordinal); [lia|reflexivity].
Qed.

(** [/renovar] of [bot.py] at a record it finds, when the new date is
    in the calendar. *)
Lemma root_renovar_ok (e : env) (arg : string) (meses : Z) (i : nat) (lic : license) :
  finds e arg i lic ->
  str_member lic "key" -> str_member lic "expires" ->
  Date.valid (today e) ->
  Date.valid (root_base (today e) lic + 30 * meses) ->
  exists message ok,
    Root.renovar e arg meses
    = Ok (save_and_reply e
            (<[i := <["status" := VStr "active"]>
                      (<["expires" := VStr (Date.isoformat
                                              (root_base (today e) lic + 30 * meses))]>
                         (if starts_from_zero (today e) lic
                          then <["key" := VStr (generate_license_key (rnd e))]> lic
                          else lic))]> (get_licenses e).1)
            (get_licenses e).2 message ok).
Proof.
  intros Hf Hkey Hexp Htoday Hnew.
  unfold Root.renovar. at_found Hf.
  rewrite root_current by assumption. cbn [mbind result_bind].
  rewrite is_key_empty_blank by assumption. cbn [mbind result_bind].
  rewrite status_cancelled.
  change (bool_decide (lic !! "status" = Some (VStr "cancelled"))
          || blank_key lic || (current_expiry (today e) lic <=? today e))
    with (starts_from_zero (today e) lic).
  pose proof (current_expiry_valid (today e) lic Hexp Htoday) as Hcur.
  unfold root_base in *.
  destruct (starts_from_zero (today e) lic).
  - rewrite (timedelta_ok (today e)) by assumption. cbn [mbind result_bind].
    rewrite add_ok by assumption. cbn [mbind result_bind].
    eexists. eexists. reflexivity.
  - rewrite (timedelta_ok (current_expiry (today e) lic)) by assumption.
    cbn [mbind result_bind].
    rewrite add_ok by assumption. cbn [mbind result_bind].
    eexists. eexists. reflexivity.
Qed.

(** The same when the new date is not in the calendar: the handler
    raises before it sends anything. *)
Lemma root_renovar_overflow (e : env) (arg : string) (meses : Z) (i : nat)
    (lic : license) :
  finds e arg i lic ->
  str_member lic "key" -> str_member lic "expires" ->
  ~ Date.valid (root_base (today e) lic + 30 * meses) ->
  Root.renovar e arg meses = Raise OverflowError.
Proof.
  intros Hf Hkey Hexp Hnew.
  unfold Root.renovar. at_found Hf.
  rewrite root_current by assumption. cbn [mbind result_bind].
  rewrite is_key_empty_blank by assumption. cbn [mbind result_bind].
  rewrite status_cancelled.
  change (bool_decide (lic !! "status" = Some (VStr "cancelled"))
          || blank_key lic || (current_expiry (today e) lic <=? today e))
    with (starts_from_zero (today e) lic).
  unfold root_base in Hnew.
  destruct (starts_from_zero (today e) lic);
    (destruct (timedelta_cases (30 * meses)) as [-> | ->]; [|reflexivity]);
    cbn [mbind result_bind];
    rewrite add_overflow by assumption; reflexivity.
Qed.

(** [/renovar] of [telegram-bot/bot.py] at a record it finds. *)
Lemma telegram_renovar_ok (e : env) (arg : string) (meses : Z) (i : nat)
    (lic : license) :
  finds e arg i lic ->
  str_member lic "expires" ->
  Date.valid (today e) ->
  Date.valid (telegram_base (today e) lic + 30 * meses) ->
  exists message ok,
    Telegram.renovar e arg meses
    = Ok (save_and_reply e
            (<[i := <["status" := VStr "active"]>
                      (<["expires" := VStr (Date.isoformat
                                              (telegram_base (today e) lic
                                               + 30 * meses))]> lic)]>
               (get_licenses e).1)
            (get_licenses e).2 message ok).
Proof.
  intros Hf Hexp Htoday Hnew.
  unfold Telegram.renovar. at_found Hf.
  rewrite telegram_current by assumption. cbn [mbind result_bind].
  pose proof (current_expiry_valid (today e) lic Hexp Htoday) as Hcur.
  assert (Hbase : Date.valid (telegram_base (today e) lic))
    by (unfold telegram_base, Date.valid in *; lia).
  unfold telegram_base in *.
  rewrite (timedelta_ok (Z.max (current_expiry (today e) lic) (today e)))
    by assumption.
  cbn [mbind result_bind].
  rewrite add_ok by assumption. cbn [mbind result_bind].
  eexists. eexists. reflexivity.
Qed.

Lemma telegram_renovar_overflow (e : env) (arg : string) (meses : Z) (i : nat)
    (lic : license) :
  finds e arg i lic ->
  str_member lic "expires" ->
  ~ Date.valid (telegram_base (today e) lic + 30 * meses) ->
  Telegram.renovar e arg meses = Raise OverflowError.
Proof.
  intros Hf Hexp Hnew.
  unfold Telegram.renovar. at_found Hf.
  rewrite telegram_current by assumption. cbn [mbind result_bind].
  unfold telegram_base in Hnew.
  destruct (timedelta_cases (30 * meses)) as [-> | ->]; [|reflexivity].
  cbn [mbind result_bind].
  rewrite add_overflow by assumption. reflexivity.
Qed.

(** The members of a renewed record. *)
Lemma renewed_members (lic1 : license) (d : Date.t) :
  Date.valid d ->
  let lic' := <["status" := VStr "active"]>
                (<["expires" := VStr (Date.isoformat d)]> lic1) in
  expires_on lic' = Ok d
  /\ lic' !! "status" = Some (VStr "active")
  /\ lic' !! "key" = lic1 !! "key"
  /\ (forall k, k <> "status" -> k <> "expires" -> lic' !! k = lic1 !! k).
Proof.
  intros Hd lic'. subst lic'. repeat split.
  - unfold expires_on, dict_get.
    rewrite lookup_insert_ne, lookup_insert_eq by done.
    by apply DateFacts.fromisoformat_isoformat.
  - by rewrite lookup_insert_eq.
  - by rewrite !lookup_insert_ne.
  - intros k H1 H2. by rewrite !lookup_insert_ne.
Qed.

(** When [bot.py] starts a renewal from today. *)
Lemma starts_from_zero_iff (today : Date.t) (lic : license) :
  starts_from_zero today lic = true
  <-> lic !! "status" = Some (VStr "cancelled")
      \/ blank_key lic = true
      \/ ~ (exists d, expires_on lic = Ok d /\ today < d).
Proof.
  unfold starts_from_zero, current_expiry.
  rewrite !orb_true_iff, bool_decide_eq_true, Z.leb_le.
  split.
  - intros [[H|H]|H]; [by left|by right; left|].
    right; right. intros (d & Hd & Hlt). rewrite Hd in H. lia.
  - intros [H|[H|H]]; [by left; left|by left; right|].
    right. destruct (expires_on lic) as [d|x]; [|lia].
    destruct (Z_le_gt_dec d today); [assumption|].
    exfalso. apply H. exists d. split; [reflexivity|lia].
Qed.

(** When it adds to the stored expiration. *)
Lemma accumulates_iff (today : Date.t) (lic : license) :
  starts_from_zero today lic = false
  <-> lic !! "status" <> Some (VStr "cancelled")
      /\ blank_key lic = false
      /\ expires_on lic = Ok (current_expiry today lic)
      /\ today < current_expiry today lic.
Proof.
  unfold starts_from_zero, current_expiry.
  rewrite !orb_false_iff, bool_decide_eq_false, Z.leb_gt.
  split.
  - intros [[H1 H2] H3]. repeat split; try assumption.
    destruct (expires_on lic); [reflexivity|lia].
  - intros (H1 & H2 & _ & H3). auto.
Qed.

End Renewal.

Section Python310.

(** Examples run on Python 3.10; their dates are written [YYYY-MM-DD],
    which every version reads alike. *)
#[local] Existing Instance Date.py310.

(** C1, as stated, fails in two ways.
    - In [bot.py] a key of white space counts as no key: Ana's license
      is active, has the key [" "] and expires ten days after today, yet
      one month of renewal ends 30 days after today (not 40) and the key
      is replaced.
    - In [telegram-bot/bot.py] nothing resets: Ana's cancelled license
      is renewed from its stored expiration and keeps its key. *)
Lemma renovar_blank_key_and_telegram :
  let e := mk_env day0 [ana_blank] in
  let r := Root.renovar e "123.456.789-01" 1 in
  let e' := mk_env day0 [ana_cancelled] in
  let r' := Telegram.renovar e' "123.456.789-01" 1 in
  (finds e "123.456.789-01" 0 ana_blank
   /\ ana_blank !! "status" = Some (VStr "active")
   /\ ana_blank !! "key" = Some (VStr " ")
   /\ expires_on ana_blank = Ok (today e + 10)
   /\ member_after r 0 "expires" = Some (VStr (Date.isoformat (today e + 30)))
   /\ member_after r 0 "expires" <> Some (VStr (Date.isoformat (today e + 10 + 30)))
   /\ member_after r 0 "key" = Some (VStr "ABCD-EFGH-JKMN-PQRS")
   /\ member_after r 0 "key" <> ana_blank !! "key")
  /\ (finds e' "123.456.789-01" 0 ana_cancelled
      /\ ana_cancelled !! "status" = Some (VStr "cancelled")
      /\ expires_on ana_cancelled = Ok (today e' + 10)
      /\ member_after r' 0 "expires"
         = Some (VStr (Date.isoformat (today e' + 10 + 30)))
      /\ member_after r' 0 "expires" <> Some (VStr (Date.isoformat (today e' + 30)))
      /\ member_after r' 0 "key" = ana_cancelled !! "key").
Proof.
  cbv zeta.
  assert (H40 : Date.isoformat (today (mk_env day0 [ana_blank]) + 10 + 30)
                = "2025-07-11") by vm_refl.
  assert (H30 : Date.isoformat (today (mk_env day0 [ana_blank]) + 30)
                = "2025-07-01") by vm_refl.
  assert (Hr : member_after (Root.renovar (mk_env day0 [ana_blank])
                               "123.456.789-01" 1) 0 "expires"
               = Some (VStr "2025-07-01")) by vm_refl.
  assert (Hk : member_after (Root.renovar (mk_env day0 [ana_blank])
                               "123.456.789-01" 1) 0 "key"
               = Some (VStr "ABCD-EFGH-JKMN-PQRS")) by vm_refl.
  assert (Hk0 : ana_blank !! "key" = Some (VStr " ")) by vm_refl.
  assert (Hr' : member_after (Telegram.renovar (mk_env day0 [ana_cancelled])
                                "123.456.789-01" 1) 0 "expires"
                = Some (VStr "2025-07-11")) by vm_refl.
  split.
  - split; [exists (Some 0%nat); split; vm_refl|].
    split; [vm_refl|]. split; [exact Hk0|]. split; [vm_refl|].
    split; [rewrite Hr; change (today (mk_env day0 [ana_blank])) with day0;
            vm_refl|].
    split; [rewrite Hr, H40; discriminate|].
    split; [exact Hk|].
    rewrite Hk, Hk0. discriminate.
  - change (today (mk_env day0 [ana_cancelled]))
      with (today (mk_env day0 [ana_blank])).
    split; [exists (Some 0%nat); split; vm_refl|].
    split; [vm_refl|]. split; [vm_refl|].
    split; [rewrite Hr', H40; reflexivity|].
    split; [rewrite Hr', H30; discriminate|].
    vm_refl.
Qed.

End Python310.

(** C1, amended.  For every version of Python and every record that
    [/renovar] finds whose key and expiration are strings (or missing),
    with today a date and the new date within the calendar (0001-01-01
    to 9999-12-31), the stored expiration being the date that
    [date.fromisoformat] of that version reads from it, and white space
    being what [str.strip] removes:
    - [bot.py] starts from zero exactly when the status is cancelled, or
      the key is missing, empty or white space only, or there is no
      stored expiration after today (it is missing, unreadable or not
      after today).  Then the new expiration is today + 30 * months and
      the key is replaced by a generated one.  Otherwise (whatever the
      status, if not cancelled) the new expiration is the stored one
      + 30 * months and the key is unchanged.  The status becomes active
      and no other member changes.
    - [telegram-bot/bot.py] sets the expiration to the later of the
      stored expiration and today, + 30 * months, sets the status to
      active and changes no other member, the key included. *)
Theorem renovar_policy {py : Date.version} (e : env) (arg : string) (meses : Z) (i : nat)
    (lic : license) :
  finds e arg i lic ->
  str_member lic "key" -> str_member lic "expires" ->
  Date.valid (today e) ->
  (starts_from_zero (today e) lic = true
   <-> lic !! "status" = Some (VStr "cancelled")
       \/ blank_key lic = true
       \/ ~ (exists d, expires_on lic = Ok d /\ today e < d))
  /\ (starts_from_zero (today e) lic = true ->
      Date.valid (today e + 30 * meses) ->
      exists o lic',
        Root.renovar e arg meses = Ok o
        /\ licenses_after o !! i = Some lic'
        /\ expires_on lic' = Ok (today e + 30 * meses)
        /\ lic' !! "key" = Some (VStr (generate_license_key (rnd e)))
        /\ lic' !! "status" = Some (VStr "active")
        /\ (forall k, k <> "status" -> k <> "expires" -> k <> "key" ->
                      lic' !! k = lic !! k))
  /\ (forall d,
      starts_from_zero (today e) lic = false ->
      expires_on lic = Ok d ->
      Date.valid (d + 30 * meses) ->
      today e < d
      /\ exists o lic',
          Root.renovar e arg meses = Ok o
          /\ licenses_after o !! i = Some lic'
          /\ expires_on lic' = Ok (d + 30 * meses)
          /\ lic' !! "key" = lic !! "key"
          /\ lic' !! "status" = Some (VStr "active")
          /\ (forall k, k <> "status" -> k <> "expires" -> lic' !! k = lic !! k))
  /\ (Date.valid (Z.max (current_expiry (today e) lic) (today e) + 30 * meses) ->
      exists o lic',
        Telegram.renovar e arg meses = Ok o
        /\ licenses_after o !! i = Some lic'
        /\ expires_on lic'
           = Ok (Z.max (current_expiry (today e) lic) (today e) + 30 * meses)
        /\ lic' !! "key" = lic !! "key"
        /\ lic' !! "status" = Some (VStr "active")
        /\ (forall k, k <> "status" -> k <> "expires" -> lic' !! k = lic !! k)).
Proof.
  intros Hf Hkey Hexp Htoday.
  pose proof (finds_lookup _ _ _ _ Hf) as [Hl _].
  assert (Hi : (i < length (get_licenses e).1)%nat) by (eapply lookup_lt_Some; eauto).
  split; [apply starts_from_zero_iff|].
  split; [|split].
  - intros Hz Hnew.
    destruct (root_renovar_ok e arg meses i lic Hf Hkey Hexp Htoday) as (m & ok & Hr).
    { unfold root_base. by rewrite Hz. }
    unfold root_base in Hr. rewrite Hz in Hr.
    eexists. eexists. split; [exact Hr|].
    rewrite save_and_reply_after.
    split; [by apply list_lookup_insert_eq|].
    destruct (renewed_members
                (<["key" := VStr (generate_license_key (rnd e))]> lic)
                (today e + 30 * meses) Hnew) as (H1 & H2 & H3 & H4).
    split; [exact H1|]. split; [by rewrite H3, lookup_insert_eq|].
    split; [exact H2|].
    intros k Hk1 Hk2 Hk3. by rewrite H4, lookup_insert_ne.
  - intros d Hz Hd Hnew.
    apply accumulates_iff in Hz as Hacc. destruct Hacc as (_ & _ & Hcur & Hlt).
    assert (Hdcur : current_expiry (today e) lic = d) by congruence.
    rewrite Hdcur in Hlt. split; [exact Hlt|].
    destruct (root_renovar_ok e arg meses i lic Hf Hkey Hexp Htoday) as (m & ok & Hr).
    { unfold root_base. by rewrite Hz, Hdcur. }
    unfold root_base in Hr. rewrite Hz, Hdcur in Hr.
    eexists. eexists. split; [exact Hr|].
    rewrite save_and_reply_after.
    split; [by apply list_lookup_insert_eq|].
    destruct (renewed_members lic (d + 30 * meses) Hnew) as (H1 & H2 & H3 & H4).
    auto.
  - intros Hnew.
    destruct (telegram_renovar_ok e arg meses i lic Hf Hexp Htoday Hnew)
      as (m & ok & Hr).
    unfold telegram_base in Hr.
    eexists. eexists. split; [exact Hr|].
    rewrite save_and_reply_after.
    split; [by apply list_lookup_insert_eq|].
    destruct (renewed_members lic _ Hnew) as (H1 & H2 & H3 & H4).
    auto.
Qed.

Section Python310.

(** Examples run on Python 3.10; their dates are written [YYYY-MM-DD],
    which every version reads alike. *)
#[local] Existing Instance Date.py310.

Lemma renovar_policy_witness :
  finds (mk_env day0 [ana]) "123.456.789-01" 0 ana
  /\ str_member ana "key" /\ str_member ana "expires" /\ Date.valid day0
  /\ starts_from_zero day0 ana = false
  /\ expires_on ana = Ok (day0 + 10)
  /\ exists o lic',
      Root.renovar (mk_env day0 [ana]) "123.456.789-01" 1 = Ok o
      /\ licenses_after o !! 0%nat = Some lic'
      /\ expires_on lic' = Ok (day0 + 10 + 30 * 1)
      /\ lic' !! "key" = ana !! "key".
Proof.
  assert (Hz : starts_from_zero day0 ana = false) by vm_refl.
  assert (Hd : expires_on ana = Ok (day0 + 10)) by vm_refl.
  repeat (split; [first [exact ana_found | exact ana_str_key | exact ana_str_expires
                        | exact day0_valid | exact Hz | exact Hd]|]).
  destruct (renovar_policy (mk_env day0 [ana]) "123.456.789-01" 1 0 ana
              ana_found ana_str_key ana_str_expires day0_valid)
    as (_ & _ & Hacc & _).
  destruct (Hacc (day0 + 10) Hz Hd) as (_ & o & lic' & Ho & Hi & He & Hk & _).
  { unfold Date.valid, day0, Date.max_ordinal. lia. }
  exists o, lic'. auto.
Defined.

(** C6, as stated, fails on "exactly when the record is cancelled,
    keyless, or expired": [bot.py] also starts from today for a record
    that has a key, when the key is white space only.  Ana's license is
    active, has a key of one no-break space and expires ten days after
    today, yet one month of renewal ends 30 days after today (not 40)
    and the key is replaced. *)
Lemma renovar_resets_white_space_key :
  let e := mk_env day0 [ana_nbsp] in
  let r := Root.renovar e "123.456.789-01" 1 in
  finds e "123.456.789-01" 0 ana_nbsp
  /\ ana_nbsp !! "status" = Some (VStr "active")
  /\ ana_nbsp !! "key" = Some (VStr (String "160" ""))
  /\ ana_nbsp !! "key" <> Some (VStr "")
  /\ expires_on ana_nbsp = Ok (today e + 10)
  /\ today e < today e + 10
  /\ member_after r 0 "expires" = Some (VStr (Date.isoformat (today e + 30)))
  /\ member_after r 0 "expires" <> Some (VStr (Date.isoformat (today e + 10 + 30)))
  /\ member_after r 0 "key" = Some (VStr "ABCD-EFGH-JKMN-PQRS")
  /\ member_after r 0 "key" <> ana_nbsp !! "key".
Proof.
  cbv zeta.
  assert (H40 : Date.isoformat (today (mk_env day0 [ana_nbsp]) + 10 + 30)
                = "2025-07-11") by vm_refl.
  assert (Hr : member_after (Root.renovar (mk_env day0 [ana_nbsp])
                               "123.456.789-01" 1) 0 "expires"
               = Some (VStr "2025-07-01")) by vm_refl.
  assert (Hk : member_after (Root.renovar (mk_env day0 [ana_nbsp])
                               "123.456.789-01" 1) 0 "key"
               = Some (VStr "ABCD-EFGH-JKMN-PQRS")) by vm_refl.
  assert (Hk0 : ana_nbsp !! "key" = Some (VStr (String "160" ""))) by vm_refl.
  split; [exists (Some 0%nat); split; vm_refl|].
  split; [vm_refl|]. split; [exact Hk0|].
  split; [rewrite Hk0; discriminate|].
  split; [vm_refl|].
  split; [lia|].
  split; [rewrite Hr; change (today (mk_env day0 [ana_nbsp])) with day0; vm_refl|].
  split; [rewrite Hr, H40; discriminate|].
  split; [exact Hk|].
  rewrite Hk, Hk0. discriminate.
Qed.

End Python310.

(** C6, amended.  The two [/renovar] differ, whatever the version of
    Python.
    - They give different results on Ana's cancelled license, which
      expires ten days after today: [bot.py] renews it until 30 days
      after today with a new key, [telegram-bot/bot.py] until 40 days
      after today with the old key.
    - [bot.py] starts from today and replaces the key exactly when the
      record is cancelled, or its key is missing, empty or white space
      only, or it has no stored expiration that reads as a date after
      today; otherwise it adds to the stored expiration and keeps the
      key.
    - [telegram-bot/bot.py] always starts from the later of the stored
      expiration and today, and never changes the key. *)
Theorem renovar_variants_diverge {py : Date.version} :
  (let e := mk_env day0 [ana_cancelled] in
   let root := Root.renovar e "123.456.789-01" 1 in
   let telegram := Telegram.renovar e "123.456.789-01" 1 in
   finds e "123.456.789-01" 0 ana_cancelled
   /\ member_after root 0 "expires" = Some (VStr (Date.isoformat (day0 + 30)))
   /\ member_after telegram 0 "expires" = Some (VStr (Date.isoformat (day0 + 40)))
   /\ member_after root 0 "key" = Some (VStr "ABCD-EFGH-JKMN-PQRS")
   /\ member_after telegram 0 "key" = Some (VStr "XK3F-9MPQ-7RTV-2WZY")
   /\ root <> telegram)
  /\ (forall (e : env) (arg : string) (meses : Z) (i : nat) (lic : license),
      finds e arg i lic ->
      str_member lic "key" -> str_member lic "expires" ->
      Date.valid (today e) ->
      let zero := starts_from_zero (today e) lic in
      let base := if zero then today e else current_expiry (today e) lic in
      (zero = true
       <-> lic !! "status" = Some (VStr "cancelled")
           \/ blank_key lic = true
           \/ ~ (exists d, expires_on lic = Ok d /\ today e < d))
      /\ (zero = false -> expires_on lic = Ok (current_expiry (today e) lic))
      /\ (Date.valid (base + 30 * meses) ->
          exists o lic',
            Root.renovar e arg meses = Ok o
            /\ licenses_after o !! i = Some lic'
            /\ expires_on lic' = Ok (base + 30 * meses)
            /\ lic' !! "key"
               = (if zero then Some (VStr (generate_license_key (rnd e)))
                  else lic !! "key")))
  /\ (forall (e : env) (arg : string) (meses : Z) (i : nat) (lic : license),
      finds e arg i lic ->
      str_member lic "expires" ->
      Date.valid (today e) ->
      let base := Z.max (current_expiry (today e) lic) (today e) in
      Date.valid (base + 30 * meses) ->
      exists o lic',
        Telegram.renovar e arg meses = Ok o
        /\ licenses_after o !! i = Some lic'
        /\ expires_on lic' = Ok (base + 30 * meses)
        /\ lic' !! "key" = lic !! "key").
Proof.
  split; [|split].
  - cbv zeta.
    assert (Hr : member_after (Root.renovar (mk_env day0 [ana_cancelled])
                                 "123.456.789-01" 1) 0 "expires"
                 = Some (VStr "2025-07-01")) by vm_refl.
    assert (Ht : member_after (Telegram.renovar (mk_env day0 [ana_cancelled])
                                 "123.456.789-01" 1) 0 "expires"
                 = Some (VStr "2025-07-11")) by vm_refl.
    split; [exists (Some 0%nat); split; vm_refl|].
    split; [rewrite Hr; vm_refl|]. split; [rewrite Ht; vm_refl|].
    split; [vm_refl|]. split; [vm_refl|].
    intros Heq. rewrite Heq, Ht in Hr. discriminate.
  - intros e arg meses i lic Hf Hkey Hexp Htoday zero base.
    pose proof (finds_lookup _ _ _ _ Hf) as [Hl _].
    assert (Hi : (i < length (get_licenses e).1)%nat)
      by (eapply lookup_lt_Some; eauto).
    split; [apply starts_from_zero_iff|].
    split; [intros Hz; by apply accumulates_iff in Hz as (_ & _ & ? & _)|].
    intros Hnew.
    destruct (root_renovar_ok e arg meses i lic Hf Hkey Hexp Htoday Hnew)
      as (m & ok & Hr).
    fold zero in Hr. change (root_base (today e) lic) with base in Hr.
    eexists. eexists. split; [exact Hr|].
    rewrite save_and_reply_after.
    split; [by apply list_lookup_insert_eq|].
    destruct (renewed_members
                (if zero then <["key" := VStr (generate_license_key (rnd e))]> lic
                 else lic) (base + 30 * meses) Hnew) as (H1 & _ & H3 & _).
    split; [exact H1|]. rewrite H3.
    destruct zero; [by rewrite lookup_insert_eq|reflexivity].
  - intros e arg meses i lic Hf Hexp Htoday base Hnew.
    pose proof (finds_lookup _ _ _ _ Hf) as [Hl _].
    assert (Hi : (i < length (get_licenses e).1)%nat)
      by (eapply lookup_lt_Some; eauto).
    destruct (telegram_renovar_ok e arg meses i lic Hf Hexp Htoday Hnew)
      as (m & ok & Hr).
    change (telegram_base (today e) lic) with base in Hr.
    eexists. eexists. split; [exact Hr|].
    rewrite save_and_reply_after.
    split; [by apply list_lookup_insert_eq|].
    destruct (renewed_members lic (base + 30 * meses) Hnew) as (H1 & _ & H3 & _).
    auto.
Qed.

Section Python310.

(** Examples run on Python 3.10; their dates are written [YYYY-MM-DD],
    which every version reads alike. *)
#[local] Existing Instance Date.py310.

Lemma renovar_variants_diverge_witness :
  finds (mk_env day0 [ana]) "123.456.789-01" 0 ana
  /\ str_member ana "expires" /\ Date.valid day0
  /\ exists o lic',
      Telegram.renovar (mk_env day0 [ana]) "123.456.789-01" 1 = Ok o
      /\ licenses_after o !! 0%nat = Some lic'
      /\ expires_on lic' = Ok (day0 + 10 + 30 * 1)
      /\ lic' !! "key" = ana !! "key".
Proof.
  repeat (split; [first [exact ana_found | exact ana_str_expires
                        | exact day0_valid]|]).
  destruct renovar_variants_diverge as (_ & _ & Htel).
  assert (Hb : Z.max (current_expiry day0 ana) day0 = day0 + 10) by vm_refl.
  destruct (Htel (mk_env day0 [ana]) "123.456.789-01" 1 0%nat ana
              ana_found ana_str_expires day0_valid)
    as (o & lic' & Ho & Hi & He & Hk).
  { cbn [today mk_env]. rewrite Hb. unfold Date.valid, day0, Date.max_ordinal. lia. }
  cbn [today mk_env] in He. rewrite Hb in He.
  exists o, lic'. auto.
Defined.

(** C10, as stated, fails for months that lead out of the calendar:
    [/renovar] with 400000 months (or with -30000) on Ana's license
    raises [OverflowError] in the date arithmetic and sends nothing, in
    both variants. *)
Lemma renovar_months_out_of_calendar :
  let e := mk_env day0 [ana] in
  finds e "123.456.789-01" 0 ana
  /\ Root.renovar e "123.456.789-01" 400000 = Raise OverflowError
  /\ put_of (Root.renovar e "123.456.789-01" 400000) = None
  /\ Telegram.renovar e "123.456.789-01" 400000 = Raise OverflowError
  /\ put_of (Telegram.renovar e "123.456.789-01" 400000) = None
  /\ Root.renovar e "123.456.789-01" (-30000) = Raise OverflowError
  /\ Telegram.renovar e "123.456.789-01" (-30000) = Raise OverflowError.
Proof.
  cbv zeta. split; [exact ana_found|]. repeat split; vm_refl.
Qed.

End Python310.

(** C10, amended.  [/renovar] does not check the range of the months,
    where [/ativar] rejects months outside 1..24.  For every record
    found whose key and expiration are strings (or missing), every
    integer months, zero and negative ones included, and every version
    of Python:
    - if the base date + 30 * months is a date of the calendar
      (0001-01-01 to 9999-12-31), the handler sends the document with
      that new expiration, which is on or before the base date when
      months <= 0;
    - otherwise it raises [OverflowError] and sends nothing.
    The base date is that of each variant, computed from the stored
    expiration as that version reads it. *)
Theorem renovar_accepts_any_months {py : Date.version}
    (e : env) (arg : string) (meses : Z) (i : nat)
    (lic : license) :
  finds e arg i lic ->
  str_member lic "key" -> str_member lic "expires" ->
  Date.valid (today e) ->
  let root := root_base (today e) lic in
  let telegram := telegram_base (today e) lic in
  (Date.valid (root + 30 * meses) ->
   exists o req lic',
     Root.renovar e arg meses = Ok o
     /\ put o = Some req
     /\ put_licenses req !! i = Some lic'
     /\ expires_on lic' = Ok (root + 30 * meses)
     /\ (meses <= 0 -> root + 30 * meses <= root))
  /\ (~ Date.valid (root + 30 * meses) ->
      Root.renovar e arg meses = Raise OverflowError
      /\ put_of (Root.renovar e arg meses) = None)
  /\ (Date.valid (telegram + 30 * meses) ->
      exists o req lic',
        Telegram.renovar e arg meses = Ok o
        /\ put o = Some req
        /\ put_licenses req !! i = Some lic'
        /\ expires_on lic' = Ok (telegram + 30 * meses)
        /\ (meses <= 0 -> telegram + 30 * meses <= telegram))
  /\ (~ Date.valid (telegram + 30 * meses) ->
      Telegram.renovar e arg meses = Raise OverflowError
      /\ put_of (Telegram.renovar e arg meses) = None)
  /\ (forall rest,
      String.length (normalize_str arg) = 11%nat
      \/ String.length (normalize_str arg) = 14%nat ->
      meses < 1 \/ 24 < meses ->
      Root.ativar e arg meses rest = Ok (no_write [InvalidMonths] [])
      /\ Telegram.ativar e arg meses rest = Ok (no_write [InvalidMonths] [])).
Proof.
  intros Hf Hkey Hexp Htoday root telegram.
  pose proof (finds_lookup _ _ _ _ Hf) as [Hl _].
  pose proof (finds_token _ _ _ _ Hf) as Htok.
  assert (Hi : (i < length (get_licenses e).1)%nat) by (eapply lookup_lt_Some; eauto).
  split; [|split; [|split; [|split]]].
  - intros Hnew.
    destruct (root_renovar_ok e arg meses i lic Hf Hkey Hexp Htoday Hnew)
      as (m & ok & Hr).
    destruct (save_and_reply_put e
                (<[i := <["status" := VStr "active"]>
                          (<["expires" := VStr (Date.isoformat (root + 30 * meses))]>
                             (if starts_from_zero (today e) lic
                              then <["key" := VStr (generate_license_key (rnd e))]> lic
                              else lic))]> (get_licenses e).1)
                (get_licenses e).2 m ok Htok) as (req & Hreq & Hput).
    eexists. exists req. eexists. split; [exact Hr|].
    split; [exact Hreq|]. rewrite Hput.
    split; [by apply list_lookup_insert_eq|].
    split; [by apply renewed_members|lia].
  - intros Hnew.
    rewrite (root_renovar_overflow e arg meses i lic Hf Hkey Hexp Hnew). by split.
  - intros Hnew.
    destruct (telegram_renovar_ok e arg meses i lic Hf Hexp Htoday Hnew)
      as (m & ok & Hr).
    destruct (save_and_reply_put e
                (<[i := <["status" := VStr "active"]>
                          (<["expires" := VStr (Date.isoformat
                                                  (telegram + 30 * meses))]> lic)]>
                   (get_licenses e).1)
                (get_licenses e).2 m ok Htok) as (req & Hreq & Hput).
    eexists. exists req. eexists. split; [exact Hr|].
    split; [exact Hreq|]. rewrite Hput.
    split; [by apply list_lookup_insert_eq|].
    split; [by apply renewed_members|lia].
  - intros Hnew.
    rewrite (telegram_renovar_overflow e arg meses i lic Hf Hexp Hnew). by split.
  - intros rest Hlen Hm.
    unfold Root.ativar, Telegram.ativar.
    replace ((String.length (normalize_str arg) =? 11)%nat
             || (String.length (normalize_str arg) =? 14)%nat) with true
      by (symmetry; apply orb_true_iff;
          destruct Hlen as [-> | ->]; [left|right]; reflexivity).
    cbn [negb].
    replace ((meses <? 1) || (24 <? meses)) with true
      by (symmetry; apply orb_true_iff; rewrite !Z.ltb_lt; exact Hm).
    by split.
Qed.

Section Python310.

(** Examples run on Python 3.10; their dates are written [YYYY-MM-DD],
    which every version reads alike. *)
#[local] Existing Instance Date.py310.

Lemma renovar_accepts_any_months_witness :
  finds (mk_env day0 [ana]) "123.456.789-01" 0 ana
  /\ str_member ana "key" /\ str_member ana "expires" /\ Date.valid day0
  /\ root_base day0 ana = day0 + 10
  /\ exists o req lic',
      Root.renovar (mk_env day0 [ana]) "123.456.789-01" (-1) = Ok o
      /\ put o = Some req
      /\ put_licenses req !! 0%nat = Some lic'
      /\ expires_on lic' = Ok (day0 + 10 + 30 * -1).
Proof.
  assert (Hb : root_base day0 ana = day0 + 10) by vm_refl.
  repeat (split; [first [exact ana_found | exact ana_str_key | exact ana_str_expires
                        | exact day0_valid | exact Hb]|]).
  destruct (renovar_accepts_any_months (mk_env day0 [ana]) "123.456.789-01" (-1)
              0%nat ana ana_found ana_str_key ana_str_expires day0_valid)
    as (Hroot & _).
  cbn [today mk_env] in Hroot. rewrite Hb in Hroot.
  destruct Hroot as (o & req & lic' & Ho & Hp & Hl & He & _).
  { unfold Date.valid, day0, Date.max_ordinal. lia. }
  exists o, req, lic'. auto.
Defined.

End Python310.

(** ** Activation *)

Section Activation.

Lemma chars_of_chars (l : list ascii) : Str.chars (Str.of_chars l) = l.
Proof. apply list_ascii_of_string_of_list_ascii. Qed.

Lemma length_of_chars (l : list ascii) : String.length (Str.of_chars l) = List.length l.
Proof. induction l as [|a l IH]; cbn; [reflexivity|by rewrite <- IH]. Qed.

Lemma filter_idem {A} (f : A -> bool) (l : list A) :
  List.filter f (List.filter f l) = List.filter f l.
Proof.
  induction l as [|a l IH]; [reflexivity|].
  cbn. destruct (f a) eqn:E; [cbn; rewrite E; by f_equal|assumption].
Qed.

(** Normalizing twice is normalizing once. *)
Lemma normalize_str_idem (s : string) :
  normalize_str (normalize_str s) = normalize_str s.
Proof.
  unfold normalize_str. by rewrite chars_of_chars, filter_idem.
Qed.

(** A record whose identifier has digits is not an empty [dict]. *)
Lemma normalized_nonempty (lic : license) (c : string) :
  normalize_cpf_cnpj (dict_get lic "cpf_cnpj" (VStr "")) = Ok c ->
  String.length c <> 0%nat ->
  lic <> ∅.
Proof.
  intros Hn Hlen ->. unfold dict_get in Hn.
  rewrite lookup_empty in Hn. injection Hn as <-. by apply Hlen.
Qed.

(** The search, when the list holds a record with the identifier [c]:
    it stops at the first such record, unless a record before it has an
    identifier that is not a string. *)
Lemma find_from_match (c : string) (licenses : list license) (k j : nat)
    (lic : license) :
  licenses !! j = Some lic ->
  normalize_cpf_cnpj (dict_get lic "cpf_cnpj" (VStr "")) = Ok c ->
  (exists j' lic',
      (j' <= j)%nat
      /\ licenses !! j' = Some lic'
      /\ normalize_cpf_cnpj (dict_get lic' "cpf_cnpj" (VStr "")) = Ok c
      /\ find_from c licenses k = Ok (Some (k + j')%nat))
  \/ (find_from c licenses k = Raise TypeError
      /\ ~ Forall (fun l => str_member l "cpf_cnpj") licenses).
Proof.
  revert k j. induction licenses as [|l licenses IH]; intros k j Hj Hn.
  - discriminate.
  - cbn [find_from].
    destruct (normalize_cpf_cnpj (dict_get l "cpf_cnpj" (VStr ""))) as [c'|x] eqn:El.
    + cbn [mbind result_bind].
      destruct (String.eqb_spec c' c) as [Heq|Hne].
      * subst c'. left. exists 0%nat, l. rewrite Nat.add_0_r.
        split; [lia|]. split; [done|]. split; done.
      * destruct j as [|j].
        -- injection Hj as ->. congruence.
        -- destruct (IH (S k) j Hj Hn)
             as [(j' & lic' & Hle & Hl' & Hn' & Hfind) | [Hraise Hty]].
           ++ left. exists (S j'), lic'.
              replace (k + S j')%nat with (S k + j')%nat by lia.
              split; [lia|]. split; [done|]. split; [done|exact Hfind].
           ++ right. split; [done|]. intros Hall. apply Hty.
              by inversion Hall.
    + right. unfold normalize_cpf_cnpj, dict_get in El.
      destruct (l !! "cpf_cnpj") as [[s|n]|] eqn:E; try discriminate.
      injection El as <-. split; [reflexivity|].
      intros Hall. inversion Hall as [|? ? Hl _]. by apply (Hl n).
Qed.

(** [/ativar] on an identifier that the fetched list holds. *)
Lemma ativar_existing (e : env) (arg : string) (j : nat) (lic : license) :
  (get_licenses e).1 !! j = Some lic ->
  normalize_cpf_cnpj (dict_get lic "cpf_cnpj" (VStr "")) = Ok (normalize_str arg) ->
  String.length (normalize_str arg) <> 0%nat ->
  (exists i existing,
      find_license_by_cpf (normalize_str arg) (get_licenses e).1 = Ok (Some i)
      /\ found_truthy (get_licenses e).1 (Some i) = Some (i, existing)
      /\ (i <= j)%nat)
  \/ (find_license_by_cpf (normalize_str arg) (get_licenses e).1 = Raise TypeError
      /\ ~ Forall (fun l => str_member l "cpf_cnpj") (get_licenses e).1).
Proof.
  intros Hj Hn Hlen. unfold find_license_by_cpf. rewrite normalize_str_idem.
  destruct (find_from_match _ _ 0%nat _ _ Hj Hn)
    as [(j' & lic' & Hle & Hl' & Hn' & Hfind) | Hraise]; [|by right].
  left. exists j', lic'. split; [exact Hfind|]. split; [|exact Hle].
  unfold found_truthy. rewrite Hl'. unfold dict_truthy.
  rewrite bool_decide_eq_true_2; [reflexivity|].
  by eapply normalized_nonempty.
Qed.

End Activation.

(** C3.  When the list that [/ativar] fetched holds a record whose
    normalized identifier is the normalized identifier given, the
    handler sends no PUT; and when its arguments pass the checks made
    first (an identifier of 11 or 14 digits, 1 to 24 months) and the
    identifiers stored are strings, it replies that a license exists
    already and returns with the list as fetched: no record is added.
    Both variants do so. *)
Theorem ativar_duplicate (e : env) (arg : string) (meses : Z) (rest : list string)
    (j : nat) (lic : license) :
  (get_licenses e).1 !! j = Some lic ->
  normalize_cpf_cnpj (dict_get lic "cpf_cnpj" (VStr "")) = Ok (normalize_str arg) ->
  (put_of (Root.ativar e arg meses rest) = None
   /\ put_of (Telegram.ativar e arg meses rest) = None)
  /\ (String.length (normalize_str arg) = 11%nat
      \/ String.length (normalize_str arg) = 14%nat ->
      1 <= meses <= 24 ->
      Forall (fun l => str_member l "cpf_cnpj") (get_licenses e).1 ->
      exists customer,
        Root.ativar e arg meses rest
        = Ok {| replies := [Processing; AlreadyExists customer];
                licenses_after := (get_licenses e).1;
                put := None |}
        /\ Telegram.ativar e arg meses rest
           = Ok {| replies := [Processing; AlreadyExists customer];
                   licenses_after := (get_licenses e).1;
                   put := None |}).
Proof.
  intros Hj Hn.
  unfold Root.ativar, Telegram.ativar.
  destruct ((String.length (normalize_str arg) =? 11)%nat
            || (String.length (normalize_str arg) =? 14)%nat) eqn:Hlen; cbn [negb].
  2:{ split; [by split|]. intros Hl. exfalso.
      apply orb_false_iff in Hlen as [H1 H2].
      apply Nat.eqb_neq in H1, H2. tauto. }
  assert (Hpos : String.length (normalize_str arg) <> 0%nat).
  { apply orb_true_iff in Hlen as [H|H]; apply Nat.eqb_eq in H; lia. }
  destruct ((meses <? 1) || (24 <? meses)) eqn:Hm.
  { split; [by split|]. intros _ Hr. exfalso.
    apply orb_true_iff in Hm as [H|H]; apply Z.ltb_lt in H; lia. }
  destruct (ativar_existing e arg j lic Hj Hn Hpos)
    as [(i & existing & Hfind & Htruthy & _) | [Hraise Hty]].
  - destruct (get_licenses e) as [licenses sha]. cbn [fst snd] in *.
    rewrite Hfind. cbn [mbind result_bind]. rewrite Htruthy.
    split; [by split|]. intros _ _ _.
    exists (fmt_member existing "customer"). by split.
  - destruct (get_licenses e) as [licenses sha]. cbn [fst snd] in *.
    rewrite Hraise. cbn [mbind result_bind].
    split; [by split|]. intros _ _ Hall. by destruct (Hty Hall).
Qed.

Lemma ativar_duplicate_witness :
  (get_licenses (mk_env day0 [ana])).1 !! 0%nat = Some ana
  /\ normalize_cpf_cnpj (dict_get ana "cpf_cnpj" (VStr ""))
     = Ok (normalize_str "123.456.789-01")
  /\ put_of (Root.ativar (mk_env day0 [ana]) "123.456.789-01" 12 ["Ana"]) = None
  /\ exists customer,
      Root.ativar (mk_env day0 [ana]) "123.456.789-01" 12 ["Ana"]
      = Ok {| replies := [Processing; AlreadyExists customer];
              licenses_after := [ana];
              put := None |}.
Proof.
  assert (H0 : (get_licenses (mk_env day0 [ana])).1 !! 0%nat = Some ana)
    by reflexivity.
  assert (Hn : normalize_cpf_cnpj (dict_get ana "cpf_cnpj" (VStr ""))
               = Ok (normalize_str "123.456.789-01")) by vm_refl.
  split; [exact H0|]. split; [exact Hn|].
  destruct (ativar_duplicate (mk_env day0 [ana]) "123.456.789-01" 12 ["Ana"]
              0%nat ana H0 Hn) as [[Hput _] Hdup].
  split; [exact Hput|].
  destruct Hdup as (customer & Hr & _).
  - left. vm_refl.
  - lia.
  - constructor; [|constructor]. intros n.
    replace (ana !! "cpf_cnpj") with (Some (VStr "12345678901")) by vm_refl.
    discriminate.
  - exists customer. exact Hr.
Defined.

(** ** The stable sort *)

Section StableSort.

Context {A : Type}.
Variable ltb : A -> A -> bool.

Local Abbreviation not_after := (not_after ltb).

Hypothesis ltb_asym : forall a b, ltb a b = true -> ltb b a = false.
Hypothesis not_after_trans :
  forall a b c, not_after a b -> not_after b c -> not_after a c.

Lemma insert_pure_perm (x : A) (l : list A) :
  Permutation (insert_pure ltb x l) (x :: l).
Proof.
  induction l as [|y l IH]; cbn; [reflexivity|].
  destruct (ltb y x); [|reflexivity].
  rewrite IH. apply perm_swap.
Qed.

Lemma sort_pure_perm (l : list A) : Permutation (sort_pure ltb l) l.
Proof.
  induction l as [|x l IH]; cbn; [reflexivity|].
  rewrite insert_pure_perm. by constructor.
Qed.

Lemma insert_pure_sorted (x : A) (l : list A) :
  StronglySorted not_after l -> StronglySorted not_after (insert_pure ltb x l).
Proof.
  induction l as [|y l IH]; intros Hs; cbn.
  - repeat constructor.
  - inversion Hs as [|? ? Hl Hy]; subst.
    destruct (ltb y x) eqn:E.
    + constructor; [by apply IH|].
      apply List.Forall_forall. intros z Hz.
      apply (Permutation_in _ (insert_pure_perm x l)) in Hz.
      destruct Hz as [<-|Hz]; [by apply ltb_asym|].
      rewrite List.Forall_forall in Hy. by apply Hy.
    + constructor; [assumption|].
      constructor; [exact E|].
      eapply List.Forall_impl; [|exact Hy].
      intros z Hz. by apply (not_after_trans x y z).
Qed.

Lemma sort_pure_sorted (l : list A) : StronglySorted not_after (sort_pure ltb l).
Proof.
  induction l as [|x l IH]; cbn; [constructor|by apply insert_pure_sorted].
Qed.

(** Elements none of which is before another keep their order. *)
Lemma insert_pure_stable (P : A -> bool) (x : A) (l : list A) :
  (forall a b, P a = true -> P b = true -> ltb a b = false) ->
  List.filter P (insert_pure ltb x l) = List.filter P (x :: l).
Proof.
  intros HP. induction l as [|y l IH]; [reflexivity|].
  cbn [insert_pure]. destruct (ltb y x) eqn:E; [|reflexivity].
  cbn [List.filter] in *. rewrite IH.
  destruct (P x) eqn:Ex, (P y) eqn:Ey; try reflexivity.
  rewrite (HP y x Ey Ex) in E. discriminate.
Qed.

Lemma sort_pure_stable (P : A -> bool) (l : list A) :
  (forall a b, P a = true -> P b = true -> ltb a b = false) ->
  List.filter P (sort_pure ltb l) = List.filter P l.
Proof.
  intros HP. induction l as [|x l IH]; [reflexivity|].
  cbn [sort_pure]. rewrite insert_pure_stable by assumption.
  cbn [List.filter]. by rewrite IH.
Qed.

(** The sort with a comparison that may raise, when it does not. *)
Lemma insert_by_pure (lt : A -> A -> result bool) (x : A) (l : list A) :
  (forall y, In y l -> lt y x = Ok (ltb y x)) ->
  insert_by lt x l = Ok (insert_pure ltb x l).
Proof.
  induction l as [|y l IH]; intros Hlt; [reflexivity|].
  cbn [insert_by insert_pure]. rewrite (Hlt y) by (by left).
  cbn [mbind result_bind].
  destruct (ltb y x); [|reflexivity].
  rewrite IH by (intros z Hz; apply Hlt; by right). reflexivity.
Qed.

Lemma sort_by_pure (lt : A -> A -> result bool) (l : list A) :
  (forall a b, In a l -> In b l -> lt a b = Ok (ltb a b)) ->
  sort_by lt l = Ok (sort_pure ltb l).
Proof.
  induction l as [|x l IH]; intros Hlt; [reflexivity|].
  cbn [sort_by sort_pure].
  rewrite IH by (intros a b Ha Hb; apply Hlt; by right).
  cbn [mbind result_bind]. apply insert_by_pure.
  intros y Hy. apply Hlt; [right|by left].
  eapply Permutation_in; [apply sort_pure_perm|exact Hy].
Qed.

End StableSort.

(** ** Licenses about to expire *)

Section Expiring.

Context {py : Date.version}.

Lemma StronglySorted_impl {A} (R S : A -> A -> Prop) (l : list A) :
  (forall a b, R a b -> S a b) -> StronglySorted R l -> StronglySorted S l.
Proof.
  intros HRS Hs. induction Hs as [|a l Hs IH Hall]; constructor; [assumption|].
  eapply List.Forall_impl; [|exact Hall]. intros b. apply HRS.
Qed.



End Expiring.

Section Python310.

(** Examples run on Python 3.10; their dates are written [YYYY-MM-DD],
    which every version reads alike. *)
#[local] Existing Instance Date.py310.


End Python310.


Section Python310.

(** Examples run on Python 3.10; their dates are written [YYYY-MM-DD],
    which every version reads alike. *)
#[local] Existing Instance Date.py310.


End Python310.

(** What reads as a date depends on the version of Python, and the
    statements follow it: an expiration written [20250603] is no date
    for Python 3.10, where the license is not listed and is renewed from
    today with a new key, and is the date 2025-06-03 for a version that
    reads the basic format, where the license is listed with two days
    remaining and is renewed from that date with the key it has. *)
Lemma expiration_in_basic_format :
  let e := mk_env day0 [ana_basic] in
  (expires_on (py := Date.py310) ana_basic = Raise ValueError
   /\ Telegram.expiring_soon (py := Date.py310) day0 [ana_basic] = Ok []
   /\ member_after (Root.renovar (py := Date.py310) e "123.456.789-01" 1) 0 "expires"
      = Some (VStr (Date.isoformat (day0 + 30)))
   /\ member_after (Root.renovar (py := Date.py310) e "123.456.789-01" 1) 0 "key"
      = Some (VStr "ABCD-EFGH-JKMN-PQRS"))
  /\ (expires_on (py := Date.with_basic_format) ana_basic = Ok (day0 + 2)
      /\ Telegram.expiring_soon (py := Date.with_basic_format) day0 [ana_basic]
         = Ok [(ana_basic, 2)]
      /\ member_after
           (Root.renovar (py := Date.with_basic_format) e "123.456.789-01" 1) 0
           "expires"
         = Some (VStr (Date.isoformat (day0 + 2 + 30)))
      /\ member_after
           (Root.renovar (py := Date.with_basic_format) e "123.456.789-01" 1) 0 "key"
         = ana_basic !! "key").
Proof.
  cbv zeta.
  assert (Hk : ana_basic !! "key" = Some (VStr "XK3F-9MPQ-7RTV-2WZY")) by vm_refl.
  split.
  - split; [vm_refl|]. split; [vm_refl|]. split; vm_refl.
  - split; [vm_refl|]. split; [vm_refl|]. split; [vm_refl|].
    rewrite Hk. vm_refl.
Qed.

(** ** The listing *)

Section Listing.

Lemma string_ltb_lt (s t : string) : String.ltb s t = true <-> String_as_OT.lt s t.
Proof.
  unfold String.ltb. rewrite <- String_as_OT.cmp_lt. unfold String_as_OT.cmp.
  destruct (String.compare s t); split; congruence.
Qed.

Lemma string_ltb_irrefl (s : string) : String.ltb s s = false.
Proof.
  destruct (String.ltb s s) eqn:E; [|reflexivity].
  apply string_ltb_lt in E. by destruct (String_as_OT.lt_not_eq _ _ E).
Qed.

Lemma string_ltb_asym (s t : string) : String.ltb s t = true -> String.ltb t s = false.
Proof.
  intros Hst. destruct (String.ltb t s) eqn:Hts; [|reflexivity].
  apply string_ltb_lt in Hst, Hts.
  pose proof (String_as_OT.lt_trans _ _ _ Hst Hts) as Hss.
  by destruct (String_as_OT.lt_not_eq _ _ Hss).
Qed.

Lemma string_ltb_false (s t : string) :
  String.ltb s t = false <-> s = t \/ String.ltb t s = true.
Proof.
  unfold String.ltb. rewrite (String.compare_antisym t s).
  destruct (String.compare s t) eqn:E; cbn.
  - apply String.compare_eq_iff in E. split; auto.
  - split; [discriminate|]. intros [->|H]; [|discriminate].
    assert (Hrefl : String.ltb t t = true) by (unfold String.ltb; by rewrite E).
    by rewrite string_ltb_irrefl in Hrefl.
  - split; auto.
Qed.

Lemma string_not_after_trans (a b c : string) :
  String.ltb b a = false -> String.ltb c b = false -> String.ltb c a = false.
Proof.
  rewrite !string_ltb_false.
  intros [->|Hab] [->|Hbc]; auto.
  right. apply string_ltb_lt. apply string_ltb_lt in Hab, Hbc.
  by apply String_as_OT.lt_trans with b.
Qed.

Lemma listing_ltb_asym (a b : license) :
  listing_ltb a b = true -> listing_ltb b a = false.
Proof.
  unfold listing_ltb. rewrite (Z.eqb_sym (rank b) (rank a)).
  destruct (Z.eqb_spec (rank a) (rank b)) as [_|Hne]; cbn [negb].
  - apply string_ltb_asym.
  - rewrite Z.ltb_lt, Z.ltb_ge. lia.
Qed.

Lemma listing_not_after_trans (a b c : license) :
  not_after listing_ltb a b -> not_after listing_ltb b c ->
  not_after listing_ltb a c.
Proof.
  unfold not_after, listing_ltb.
  destruct (Z.eqb_spec (rank b) (rank a)) as [Hba|Hba],
           (Z.eqb_spec (rank c) (rank b)) as [Hcb|Hcb],
           (Z.eqb_spec (rank c) (rank a)) as [Hca|Hca]; cbn [negb];
    rewrite ?Z.ltb_ge; try lia.
  apply string_not_after_trans.
Qed.

(** On records whose expiration is a string (or missing) the
    comparison of the sort keys never raises. *)
Lemma pair_lt_listing (a b : license) :
  str_member a "expires" -> str_member b "expires" ->
  pair_lt (Telegram.sort_key a) (Telegram.sort_key b) = Ok (listing_ltb a b).
Proof.
  intros Ha Hb. unfold pair_lt, Telegram.sort_key, listing_ltb, rank, expires_str.
  cbn [fst snd].
  destruct (negb (_ =? _)); [reflexivity|].
  unfold dict_get, str_member in *.
  destruct (a !! "expires") as [[s|n]|]; [|by destruct (Ha n)|];
    (destruct (b !! "expires") as [[t|m]|]; [|by destruct (Hb m)|]);
    unfold value_eqb; case_bool_decide as E; cbn [negb value_lt];
    try reflexivity;
    injection E as ->; by rewrite string_ltb_irrefl.
Qed.

End Listing.

Section Python310.

(** Examples run on Python 3.10; their dates are written [YYYY-MM-DD],
    which every version reads alike. *)
#[local] Existing Instance Date.py310.

(** C8, as stated, fails on the derived "expired" rank: the sort key
    reads the stored status only.  On [day0] Ana's active license that
    expired the day before comes first, before a suspended license,
    though as derived-expired (rank 2) it would follow it (rank 1). *)
Lemma listing_puts_overdue_active_first :
  Telegram.sort_for_listing [ana_suspended; ana_overdue]
  = Ok [ana_overdue; ana_suspended]
  /\ ana_overdue !! "status" = Some (VStr "active")
  /\ expires_on ana_overdue = Ok (day0 - 1)
  /\ day0 - 1 < day0
  /\ ana_suspended !! "status" = Some (VStr "suspended")
  /\ rank ana_overdue = 0 /\ rank ana_suspended = 1.
Proof.
  split; [vm_refl|]. split; [vm_refl|]. split; [vm_refl|]. split; [lia|].
  split; [vm_refl|]. split; vm_refl.
Qed.

End Python310.

(** C8, amended.  For every list of licenses whose expirations are
    strings (or missing), the sort of [/listar] returns a permutation of
    the list that is ordered first by the rank of the stored status
    (active 0, suspended 1, the stored value ["expired"] 2, cancelled 3,
    anything else 9; an active license ranks 0 whatever its expiration)
    and then by the stored expiration in ascending code point order,
    which for expirations written as [YYYY-MM-DD] is the order of the
    dates; records equal in both keep the order of the document. *)
Theorem sort_for_listing_spec (licenses : list license) :
  Forall (fun lic => str_member lic "expires") licenses ->
  exists sorted,
    Telegram.sort_for_listing licenses = Ok sorted
    /\ Permutation sorted licenses
    /\ StronglySorted
         (fun a b => rank a < rank b
                     \/ (rank a = rank b
                         /\ String.leb (expires_str a) (expires_str b) = true))
         sorted
    /\ (forall r s,
          List.filter (fun l => (rank l =? r) && String.eqb (expires_str l) s) sorted
          = List.filter (fun l => (rank l =? r) && String.eqb (expires_str l) s)
              licenses)
    /\ (forall lic,
          (lic !! "status" = Some (VStr "active") -> rank lic = 0)
          /\ (lic !! "status" = Some (VStr "suspended") -> rank lic = 1)
          /\ (lic !! "status" = Some (VStr "expired") -> rank lic = 2)
          /\ (lic !! "status" = Some (VStr "cancelled") -> rank lic = 3)
          /\ (lic !! "status" <> Some (VStr "active") ->
              lic !! "status" <> Some (VStr "suspended") ->
              lic !! "status" <> Some (VStr "expired") ->
              lic !! "status" <> Some (VStr "cancelled") -> rank lic = 9))
    /\ (forall a b da db,
          Date.valid da -> Date.valid db ->
          expires_str a = Date.isoformat da ->
          expires_str b = Date.isoformat db ->
          (String.leb (expires_str a) (expires_str b) = true <-> da <= db)).
Proof.
  intros Hty. exists (sort_pure listing_ltb licenses).
  split; [|split; [|split; [|split; [|split]]]].
  6:{ intros a b da db Ha Hb -> ->.
      rewrite DateOrder.isoformat_leb by assumption. apply Z.leb_le. }
  - unfold Telegram.sort_for_listing. apply sort_by_pure.
    intros a b Ha Hb. rewrite List.Forall_forall in Hty.
    apply pair_lt_listing; by apply Hty.
  - apply sort_pure_perm.
  - eapply StronglySorted_impl;
      [|apply (sort_pure_sorted listing_ltb listing_ltb_asym
                 listing_not_after_trans)].
    intros a b. unfold not_after, listing_ltb.
    rewrite (Z.eqb_sym (rank b) (rank a)).
    destruct (Z.eqb_spec (rank a) (rank b)) as [Heq|Hne]; cbn [negb].
    + intros Hlt. right. split; [exact Heq|].
      unfold String.ltb in Hlt. unfold String.leb.
      rewrite String.compare_antisym.
      destruct (String.compare (expires_str b) (expires_str a));
        [reflexivity|discriminate|reflexivity].
    + rewrite Z.ltb_ge. intros Hle. left. lia.
  - intros r s. apply sort_pure_stable.
    intros a b Ha Hb.
    apply andb_prop in Ha as [Ha1 Ha2], Hb as [Hb1 Hb2].
    apply Z.eqb_eq in Ha1, Hb1. apply String.eqb_eq in Ha2, Hb2.
    unfold listing_ltb. rewrite Ha1, Hb1, Z.eqb_refl, Ha2, Hb2. cbn [negb].
    apply string_ltb_irrefl.
  - intros lic. unfold rank, dict_get.
    repeat split.
    1-4: by intros ->.
    intros H1 H2 H3 H4.
    destruct (lic !! "status") as [[s|n]|]; [|reflexivity|reflexivity].
    cbn [Telegram.status_order].
    repeat (match goal with
            | |- context [String.eqb s ?t] =>
                destruct (String.eqb_spec s t); [subst; congruence|]
            end).
    reflexivity.
Qed.

Lemma sort_for_listing_spec_witness :
  Forall (fun lic => str_member lic "expires") [ana_suspended; ana_overdue]
  /\ exists sorted,
      Telegram.sort_for_listing [ana_suspended; ana_overdue] = Ok sorted
      /\ Permutation sorted [ana_suspended; ana_overdue].
Proof.
  assert (Hty : Forall (fun lic => str_member lic "expires")
                  [ana_suspended; ana_overdue]).
  { repeat constructor; intros n.
    - replace (ana_suspended !! "expires") with (Some (VStr "2025-06-11")) by vm_refl.
      discriminate.
    - replace (ana_overdue !! "expires") with (Some (VStr "2025-05-31")) by vm_refl.
      discriminate. }
  split; [exact Hty|].
  destruct (sort_for_listing_spec [ana_suspended; ana_overdue] Hty)
    as (sorted & Hs & Hperm & _).
  exists sorted. split; [exact Hs|exact Hperm].
Defined.

(* ===================================================================== *)
(** * Further properties *)
(* ===================================================================== *)

(** ** Identifiers: normalizing and formatting *)

Section Identifiers.

Lemma of_chars_chars (s : string) : Str.of_chars (Str.chars s) = s.
Proof. apply string_of_list_ascii_of_string. Qed.

Lemma chars_length (s : string) : List.length (Str.chars s) = String.length s.
Proof. by rewrite <- (of_chars_chars s) at 2; rewrite length_of_chars. Qed.

Lemma chars_append (s t : string) : Str.chars (s +:+ t) = (Str.chars s ++ Str.chars t)%list.
Proof.
  unfold Str.chars. induction s as [|a s IH]; [reflexivity|].
  change (String a s +:+ t) with (String a (s +:+ t)).
  cbn [list_ascii_of_string]. rewrite IH. reflexivity.
Qed.

Lemma normalize_chars (s : string) :
  Str.chars (normalize_str s) = List.filter Str.is_digit (Str.chars s).
Proof. unfold normalize_str. apply chars_of_chars. Qed.

Lemma normalize_digits (s : string) :
  Forall (fun c => Str.is_digit c = true) (Str.chars (normalize_str s)).
Proof.
  rewrite normalize_chars. apply List.Forall_forall. intros c Hc.
  by apply filter_In in Hc as [_ Hc].
Qed.

Lemma filter_all {A} (f : A -> bool) (l : list A) :
  Forall (fun c => f c = true) l -> List.filter f l = l.
Proof.
  induction 1 as [|c l Hc _ IH]; [reflexivity|]. cbn. rewrite Hc. by f_equal.
Qed.

Lemma filter_length_le {A} (f : A -> bool) (l : list A) :
  (List.length (List.filter f l) <= List.length l)%nat.
Proof. induction l as [|a l IH]; cbn; [lia|]. destruct (f a); cbn; lia. Qed.

End Identifiers.

(** X1.  [normalize_cpf_cnpj] returns digits only, and all of them: a
    character is in the result exactly when it is a digit of the
    argument, and the result of a concatenation is the concatenation of
    the results, so that the digits keep their order.  Normalizing again
    changes nothing, a string of digits is left as it is, and the result
    is never longer than the argument. *)
Theorem normalize_str_digits (s t : string) :
  Forall (fun c => Str.is_digit c = true) (Str.chars (normalize_str s))
  /\ (forall c, In c (Str.chars (normalize_str s))
                <-> In c (Str.chars s) /\ Str.is_digit c = true)
  /\ normalize_str (s +:+ t) = normalize_str s +:+ normalize_str t
  /\ normalize_str (normalize_str s) = normalize_str s
  /\ (Forall (fun c => Str.is_digit c = true) (Str.chars s) -> normalize_str s = s)
  /\ (String.length (normalize_str s) <= String.length s)%nat.
Proof.
  split; [apply normalize_digits|].
  split; [intros c; rewrite normalize_chars; apply filter_In|].
  split.
  { rewrite <- (of_chars_chars (normalize_str s +:+ normalize_str t)).
    rewrite chars_append, !normalize_chars, <- List.filter_app, <- chars_append.
    reflexivity. }
  split; [apply normalize_str_idem|]. split.
  - intros Hall. unfold normalize_str. rewrite filter_all by assumption.
    apply of_chars_chars.
  - rewrite <- !chars_length, normalize_chars. apply filter_length_le.
Qed.

Lemma normalize_str_digits_witness :
  Forall (fun c => Str.is_digit c = true) (Str.chars "12345678901")
  /\ normalize_str "12345678901" = "12345678901"
  /\ normalize_str "123.456.789-01" = "12345678901".
Proof.
  assert (H : Forall (fun c => Str.is_digit c = true) (Str.chars "12345678901"))
    by (repeat constructor).
  split; [exact H|].
  destruct (normalize_str_digits "12345678901" "") as (_ & _ & _ & _ & Hid & _).
  split; [exact (Hid H)|reflexivity].
Defined.

Section Formatting.

Lemma length_11 {A} (l : list A) :
  List.length l = 11%nat ->
  exists c0 c1 c2 c3 c4 c5 c6 c7 c8 c9 c10,
    l = [c0; c1; c2; c3; c4; c5; c6; c7; c8; c9; c10].
Proof.
  intros H.
  do 11 (destruct l as [|? l]; [discriminate H|]).
  destruct l; [|discriminate H]. eauto 15.
Qed.

Lemma length_14 {A} (l : list A) :
  List.length l = 14%nat ->
  exists c0 c1 c2 c3 c4 c5 c6 c7 c8 c9 c10 c11 c12 c13,
    l = [c0; c1; c2; c3; c4; c5; c6; c7; c8; c9; c10; c11; c12; c13].
Proof.
  intros H.
  do 14 (destruct l as [|? l]; [discriminate H|]).
  destruct l; [|discriminate H]. eauto 20.
Qed.

(** The formatted identifier of 11 digits. *)
Lemma format_11 (s : string) (c0 c1 c2 c3 c4 c5 c6 c7 c8 c9 c10 : ascii) :
  Str.chars (normalize_str s) = [c0; c1; c2; c3; c4; c5; c6; c7; c8; c9; c10] ->
  format_cpf_cnpj s
  = Str.of_chars [c0; c1; c2; "."; c3; c4; c5; "."; c6; c7; c8; "-"; c9; c10]%char.
Proof.
  intros Hc. unfold format_cpf_cnpj.
  rewrite <- (of_chars_chars (normalize_str s)), Hc. reflexivity.
Qed.

(** The formatted identifier of 14 digits. *)
Lemma format_14 (s : string)
    (c0 c1 c2 c3 c4 c5 c6 c7 c8 c9 c10 c11 c12 c13 : ascii) :
  Str.chars (normalize_str s)
  = [c0; c1; c2; c3; c4; c5; c6; c7; c8; c9; c10; c11; c12; c13] ->
  format_cpf_cnpj s
  = Str.of_chars [c0; c1; "."; c2; c3; c4; "."; c5; c6; c7; "/";
                  c8; c9; c10; c11; "-"; c12; c13]%char.
Proof.
  intros Hc. unfold format_cpf_cnpj.
  rewrite <- (of_chars_chars (normalize_str s)), Hc. reflexivity.
Qed.

Lemma filter_cons_true {A} (f : A -> bool) (c : A) (l : list A) :
  f c = true -> List.filter f (c :: l) = c :: List.filter f l.
Proof. intros H. cbn. by rewrite H. Qed.

Lemma filter_cons_false {A} (f : A -> bool) (c : A) (l : list A) :
  f c = false -> List.filter f (c :: l) = List.filter f l.
Proof. intros H. cbn. by rewrite H. Qed.

Lemma format_other (s : string) :
  String.length (normalize_str s) <> 11%nat ->
  String.length (normalize_str s) <> 14%nat ->
  format_cpf_cnpj s = s.
Proof.
  intros H11 H14. unfold format_cpf_cnpj.
  destruct (Nat.eqb_spec (String.length (normalize_str s)) 11%nat); [done|].
  destruct (Nat.eqb_spec (String.length (normalize_str s)) 14%nat); done.
Qed.

Lemma normalize_format (s : string) :
  normalize_str (format_cpf_cnpj s) = normalize_str s.
Proof.
  pose proof (normalize_digits s) as Hd.
  destruct (Nat.eq_dec (String.length (normalize_str s)) 11%nat) as [H11|H11].
  - rewrite <- chars_length in H11.
    destruct (length_11 _ H11) as (c0&c1&c2&c3&c4&c5&c6&c7&c8&c9&c10&Hc).
    rewrite (format_11 s _ _ _ _ _ _ _ _ _ _ _ Hc).
    rewrite <- (of_chars_chars (normalize_str s)), Hc.
    rewrite Hc in Hd.
    repeat (match goal with
            | H : Forall _ (_ :: _) |- _ => inversion H; clear H; subst
            end).
    unfold normalize_str at 1. rewrite chars_of_chars.
    repeat first [rewrite filter_cons_true by assumption
                 |rewrite filter_cons_false by reflexivity].
    reflexivity.
  - destruct (Nat.eq_dec (String.length (normalize_str s)) 14%nat) as [H14|H14].
    + rewrite <- chars_length in H14.
      destruct (length_14 _ H14)
        as (c0&c1&c2&c3&c4&c5&c6&c7&c8&c9&c10&c11&c12&c13&Hc).
      rewrite (format_14 s _ _ _ _ _ _ _ _ _ _ _ _ _ _ Hc).
      rewrite <- (of_chars_chars (normalize_str s)), Hc.
      rewrite Hc in Hd.
      repeat (match goal with
              | H : Forall _ (_ :: _) |- _ => inversion H; clear H; subst
              end).
      unfold normalize_str at 1. rewrite chars_of_chars.
      repeat first [rewrite filter_cons_true by assumption
                   |rewrite filter_cons_false by reflexivity].
      reflexivity.
    + by rewrite format_other.
Qed.

End Formatting.

(** X2.  Formatting keeps the digits: the formatted identifier
    normalizes to the same digits as the identifier given, so it names
    the same record; and formatting a formatted identifier changes
    nothing. *)
Theorem format_cpf_cnpj_round_trip (s : string) :
  normalize_str (format_cpf_cnpj s) = normalize_str s
  /\ format_cpf_cnpj (format_cpf_cnpj s) = format_cpf_cnpj s
  /\ (forall licenses,
        find_license_by_cpf (format_cpf_cnpj s) licenses
        = find_license_by_cpf s licenses).
Proof.
  split; [apply normalize_format|]. split.
  - destruct (Nat.eq_dec (String.length (normalize_str s)) 11%nat) as [H11|H11].
    + pose proof H11 as H. rewrite <- chars_length in H.
      destruct (length_11 _ H) as (c0&c1&c2&c3&c4&c5&c6&c7&c8&c9&c10&Hc).
      rewrite (format_11 (format_cpf_cnpj s) c0 c1 c2 c3 c4 c5 c6 c7 c8 c9 c10)
        by (by rewrite normalize_format).
      symmetry. by apply format_11.
    + destruct (Nat.eq_dec (String.length (normalize_str s)) 14%nat) as [H14|H14].
      * pose proof H14 as H. rewrite <- chars_length in H.
        destruct (length_14 _ H)
          as (c0&c1&c2&c3&c4&c5&c6&c7&c8&c9&c10&c11&c12&c13&Hc).
        rewrite (format_14 (format_cpf_cnpj s)
                   c0 c1 c2 c3 c4 c5 c6 c7 c8 c9 c10 c11 c12 c13)
          by (by rewrite normalize_format).
        symmetry. by apply format_14.
      * rewrite (format_other s) by assumption. by apply format_other.
  - intros licenses. unfold find_license_by_cpf. by rewrite normalize_format.
Qed.

(** X3.  The shape of a formatted identifier: 11 digits give the 14
    characters [###.###.###-##], 14 digits the 18 characters
    [##.###.###/####-##], the digits in their order; an argument with
    another number of digits is returned as it was given. *)
Theorem format_cpf_cnpj_shape (s : string) :
  (String.length (normalize_str s) = 11%nat ->
   String.length (format_cpf_cnpj s) = 14%nat
   /\ exists c0 c1 c2 c3 c4 c5 c6 c7 c8 c9 c10,
       Str.chars (normalize_str s) = [c0; c1; c2; c3; c4; c5; c6; c7; c8; c9; c10]
       /\ Str.chars (format_cpf_cnpj s)
          = [c0; c1; c2; "."; c3; c4; c5; "."; c6; c7; c8; "-"; c9; c10]%char)
  /\ (String.length (normalize_str s) = 14%nat ->
      String.length (format_cpf_cnpj s) = 18%nat
      /\ exists c0 c1 c2 c3 c4 c5 c6 c7 c8 c9 c10 c11 c12 c13,
          Str.chars (normalize_str s)
          = [c0; c1; c2; c3; c4; c5; c6; c7; c8; c9; c10; c11; c12; c13]
          /\ Str.chars (format_cpf_cnpj s)
             = [c0; c1; "."; c2; c3; c4; "."; c5; c6; c7; "/";
                c8; c9; c10; c11; "-"; c12; c13]%char)
  /\ (String.length (normalize_str s) <> 11%nat ->
      String.length (normalize_str s) <> 14%nat ->
      format_cpf_cnpj s = s).
Proof.
  split; [|split; [|apply format_other]].
  - intros H. rewrite <- chars_length in H.
    destruct (length_11 _ H) as (c0&c1&c2&c3&c4&c5&c6&c7&c8&c9&c10&Hc).
    rewrite (format_11 s _ _ _ _ _ _ _ _ _ _ _ Hc). split.
    + by rewrite length_of_chars.
    + exists c0, c1, c2, c3, c4, c5, c6, c7, c8, c9, c10.
      split; [exact Hc|apply chars_of_chars].
  - intros H. rewrite <- chars_length in H.
    destruct (length_14 _ H)
      as (c0&c1&c2&c3&c4&c5&c6&c7&c8&c9&c10&c11&c12&c13&Hc).
    rewrite (format_14 s _ _ _ _ _ _ _ _ _ _ _ _ _ _ Hc). split.
    + by rewrite length_of_chars.
    + exists c0, c1, c2, c3, c4, c5, c6, c7, c8, c9, c10, c11, c12, c13.
      split; [exact Hc|apply chars_of_chars].
Qed.

Lemma format_cpf_cnpj_shape_witness :
  String.length (normalize_str "123.456.789-01") = 11%nat
  /\ String.length (format_cpf_cnpj "12345678901") = 14%nat
  /\ format_cpf_cnpj "12345678901" = "123.456.789-01"
  /\ format_cpf_cnpj "12345678000199" = "12.345.678/0001-99"
  /\ format_cpf_cnpj "1234" = "1234".
Proof.
  split; [reflexivity|].
  destruct (format_cpf_cnpj_shape "12345678901") as (H11 & _ & _).
  destruct (H11 eq_refl) as [Hlen _].
  split; [exact Hlen|]. repeat split; reflexivity.
Defined.

(** ** The search *)

Section Search.

Lemma find_from_Some (c : string) (licenses : list license) (k i : nat) :
  find_from c licenses k = Ok (Some i) ->
  exists j lic,
    i = (k + j)%nat
    /\ licenses !! j = Some lic
    /\ normalize_cpf_cnpj (dict_get lic "cpf_cnpj" (VStr "")) = Ok c
    /\ forall j' lj, (j' < j)%nat -> licenses !! j' = Some lj ->
         exists cj, normalize_cpf_cnpj (dict_get lj "cpf_cnpj" (VStr "")) = Ok cj
                    /\ cj <> c.
Proof.
  revert k. induction licenses as [|l licenses IH]; intros k; [discriminate|].
  cbn [find_from].
  destruct (normalize_cpf_cnpj (dict_get l "cpf_cnpj" (VStr ""))) as [c'|x] eqn:El;
    [|discriminate].
  cbn [mbind result_bind].
  destruct (String.eqb_spec c' c) as [->|Hne].
  - intros [= <-]. exists 0%nat, l. rewrite Nat.add_0_r.
    split; [done|]. split; [done|]. split; [done|]. intros j' lj Hj. lia.
  - intros Hfind. destruct (IH _ Hfind) as (j & lic & -> & Hl & Hn & Hbefore).
    exists (S j), lic. split; [lia|]. split; [done|]. split; [done|].
    intros [|j'] lj Hj Hlj.
    + injection Hlj as <-. eauto.
    + apply (Hbefore j' lj); [lia|done].
Qed.

Lemma find_from_None (c : string) (licenses : list license) (k : nat) :
  find_from c licenses k = Ok None ->
  forall lic, In lic licenses ->
    exists cj, normalize_cpf_cnpj (dict_get lic "cpf_cnpj" (VStr "")) = Ok cj
               /\ cj <> c.
Proof.
  revert k. induction licenses as [|l licenses IH]; intros k Hfind lic Hin;
    [destruct Hin|].
  cbn [find_from] in Hfind.
  destruct (normalize_cpf_cnpj (dict_get l "cpf_cnpj" (VStr ""))) as [c'|x] eqn:El;
    [|discriminate].
  cbn [mbind result_bind] in Hfind.
  destruct (String.eqb_spec c' c) as [->|Hne]; [discriminate|].
  destruct Hin as [<-|Hin]; [eauto|]. by apply (IH (S k)).
Qed.

Lemma find_from_typed (c : string) (licenses : list license) (k : nat) :
  Forall (fun l => str_member l "cpf_cnpj") licenses ->
  exists r, find_from c licenses k = Ok r.
Proof.
  intros Hty. revert k. induction Hty as [|l licenses Hl _ IH]; intros k;
    [by eexists|].
  cbn [find_from]. unfold normalize_cpf_cnpj, dict_get.
  destruct (l !! "cpf_cnpj") as [[s|n]|] eqn:E; [|by destruct (Hl n)|];
    cbn [mbind result_bind];
    (destruct (String.eqb _ c); [by eexists|apply IH]).
Qed.

Lemma find_from_raise (c : string) (licenses : list license) (k : nat) (x : exn) :
  find_from c licenses k = Raise x ->
  x = TypeError /\ ~ Forall (fun l => str_member l "cpf_cnpj") licenses.
Proof.
  revert k. induction licenses as [|l licenses IH]; intros k; [discriminate|].
  cbn [find_from]. unfold normalize_cpf_cnpj, dict_get.
  destruct (l !! "cpf_cnpj") as [[s|n]|] eqn:E; cbn [mbind result_bind].
  - destruct (String.eqb _ c); [discriminate|].
    intros H. apply IH in H as [-> Hty]. split; [done|].
    intros Hall. apply Hty. by inversion Hall.
  - intros [= <-]. split; [done|]. intros Hall.
    inversion Hall as [|? ? Hl _]. by apply (Hl n).
  - destruct (String.eqb _ c); [discriminate|].
    intros H. apply IH in H as [-> Hty]. split; [done|].
    intros Hall. apply Hty. by inversion Hall.
Qed.

(** The search looks at the identifiers only. *)
Lemma find_from_ext (c : string) (l1 l2 : list license) (k : nat) :
  Forall2 (fun a b => a !! "cpf_cnpj" = b !! "cpf_cnpj") l1 l2 ->
  find_from c l1 k = find_from c l2 k.
Proof.
  intros H. revert k. induction H as [|a b l1 l2 Hab _ IH]; intros k; [done|].
  cbn [find_from]. unfold dict_get. rewrite Hab.
  destruct (normalize_cpf_cnpj _); cbn [mbind result_bind]; [|done].
  destruct (String.eqb _ c); [done|apply IH].
Qed.

(** A record appended with an identifier that was not found is found
    at the end. *)
Lemma find_from_app_fresh (c : string) (licenses : list license) (k : nat)
    (nova : license) :
  find_from c licenses k = Ok None ->
  normalize_cpf_cnpj (dict_get nova "cpf_cnpj" (VStr "")) = Ok c ->
  find_from c (licenses ++ [nova]) k = Ok (Some (k + List.length licenses)%nat).
Proof.
  revert k. induction licenses as [|l licenses IH]; intros k Hfind Hn.
  - cbn. rewrite Hn. cbn. rewrite String.eqb_refl. by rewrite Nat.add_0_r.
  - cbn [find_from app] in *.
    destruct (normalize_cpf_cnpj (dict_get l "cpf_cnpj" (VStr ""))) as [c'|x];
      [|discriminate].
    cbn [mbind result_bind] in *.
    destruct (String.eqb c' c); [discriminate|].
    rewrite (IH (S k) Hfind Hn). cbn [List.length]. do 2 f_equal. lia.
Qed.

End Search.

(** X4.  [find_license_by_cpf] returns the first record whose
    normalized identifier is the normalized argument: every record
    before it has another identifier; it returns nothing only when no
    record has the identifier; it raises only [TypeError], and only when
    a stored identifier is not a string. *)
Theorem find_license_by_cpf_first (cpf : string) (licenses : list license) :
  (forall i,
      find_license_by_cpf cpf licenses = Ok (Some i) ->
      exists lic,
        licenses !! i = Some lic
        /\ normalize_cpf_cnpj (dict_get lic "cpf_cnpj" (VStr ""))
           = Ok (normalize_str cpf)
        /\ forall j lj, (j < i)%nat -> licenses !! j = Some lj ->
             exists cj,
               normalize_cpf_cnpj (dict_get lj "cpf_cnpj" (VStr "")) = Ok cj
               /\ cj <> normalize_str cpf)
  /\ (find_license_by_cpf cpf licenses = Ok None ->
      forall lic, In lic licenses ->
        exists cj, normalize_cpf_cnpj (dict_get lic "cpf_cnpj" (VStr "")) = Ok cj
                   /\ cj <> normalize_str cpf)
  /\ (Forall (fun l => str_member l "cpf_cnpj") licenses ->
      exists r, find_license_by_cpf cpf licenses = Ok r)
  /\ (forall x,
      find_license_by_cpf cpf licenses = Raise x ->
      x = TypeError /\ ~ Forall (fun l => str_member l "cpf_cnpj") licenses).
Proof.
  unfold find_license_by_cpf. split; [|split; [|split]].
  - intros i Hfind.
    destruct (find_from_Some _ _ _ _ Hfind) as (j & lic & -> & Hl & Hn & Hb).
    exists lic. auto.
  - apply find_from_None.
  - apply find_from_typed.
  - intros x. apply find_from_raise.
Qed.

Lemma find_license_by_cpf_first_witness :
  find_license_by_cpf "123.456.789-01" [ana_suspended; ana] = Ok (Some 0%nat)
  /\ exists lic,
      [ana_suspended; ana] !! 0%nat = Some lic
      /\ normalize_cpf_cnpj (dict_get lic "cpf_cnpj" (VStr ""))
         = Ok (normalize_str "123.456.789-01").
Proof.
  assert (H : find_license_by_cpf "123.456.789-01" [ana_suspended; ana]
              = Ok (Some 0%nat)) by vm_refl.
  split; [exact H|].
  destruct (find_license_by_cpf_first "123.456.789-01" [ana_suspended; ana])
    as (Hfirst & _).
  destruct (Hfirst 0%nat H) as (lic & Hl & Hn & _).
  exists lic. auto.
Defined.

(** ** Activation of a new identifier *)

Section NewLicense.

(** The members of the record [/ativar] creates. *)
Lemma nova_licenca_members (key cpf nome expires now : string) :
  let nova := nova_licenca key cpf nome expires now in
  nova !! "key" = Some (VStr key)
  /\ nova !! "cpf_cnpj" = Some (VStr cpf)
  /\ nova !! "customer" = Some (VStr nome)
  /\ nova !! "email" = Some (VStr "")
  /\ nova !! "plan" = Some (VStr "profissional")
  /\ nova !! "status" = Some (VStr "active")
  /\ nova !! "expires" = Some (VStr expires)
  /\ nova !! "max_users" = Some (VInt 3)
  /\ nova !! "created_at" = Some (VStr now)
  /\ size nova = 9%nat.
Proof.
  cbv zeta. unfold nova_licenca. rewrite !list_to_map_cons, list_to_map_nil.
  repeat split;
    first [repeat (rewrite lookup_insert_ne by done); by rewrite lookup_insert_eq
          |repeat (rewrite map_size_insert_None;
                   [|repeat (rewrite lookup_insert_ne by done); apply lookup_empty]);
           by rewrite map_size_empty].
Qed.

(** [/ativar] with valid arguments and an identifier that the search
    does not find. *)
Lemma root_ativar_new (e : env) (arg : string) (meses : Z) (rest : list string) :
  String.length (normalize_str arg) = 11%nat
  \/ String.length (normalize_str arg) = 14%nat ->
  1 <= meses <= 24 ->
  find_license_by_cpf (normalize_str arg) (get_licenses e).1 = Ok None ->
  Date.valid (today e) -> Date.valid (today e + 30 * meses) ->
  Root.ativar e arg meses rest
  = Ok (save_and_reply e
          ((get_licenses e).1
           ++ [nova_licenca (generate_license_key (rnd e)) (normalize_str arg)
                 (Root.default_nome (normalize_str arg) rest)
                 (Date.isoformat (today e + 30 * meses)) (now e)])
          (get_licenses e).2
          ("Ativar: " +:+ Root.default_nome (normalize_str arg) rest)
          (Activated (Root.default_nome (normalize_str arg) rest)
             (normalize_str arg) meses (generate_license_key (rnd e)))).
Proof.
  intros Hlen Hm Hfind Htoday Hnew. unfold Root.ativar.
  replace ((String.length (normalize_str arg) =? 11)%nat
           || (String.length (normalize_str arg) =? 14)%nat) with true
    by (symmetry; apply orb_true_iff;
        destruct Hlen as [-> | ->]; [left|right]; reflexivity).
  cbn [negb].
  replace ((meses <? 1) || (24 <? meses)) with false
    by (symmetry; apply orb_false_iff; rewrite !Z.ltb_ge; lia).
  destruct (get_licenses e) as [licenses sha]. cbn [fst snd] in *.
  rewrite Hfind. cbn [mbind result_bind found_truthy].
  rewrite (timedelta_ok (today e)) by assumption. cbn [mbind result_bind].
  rewrite add_ok by assumption. reflexivity.
Qed.

Lemma telegram_ativar_new (e : env) (arg : string) (meses : Z) (rest : list string) :
  String.length (normalize_str arg) = 11%nat
  \/ String.length (normalize_str arg) = 14%nat ->
  1 <= meses <= 24 ->
  find_license_by_cpf (normalize_str arg) (get_licenses e).1 = Ok None ->
  Date.valid (today e) -> Date.valid (today e + 30 * meses) ->
  Telegram.ativar e arg meses rest
  = Ok (save_and_reply e
          ((get_licenses e).1
           ++ [nova_licenca (generate_license_key (rnd e)) (normalize_str arg)
                 (Telegram.default_nome (normalize_str arg) rest)
                 (Date.isoformat (today e + 30 * meses)) (now e)])
          (get_licenses e).2
          ("Ativar licenca: " +:+ Telegram.default_nome (normalize_str arg) rest)
          (Activated (Telegram.default_nome (normalize_str arg) rest)
             (normalize_str arg) meses (generate_license_key (rnd e)))).
Proof.
  intros Hlen Hm Hfind Htoday Hnew. unfold Telegram.ativar.
  replace ((String.length (normalize_str arg) =? 11)%nat
           || (String.length (normalize_str arg) =? 14)%nat) with true
    by (symmetry; apply orb_true_iff;
        destruct Hlen as [-> | ->]; [left|right]; reflexivity).
  cbn [negb].
  replace ((meses <? 1) || (24 <? meses)) with false
    by (symmetry; apply orb_false_iff; rewrite !Z.ltb_ge; lia).
  destruct (get_licenses e) as [licenses sha]. cbn [fst snd] in *.
  rewrite Hfind. cbn [mbind result_bind found_truthy].
  rewrite (timedelta_ok (today e)) by assumption. cbn [mbind result_bind].
  rewrite add_ok by assumption. reflexivity.
Qed.

End NewLicense.

(** X5.  [/ativar] with an identifier of 11 or 14 digits, 1 to 24
    months and no stored record of that identifier appends one record to
    the list (the records before it stay as they were): its identifier is
    the normalized argument, its key is generated, its status is active,
    its expiration is today + 30 * months, its plan ["profissional"] with
    3 users; without a name given the customer is ["Cliente "] and the
    last four digits.  The search then finds the new record under the
    same argument, and (with a token) the list sent is the list in
    memory.  Both variants build the same list. *)
Theorem ativar_new_record {py : Date.version}
    (e : env) (arg : string) (meses : Z) (rest : list string) :
  String.length (normalize_str arg) = 11%nat
  \/ String.length (normalize_str arg) = 14%nat ->
  1 <= meses <= 24 ->
  find_license_by_cpf (normalize_str arg) (get_licenses e).1 = Ok None ->
  Date.valid (today e) -> Date.valid (today e + 30 * meses) ->
  exists (o : outcome) (nova : license),
    Root.ativar e arg meses rest = Ok o
    /\ licenses_after o = ((get_licenses e).1 ++ [nova])%list
    /\ (forall j lic, (get_licenses e).1 !! j = Some lic ->
                      licenses_after o !! j = Some lic)
    /\ nova !! "cpf_cnpj" = Some (VStr (normalize_str arg))
    /\ nova !! "key" = Some (VStr (generate_license_key (rnd e)))
    /\ nova !! "status" = Some (VStr "active")
    /\ expires_on nova = Ok (today e + 30 * meses)
    /\ nova !! "plan" = Some (VStr "profissional")
    /\ nova !! "max_users" = Some (VInt 3)
    /\ nova !! "email" = Some (VStr "")
    /\ nova !! "created_at" = Some (VStr (now e))
    /\ (rest = [] ->
        nova !! "customer"
        = Some (VStr ("Cliente " +:+ Str.last_n 4 (normalize_str arg))))
    /\ (rest <> [] -> nova !! "customer" = Some (VStr (Str.join " " rest)))
    /\ size nova = 9%nat
    /\ find_license_by_cpf arg (licenses_after o)
       = Ok (Some (List.length (get_licenses e).1))
    /\ (github_token e <> "" ->
        exists req, put o = Some req /\ put_licenses req = licenses_after o
                    /\ put_message req = "Ativar: " +:+ fmt_member nova "customer")
    /\ exists o',
        Telegram.ativar e arg meses rest = Ok o'
        /\ licenses_after o' = licenses_after o.
Proof.
  intros Hlen Hm Hfind Htoday Hnew.
  pose proof (root_ativar_new e arg meses rest Hlen Hm Hfind Htoday Hnew) as HR.
  pose proof (telegram_ativar_new e arg meses rest Hlen Hm Hfind Htoday Hnew) as HT.
  destruct (nova_licenca_members (generate_license_key (rnd e)) (normalize_str arg)
              (Root.default_nome (normalize_str arg) rest)
              (Date.isoformat (today e + 30 * meses)) (now e))
    as (Hk & Hc & Hn & Hem & Hp & Hs & Hex & Hmu & Hcr & Hsz).
  eexists. eexists. split; [exact HR|].
  rewrite save_and_reply_after.
  split; [reflexivity|].
  split; [intros j lic Hj; apply lookup_app_l_Some; exact Hj|].
  split; [exact Hc|]. split; [exact Hk|]. split; [exact Hs|].
  split.
  { unfold expires_on, dict_get. rewrite Hex.
    apply DateFacts.fromisoformat_isoformat. exact Hnew. }
  split; [exact Hp|]. split; [exact Hmu|]. split; [exact Hem|].
  split; [exact Hcr|].
  split; [intros ->; exact Hn|].
  split; [intros Hrest; rewrite Hn; destruct rest; [contradiction|reflexivity]|].
  split; [exact Hsz|].
  split.
  { unfold find_license_by_cpf in *. rewrite normalize_str_idem in Hfind.
    rewrite (find_from_app_fresh _ _ _ _ Hfind); [reflexivity|].
    unfold dict_get. rewrite Hc. cbn [normalize_cpf_cnpj].
    rewrite normalize_str_idem. reflexivity. }
  split.
  { intros Htok. unfold save_and_reply, save_licenses.
    destruct (String.eqb_spec (github_token e) "") as [Hempty|_];
      [exact (False_ind _ (Htok Hempty))|].
    eexists. split; [reflexivity|]. split; [reflexivity|].
    cbn [put_message]. unfold fmt_member. rewrite Hn. reflexivity. }
  eexists. split; [exact HT|]. rewrite !save_and_reply_after. reflexivity.
Qed.

Section Python310.

(** Examples run on Python 3.10; their dates are written [YYYY-MM-DD],
    which every version reads alike. *)
#[local] Existing Instance Date.py310.

Lemma ativar_new_record_witness :
  find_license_by_cpf (normalize_str "987.654.321-00")
    (get_licenses (mk_env day0 [ana])).1 = Ok None
  /\ exists o nova,
      Root.ativar (mk_env day0 [ana]) "987.654.321-00" 12 [] = Ok o
      /\ licenses_after o = [ana; nova]
      /\ nova !! "cpf_cnpj" = Some (VStr "98765432100")
      /\ expires_on nova = Ok (day0 + 30 * 12)
      /\ nova !! "customer" = Some (VStr "Cliente 2100").
Proof.
  assert (Hf : find_license_by_cpf (normalize_str "987.654.321-00")
                 (get_licenses (mk_env day0 [ana])).1 = Ok None) by vm_refl.
  split; [exact Hf|].
  destruct (ativar_new_record (mk_env day0 [ana]) "987.654.321-00" 12 [])
    as (o & nova & Ho & Hl & _ & Hc & _ & _ & He & _ & _ & _ & _ & Hn & _).
  - left. reflexivity.
  - lia.
  - exact Hf.
  - exact day0_valid.
  - unfold Date.valid, day0, Date.max_ordinal. cbn. lia.
  - exists o, nova. split; [exact Ho|]. split; [exact Hl|].
    split; [exact Hc|]. split; [exact He|]. exact (Hn eq_refl).
Defined.

End Python310.

(** ** What the handlers keep *)

Section Kept.

Lemma cpf_members_insert (licenses : list license) (i : nat) (lic lic' : license) :
  licenses !! i = Some lic ->
  lic' !! "cpf_cnpj" = lic !! "cpf_cnpj" ->
  cpf_members (<[i := lic']> licenses) = cpf_members licenses.
Proof.
  intros Hl Heq. unfold cpf_members.
  apply list_eq. intros j. rewrite !list_lookup_fmap.
  destruct (decide (i = j)) as [<-|Hne].
  - rewrite list_lookup_insert_eq by (eapply lookup_lt_Some; eauto).
    rewrite Hl. cbn. by rewrite Heq.
  - by rewrite list_lookup_insert_ne.
Qed.

Lemma save_and_reply_put_inv (e : env) licenses sha message ok req :
  put (save_and_reply e licenses sha message ok) = Some req ->
  put_licenses req = licenses.
Proof.
  unfold save_and_reply, save_licenses.
  destruct (String.eqb (github_token e) ""); [discriminate|].
  by intros [= <-].
Qed.

Lemma found_truthy_lookup (licenses : list license) found (i : nat) (lic : license) :
  found_truthy licenses found = Some (i, lic) -> licenses !! i = Some lic.
Proof. intros H. by apply found_truthy_Some in H as (_ & ? & _). Qed.

Lemma same_records_no_write (licenses : list license) (rs : list reply) :
  same_records licenses (no_write rs licenses).
Proof. split; [done|]. split; [done|]. intros req. discriminate. Qed.

Lemma same_records_save (e : env) licenses sha message ok (i : nat)
    (lic lic' : license) :
  licenses !! i = Some lic ->
  lic' !! "cpf_cnpj" = lic !! "cpf_cnpj" ->
  same_records licenses (save_and_reply e (<[i := lic']> licenses) sha message ok).
Proof.
  intros Hl Heq. unfold same_records. rewrite save_and_reply_after.
  split; [by eapply cpf_members_insert|].
  split; [by rewrite length_insert|].
  intros req. apply save_and_reply_put_inv.
Qed.

End Kept.

(** Takes the first step of a handler that is known to return. *)
Ltac bind_step H :=
  match type of H with
  | context [mbind _ ?m] =>
      let E := fresh "E" in
      destruct m eqn:E; cbn [mbind result_bind] in H; [|discriminate H]
  end.

(** X6.  [/renovar], [/cancelar] and [/suspender] never add, remove or
    re-identify a record: whenever one of them returns, the list in
    memory has the length of the list fetched and the same identifiers
    at the same places, and a PUT, if one is sent, carries that list. *)
Theorem handlers_keep_records {py : Date.version} (e : env) (arg : string) (meses : Z) :
  (forall o, Root.cancelar e arg = Ok o -> same_records (get_licenses e).1 o)
  /\ (forall o, Root.renovar e arg meses = Ok o ->
                same_records (get_licenses e).1 o)
  /\ (forall o, Telegram.cancelar e arg = Ok o ->
                same_records (get_licenses e).1 o)
  /\ (forall o, Telegram.suspender e arg = Ok o ->
                same_records (get_licenses e).1 o)
  /\ (forall o, Telegram.renovar e arg meses = Ok o ->
                same_records (get_licenses e).1 o).
Proof.
  unfold Root.cancelar, Root.renovar, Telegram.cancelar, Telegram.suspender,
    Telegram.renovar.
  destruct (get_licenses e) as [licenses sha]. cbn [fst].
  split; [|split; [|split; [|split]]]; intros o H; bind_step H;
    (destruct (found_truthy licenses _) as [[i lic]|] eqn:Ht;
     [pose proof (found_truthy_lookup _ _ _ _ Ht) as Hl
     |injection H as <-; apply same_records_no_write]).
  - injection H as <-. eapply same_records_save; [exact Hl|].
    rewrite !lookup_insert_ne by discriminate. reflexivity.
  - bind_step H. bind_step H.
    destruct (_ || _ || _); bind_step H; bind_step H; injection H as <-;
      (eapply same_records_save; [exact Hl|]);
      rewrite !lookup_insert_ne by discriminate; reflexivity.
  - injection H as <-. eapply same_records_save; [exact Hl|].
    rewrite !lookup_insert_ne by discriminate. reflexivity.
  - injection H as <-. eapply same_records_save; [exact Hl|].
    rewrite !lookup_insert_ne by discriminate. reflexivity.
  - bind_step H. bind_step H. bind_step H. injection H as <-.
    eapply same_records_save; [exact Hl|].
    rewrite !lookup_insert_ne by discriminate. reflexivity.
Qed.

Section Python310.

(** Examples run on Python 3.10; their dates are written [YYYY-MM-DD],
    which every version reads alike. *)
#[local] Existing Instance Date.py310.

Lemma handlers_keep_records_witness :
  let lic' := <["key" := VStr ""]>
                (<["expires" := VStr "2025-06-01"]>
                   (<["status" := VStr "cancelled"]> ana)) in
  let o := {| replies := [Processing; Cancelled "Ana"];
              licenses_after := [lic'];
              put := Some {| put_licenses := [lic'];
                             put_updated_at := "2025-06-01T12:00:00";
                             put_message := "Cancelar: Ana";
                             put_sha := Some "3f2a" |} |} in
  Root.cancelar (mk_env day0 [ana]) "123.456.789-01" = Ok o
  /\ same_records [ana] o.
Proof.
  cbv zeta.
  set (o := {| replies := _; licenses_after := _; put := _ |}).
  assert (Ho : Root.cancelar (mk_env day0 [ana]) "123.456.789-01" = Ok o)
    by (subst o; vm_refl).
  split; [exact Ho|].
  destruct (handlers_keep_records (mk_env day0 [ana]) "123.456.789-01" 1)
    as (Hc & _).
  exact (Hc o Ho).
Defined.

End Python310.

(** ** Identifiers stay distinct *)

Section Unique.



(** What the search tells when the test on its result fails, for an
    identifier with digits: no record has the identifier. *)
Lemma not_found_fresh (c : string) (licenses : list license) found :
  String.length c <> 0%nat ->
  find_from c licenses 0 = Ok found ->
  found_truthy licenses found = None ->
  find_from c licenses 0 = Ok None
  /\ forall lic, In lic licenses -> identifier lic <> Some c.
Proof.
  intros Hlen Hfind Ht.
  destruct found as [i|].
  - exfalso. destruct (find_from_Some _ _ _ _ Hfind) as (j & lic & -> & Hl & Hn & _).
    cbn in Ht. rewrite Hl in Ht. unfold dict_truthy in Ht.
    case_bool_decide as Hne; [discriminate|].
    subst lic.
    unfold dict_get in Hn. rewrite lookup_empty in Hn. cbn in Hn.
    injection Hn as <-. by apply Hlen.
  - split; [exact Hfind|]. intros lic Hin.
    destruct (find_from_None _ _ _ Hfind lic Hin) as (cj & Hcj & Hne).
    unfold identifier. rewrite Hcj. congruence.
Qed.

End Unique.



(** ** An unreadable store *)

Section Unreadable.

Lemma get_licenses_unreadable (e : env) :
  store_unreadable e = true -> get_licenses e = ([], None).
Proof.
  unfold store_unreadable, get_licenses.
  destruct (String.eqb (github_token e) ""); [reflexivity|].
  destruct (get_answer e) as [status [licenses sha|]| |];
    cbn [orb]; first [discriminate | reflexivity].
Qed.

Lemma save_and_reply_sent (e : env) licenses sha message ok :
  github_token e <> "" ->
  put (save_and_reply e licenses sha message ok)
  = Some {| put_licenses := licenses; put_updated_at := now e;
            put_message := message; put_sha := sent_sha sha |}.
Proof.
  intros Htok. unfold save_and_reply, save_licenses.
  destruct (String.eqb_spec (github_token e) "") as [Hempty|_]; [contradiction|].
  reflexivity.
Qed.

End Unreadable.

(** X8.  When the store cannot be read (no token, an HTTP error, an
    unreachable server, a body that does not decode), the handlers
    behave as on an empty store: [/renovar], [/cancelar] and
    [/suspender] answer that the identifier has no license, [/listar]
    that there are none, [/vencendo] that none expires; nothing is
    sent. *)
Theorem unreadable_store_reads_as_empty {py : Date.version}
    (e : env) (arg : string) (meses : Z) :
  store_unreadable e = true ->
  let none := Ok (no_write [Processing; NotFound (normalize_str arg)] []) in
  Root.renovar e arg meses = none
  /\ Root.cancelar e arg = none
  /\ Telegram.renovar e arg meses = none
  /\ Telegram.cancelar e arg = none
  /\ Telegram.suspender e arg = none
  /\ Root.listar e = Ok Root.Nothing
  /\ Telegram.listar e = Ok (no_write [NoLicenses] [])
  /\ (Date.valid (today e + 7) ->
      Telegram.vencendo e = Ok (no_write [NothingExpiring] [])).
Proof.
  intros Hu. apply get_licenses_unreadable in Hu. cbv zeta.
  unfold Root.renovar, Root.cancelar, Telegram.renovar, Telegram.cancelar,
    Telegram.suspender, Root.listar, Telegram.listar, Telegram.vencendo.
  rewrite Hu.
  split; [reflexivity|]. split; [reflexivity|]. split; [reflexivity|].
  split; [reflexivity|]. split; [reflexivity|]. split; [reflexivity|].
  split; [reflexivity|].
  intros Hv. unfold Telegram.expiring_soon.
  change (Date.timedelta 7) with (Ok 7 : result Z). cbn [mbind result_bind].
  rewrite add_ok by exact Hv. reflexivity.
Qed.

Section Python310.

(** Examples run on Python 3.10; their dates are written [YYYY-MM-DD],
    which every version reads alike. *)
#[local] Existing Instance Date.py310.

Lemma unreadable_store_reads_as_empty_witness :
  let e := with_answers (mk_env day0 [ana]) (HTTPError 401) (Response 200 ()) in
  Root.cancelar e "123.456.789-01"
  = Ok (no_write [Processing; NotFound "12345678901"] [])
  /\ Telegram.vencendo e = Ok (no_write [NothingExpiring] []).
Proof.
  cbv zeta.
  destruct (unreadable_store_reads_as_empty
              (with_answers (mk_env day0 [ana]) (HTTPError 401) (Response 200 ()))
              "123.456.789-01" 1 eq_refl)
    as (_ & Hc & _ & _ & _ & _ & _ & Hv).
  split; [exact Hc|]. apply Hv.
  unfold Date.valid, Date.max_ordinal, day0. cbn. lia.
Defined.

End Python310.

(** X9.  [/ativar] does not tell an unreadable store from an empty one
    either: with a token, valid arguments and a GET that failed, it
    sends a document that holds the new license alone and names no
    revision to replace. *)
Theorem ativar_on_unreadable_store (e : env) (arg : string) (meses : Z)
    (rest : list string) :
  store_unreadable e = true -> github_token e <> "" ->
  String.length (normalize_str arg) = 11%nat
  \/ String.length (normalize_str arg) = 14%nat ->
  1 <= meses <= 24 ->
  Date.valid (today e) -> Date.valid (today e + 30 * meses) ->
  exists (o o' : outcome) (req req' : put_request) (nova : license),
    Root.ativar e arg meses rest = Ok o
    /\ Telegram.ativar e arg meses rest = Ok o'
    /\ put o = Some req /\ put o' = Some req'
    /\ put_licenses req = [nova] /\ put_licenses req' = [nova]
    /\ put_sha req = None /\ put_sha req' = None
    /\ nova !! "cpf_cnpj" = Some (VStr (normalize_str arg)).
Proof.
  intros Hu Htok Hlen Hm Htoday Hnew.
  apply get_licenses_unreadable in Hu.
  assert (Hfind : find_license_by_cpf (normalize_str arg) (get_licenses e).1 = Ok None)
    by (rewrite Hu; reflexivity).
  pose proof (root_ativar_new e arg meses rest Hlen Hm Hfind Htoday Hnew) as HR.
  pose proof (telegram_ativar_new e arg meses rest Hlen Hm Hfind Htoday Hnew) as HT.
  rewrite Hu in HR, HT. cbn [fst snd app] in HR, HT.
  eexists. eexists. eexists. eexists. eexists.
  split; [exact HR|]. split; [exact HT|].
  split; [apply save_and_reply_sent; exact Htok|].
  split; [apply save_and_reply_sent; exact Htok|].
  cbn [put_licenses put_sha sent_sha].
  split; [reflexivity|]. split; [reflexivity|].
  split; [reflexivity|]. split; [reflexivity|].
  apply nova_licenca_members.
Qed.

Lemma ativar_on_unreadable_store_witness :
  let e := with_answers (mk_env day0 [ana]) URLError (Response 200 ()) in
  exists (o : outcome) (req : put_request) (nova : license),
    Root.ativar e "987.654.321-00" 12 [] = Ok o
    /\ put o = Some req
    /\ put_licenses req = [nova] /\ put_sha req = None.
Proof.
  cbv zeta.
  destruct (ativar_on_unreadable_store
              (with_answers (mk_env day0 [ana]) URLError (Response 200 ()))
              "987.654.321-00" 12 [])
    as (o & _ & req & _ & nova & Ho & _ & Hp & _ & Hl & _ & Hs & _).
  - reflexivity.
  - discriminate.
  - left. reflexivity.
  - lia.
  - exact day0_valid.
  - unfold Date.valid, day0, Date.max_ordinal. cbn. lia.
  - exists o, req, nova. split; [exact Ho|]. split; [exact Hp|].
    split; [exact Hl|]. exact Hs.
Defined.

(** ** When a handler writes *)

Section Writes.

Lemma save_and_reply_rev (e : env) licenses sha message ok req :
  put (save_and_reply e licenses sha message ok) = Some req ->
  github_token e <> "" /\ put_sha req = sent_sha sha /\ put_updated_at req = now e.
Proof.
  unfold save_and_reply, save_licenses.
  destruct (String.eqb_spec (github_token e) "") as [|Hne]; [discriminate|].
  intros [= <-]. split; [exact Hne|]. split; reflexivity.
Qed.

End Writes.

(** X10.  A handler writes only at a record: a PUT of [/ativar] means
    that the identifier had 11 or 14 digits, the months were 1 to 24 and
    no stored record had the identifier; a PUT of [/renovar],
    [/cancelar] or [/suspender] means that the search found the record.
    Every PUT is sent with a token, names the revision that the same
    call fetched, and carries the time of the call. *)
Theorem writes_are_guarded {py : Date.version} (e : env) (arg : string) (meses : Z)
    (rest : list string) (o : outcome) (req : put_request) :
  put o = Some req ->
  (Root.ativar e arg meses rest = Ok o \/ Telegram.ativar e arg meses rest = Ok o ->
   names_fetched_revision e req
   /\ (String.length (normalize_str arg) = 11%nat
       \/ String.length (normalize_str arg) = 14%nat)
   /\ 1 <= meses <= 24
   /\ find_license_by_cpf (normalize_str arg) (get_licenses e).1 = Ok None)
  /\ (Root.renovar e arg meses = Ok o \/ Root.cancelar e arg = Ok o
      \/ Telegram.renovar e arg meses = Ok o \/ Telegram.cancelar e arg = Ok o
      \/ Telegram.suspender e arg = Ok o ->
      names_fetched_revision e req /\ exists i lic, finds e arg i lic).
Proof.
  intros Hput. unfold names_fetched_revision, finds.
  unfold Root.ativar, Telegram.ativar, Root.renovar, Root.cancelar,
    Telegram.renovar, Telegram.cancelar, Telegram.suspender.
  destruct (get_licenses e) as [licenses sha]. cbn [fst snd].
  split.
  - intros H.
    destruct ((String.length (normalize_str arg) =? 11)%nat
              || (String.length (normalize_str arg) =? 14)%nat) eqn:Hlen;
      cbn [negb] in H;
      [|destruct H as [H|H]; injection H as <-; discriminate Hput].
    destruct ((meses <? 1) || (24 <? meses)) eqn:Hm;
      [destruct H as [H|H]; injection H as <-; discriminate Hput|].
    assert (Hpos : String.length (normalize_str arg) <> 0%nat)
      by (apply orb_true_iff in Hlen as [Hl|Hl]; apply Nat.eqb_eq in Hl; lia).
    assert (Hlen' : String.length (normalize_str arg) = 11%nat
                    \/ String.length (normalize_str arg) = 14%nat)
      by (apply orb_true_iff in Hlen as [Hl|Hl]; apply Nat.eqb_eq in Hl; auto).
    apply orb_false_iff in Hm as [Hm1 Hm2].
    apply Z.ltb_ge in Hm1, Hm2.
    destruct (find_license_by_cpf (normalize_str arg) licenses) as [found|x] eqn:E;
      cbn [mbind result_bind] in H; [|destruct H as [H|H]; discriminate H].
    unfold find_license_by_cpf in E. rewrite normalize_str_idem in E.
    destruct (found_truthy licenses found) as [[i existing]|] eqn:Ht;
      [destruct H as [H|H]; injection H as <-; discriminate Hput|].
    destruct (not_found_fresh _ _ _ Hpos E Ht) as [Hnone _].
    assert (Hrev : github_token e <> "" /\ put_sha req = sent_sha sha
                   /\ put_updated_at req = now e).
    { destruct H as [H|H]; bind_step H; bind_step H; injection H as <-;
        exact (save_and_reply_rev _ _ _ _ _ _ Hput). }
    split; [exact Hrev|]. split; [exact Hlen'|]. split; [lia|].
    rewrite <- E. exact Hnone.
  - intros H.
    destruct (find_license_by_cpf (normalize_str arg) licenses) as [found|x] eqn:E;
      cbn [mbind result_bind] in H;
      [|destruct H as [H|[H|[H|[H|H]]]]; discriminate H].
    destruct (found_truthy licenses found) as [[i lic]|] eqn:Ht;
      [|destruct H as [H|[H|[H|[H|H]]]]; injection H as <-; discriminate Hput].
    split; [|exists i, lic, found; split; [reflexivity|exact Ht]].
    destruct H as [H|[H|[H|[H|H]]]].
    + bind_step H. bind_step H.
      destruct (_ || _ || _); bind_step H; bind_step H; injection H as <-;
        exact (save_and_reply_rev _ _ _ _ _ _ Hput).
    + injection H as <-. exact (save_and_reply_rev _ _ _ _ _ _ Hput).
    + bind_step H. bind_step H. bind_step H. injection H as <-.
      exact (save_and_reply_rev _ _ _ _ _ _ Hput).
    + injection H as <-. exact (save_and_reply_rev _ _ _ _ _ _ Hput).
    + injection H as <-. exact (save_and_reply_rev _ _ _ _ _ _ Hput).
Qed.

Section Python310.

(** Examples run on Python 3.10; their dates are written [YYYY-MM-DD],
    which every version reads alike. *)
#[local] Existing Instance Date.py310.

Lemma writes_are_guarded_witness :
  let e := mk_env day0 [ana] in
  let lic' := <["status" := VStr "suspended"]> ana in
  let req := {| put_licenses := [lic'];
                put_updated_at := "2025-06-01T12:00:00";
                put_message := "Suspender licenca: Ana";
                put_sha := Some "3f2a" |} in
  let o := {| replies := [Processing; Suspended "Ana"];
              licenses_after := [lic'];
              put := Some req |} in
  Telegram.suspender e "123.456.789-01" = Ok o
  /\ names_fetched_revision e req
  /\ exists i lic, finds e "123.456.789-01" i lic.
Proof.
  cbv zeta.
  set (req := {| put_licenses := _; put_updated_at := _; put_message := _;
                 put_sha := _ |}).
  set (o := {| replies := _; licenses_after := _; put := _ |}).
  assert (Ho : Telegram.suspender (mk_env day0 [ana]) "123.456.789-01" = Ok o)
    by (subst o req; vm_refl).
  split; [exact Ho|].
  destruct (writes_are_guarded (mk_env day0 [ana]) "123.456.789-01" 1 [] o req eq_refl)
    as [_ Hw].
  apply Hw. right; right; right; right. exact Ho.
Defined.

End Python310.

(** ** Plans *)

Section Plans.

(** The plans of the catalogue and the users of each. *)
Lemma planos_get_cases (tipo nome preco : string) (usuarios : Z) :
  Telegram.planos_get Telegram.PLANOS tipo = Some (nome, usuarios, preco) ->
  (tipo = "basico" /\ usuarios = 1)
  \/ (tipo = "profissional" /\ usuarios = 3)
  \/ (tipo = "empresarial" /\ usuarios = 10).
Proof.
  unfold Telegram.PLANOS. cbn [Telegram.planos_get].
  destruct (String.eqb_spec "basico" tipo) as [<-|_];
    [intros [= _ <- _]; left; split; reflexivity|].
  destruct (String.eqb_spec "profissional" tipo) as [<-|_];
    [intros [= _ <- _]; right; left; split; reflexivity|].
  destruct (String.eqb_spec "empresarial" tipo) as [<-|_];
    [intros [= _ <- _]; right; right; split; reflexivity|].
  discriminate.
Qed.

End Plans.

(** X11.  [/plano TIPO CPF] accepts the three plans of the catalogue,
    in any case of the letters, and nothing else: for another word it
    answers that the plan is invalid without fetching or sending
    anything.  At a record it finds, it sets the plan to the lower-case
    name and the users to those of the plan (1, 3 or 10), leaves every
    other member, the place of the record and the other records as they
    were, and sends the list. *)
Theorem plano_effect (e : env) (arg_tipo arg : string) :
  (Telegram.planos_get Telegram.PLANOS (Str.lower arg_tipo) = None ->
   Telegram.plano e arg_tipo arg
   = Ok {| Telegram.plano_replies := [Telegram.InvalidPlan];
           Telegram.plano_licenses_after := [];
           Telegram.plano_put := None |})
  /\ (forall i lic nome usuarios preco,
        finds e arg i lic ->
        Telegram.planos_get Telegram.PLANOS (Str.lower arg_tipo)
        = Some (nome, usuarios, preco) ->
        In (Str.lower arg_tipo, usuarios)
          [("basico", 1); ("profissional", 3); ("empresarial", 10)]
        /\ exists o lic',
            Telegram.plano e arg_tipo arg = Ok o
            /\ Telegram.plano_licenses_after o !! i = Some lic'
            /\ lic' !! "plan" = Some (VStr (Str.lower arg_tipo))
            /\ lic' !! "max_users" = Some (VInt usuarios)
            /\ (forall k, k <> "plan" -> k <> "max_users" -> lic' !! k = lic !! k)
            /\ List.length (Telegram.plano_licenses_after o)
               = List.length (get_licenses e).1
            /\ (forall j, j <> i ->
                  Telegram.plano_licenses_after o !! j = (get_licenses e).1 !! j)
            /\ exists req,
                Telegram.plano_put o = Some req
                /\ put_licenses req = Telegram.plano_licenses_after o
                /\ put_sha req = sent_sha (get_licenses e).2).
Proof.
  split.
  - intros Hnone. unfold Telegram.plano. rewrite Hnone. reflexivity.
  - intros i lic nome usuarios preco Hf Hplan.
    split.
    { destruct (planos_get_cases _ _ _ _ Hplan) as [[-> ->]|[[-> ->]|[-> ->]]];
        cbn [In]; auto. }
    pose proof (finds_lookup _ _ _ _ Hf) as [Hl Hne].
    pose proof (finds_token _ _ _ _ Hf) as Htok.
    unfold Telegram.plano. rewrite Hplan. at_found Hf.
    unfold save_licenses. rewrite Htok.
    eexists. eexists. split; [reflexivity|].
    cbn [Telegram.plano_licenses_after Telegram.plano_put].
    assert (Hi : (i < List.length licenses)%nat) by (eapply lookup_lt_Some; eauto).
    split; [apply list_lookup_insert_eq; exact Hi|].
    split; [rewrite lookup_insert_ne, lookup_insert_eq by discriminate; reflexivity|].
    split; [rewrite lookup_insert_eq; reflexivity|].
    split; [intros k Hk1 Hk2; rewrite !lookup_insert_ne by congruence; reflexivity|].
    split; [apply length_insert|].
    split; [intros j Hj; apply list_lookup_insert_ne; congruence|].
    eexists. split; [reflexivity|]. split; reflexivity.
Qed.

Lemma plano_effect_witness :
  finds (mk_env day0 [ana]) "123.456.789-01" 0 ana
  /\ Telegram.planos_get Telegram.PLANOS (Str.lower "Empresarial")
     = Some ("Empresarial", 10, "R$ 149,90/mes")
  /\ exists o lic',
      Telegram.plano (mk_env day0 [ana]) "Empresarial" "123.456.789-01" = Ok o
      /\ Telegram.plano_licenses_after o !! 0%nat = Some lic'
      /\ lic' !! "plan" = Some (VStr "empresarial")
      /\ lic' !! "max_users" = Some (VInt 10).
Proof.
  split; [exact ana_found|].
  assert (Hp : Telegram.planos_get Telegram.PLANOS (Str.lower "Empresarial")
               = Some ("Empresarial", 10, "R$ 149,90/mes")) by reflexivity.
  split; [exact Hp|].
  destruct (plano_effect (mk_env day0 [ana]) "Empresarial" "123.456.789-01")
    as [_ H].
  destruct (H 0%nat ana _ _ _ ana_found Hp)
    as (_ & o & lic' & Ho & Hi & Hpl & Hmu & _).
  exists o, lic'. split; [exact Ho|]. split; [exact Hi|].
  split; [exact Hpl|exact Hmu].
Defined.

(** ** One command after another *)

Section Sequence.

Lemma find_from_insert (c : string) (licenses : list license) (i k : nat)
    (lic lic' : license) :
  licenses !! i = Some lic ->
  lic' !! "cpf_cnpj" = lic !! "cpf_cnpj" ->
  find_from c (<[i := lic']> licenses) k = find_from c licenses k.
Proof.
  intros Hl Heq. apply find_from_ext.
  rewrite <- (list_insert_id licenses i lic Hl) at 2.
  apply Forall2_insert; [|exact Heq].
  apply Forall2_same_length_lookup_2; [reflexivity|].
  intros j a b Ha Hb. congruence.
Qed.

Lemma found_truthy_insert (licenses : list license) (i : nat) (lic' : license) :
  (i < List.length licenses)%nat -> lic' <> ∅ ->
  found_truthy (<[i := lic']> licenses) (Some i) = Some (i, lic').
Proof.
  intros Hi Hne. unfold found_truthy.
  rewrite list_lookup_insert_eq by exact Hi.
  unfold dict_truthy. rewrite bool_decide_eq_true_2 by exact Hne. reflexivity.
Qed.

Lemma insert_nonempty (lic : license) (k : string) (v : value) : <[k := v]> lic <> ∅.
Proof. apply insert_non_empty. Qed.


End Sequence.


Section Python310.

(** Examples run on Python 3.10; their dates are written [YYYY-MM-DD],
    which every version reads alike. *)
#[local] Existing Instance Date.py310.


End Python310.

Section StatusMarks.

Context {py : Date.version}.

Lemma suspender_marked (e : env) (arg : string) :
  list_after (Telegram.suspender e arg) = marked "suspended" e arg.
Proof.
  unfold Telegram.suspender, marked, list_after.
  destruct (get_licenses e) as [licenses sha].
  destruct (find_license_by_cpf _ _) as [found|x]; [|reflexivity].
  cbn [mbind result_bind].
  destruct (found_truthy licenses found) as [[i lic]|]; [|reflexivity].
  cbn [mbind result_bind]. rewrite save_and_reply_after. reflexivity.
Qed.

Lemma cancelar_marked (e : env) (arg : string) :
  list_after (Telegram.cancelar e arg) = marked "cancelled" e arg.
Proof.
  unfold Telegram.cancelar, marked, list_after.
  destruct (get_licenses e) as [licenses sha].
  destruct (find_license_by_cpf _ _) as [found|x]; [|reflexivity].
  cbn [mbind result_bind].
  destruct (found_truthy licenses found) as [[i lic]|]; [|reflexivity].
  cbn [mbind result_bind]. rewrite save_and_reply_after. reflexivity.
Qed.

Lemma list_after_Ok (r : result outcome) (o : outcome) :
  r = Ok o -> list_after r = Ok (licenses_after o).
Proof. intros ->. reflexivity. Qed.

(** What the next command fetches after a status was written: either
    nothing was found and the list is the same, or the record found has
    the new status, at its place. *)
Lemma marked_cases (s : string) (e1 e2 : env) (arg : string) (l1 : list license) :
  marked s e1 arg = Ok l1 ->
  (get_licenses e2).1 = l1 ->
  exists found,
    find_license_by_cpf (normalize_str arg) (get_licenses e1).1 = Ok found
    /\ find_license_by_cpf (normalize_str arg) (get_licenses e2).1 = Ok found
    /\ ((found_truthy (get_licenses e1).1 found = None
         /\ (get_licenses e2).1 = (get_licenses e1).1)
        \/ exists i lic,
            found_truthy (get_licenses e1).1 found = Some (i, lic)
            /\ found_truthy (get_licenses e2).1 found
               = Some (i, <["status" := VStr s]> lic)
            /\ (get_licenses e2).1
               = <[i := <["status" := VStr s]> lic]> (get_licenses e1).1).
Proof.
  unfold marked. intros Hm Hget.
  destruct (get_licenses e1) as [l sha]. cbn [fst] in *.
  destruct (find_license_by_cpf (normalize_str arg) l) as [found|x] eqn:E;
    [|discriminate Hm].
  cbn [mbind result_bind] in Hm.
  exists found. split; [reflexivity|].
  destruct (found_truthy l found) as [[i lic]|] eqn:Ht.
  - injection Hm as <-.
    destruct (found_truthy_Some _ _ _ _ Ht) as (-> & Hl & _).
    rewrite Hget. split.
    + unfold find_license_by_cpf in *.
      rewrite (find_from_insert _ _ _ _ lic); [exact E|exact Hl|].
      rewrite lookup_insert_ne by discriminate. reflexivity.
    + right. exists i, lic. split; [reflexivity|]. split; [|reflexivity].
      apply found_truthy_insert; [eapply lookup_lt_Some; eauto|].
      apply insert_nonempty.
  - injection Hm as <-. rewrite Hget.
    split; [exact E|]. left. split; reflexivity.
Qed.

Lemma marked_after (s1 s2 : string) (e1 e2 : env) (arg : string)
    (l1 : list license) :
  marked s1 e1 arg = Ok l1 ->
  (get_licenses e2).1 = l1 ->
  marked s2 e2 arg = marked s2 e1 arg.
Proof.
  intros Hm Hget.
  destruct (marked_cases _ _ _ _ _ Hm Hget)
    as (found & H1 & H2 & [[Ht Heq]|(i & lic & Ht1 & Ht2 & Heq)]);
    unfold marked;
    destruct (get_licenses e1) as [l sha]; destruct (get_licenses e2) as [l2 sha2];
    cbn [fst] in *; rewrite H1, H2; cbn [mbind result_bind].
  - rewrite Heq, Ht. reflexivity.
  - rewrite Ht1, Ht2, Heq.
    rewrite list_insert_insert_eq, insert_insert_eq. reflexivity.
Qed.

Lemma renovar_after_mark (s : string) (e1 e2 : env) (arg : string) (meses : Z)
    (l1 : list license) :
  marked s e1 arg = Ok l1 ->
  (get_licenses e2).1 = l1 ->
  today e2 = today e1 ->
  list_after (Telegram.renovar e2 arg meses)
  = list_after (Telegram.renovar e1 arg meses).
Proof.
  intros Hm Hget Htoday.
  destruct (marked_cases _ _ _ _ _ Hm Hget)
    as (found & H1 & H2 & [[Ht Heq]|(i & lic & Ht1 & Ht2 & Heq)]);
    unfold Telegram.renovar, list_after;
    destruct (get_licenses e1) as [l sha]; destruct (get_licenses e2) as [l2 sha2];
    cbn [fst] in *; rewrite H1, H2; cbn [mbind result_bind].
  - rewrite Heq, Ht. reflexivity.
  - rewrite Ht1, Ht2, Heq, Htoday.
    unfold dict_item. rewrite lookup_insert_ne by discriminate.
    destruct (try_except _ _ _) as [cur|x]; cbn [mbind result_bind]; [|reflexivity].
    destruct (Date.timedelta _) as [delta|x]; cbn [mbind result_bind]; [|reflexivity].
    destruct (Date.add _ _) as [d|x]; cbn [mbind result_bind]; [|reflexivity].
    rewrite !save_and_reply_after, list_insert_insert_eq.
    do 2 f_equal.
    rewrite (insert_insert_ne _ "expires" "status") by discriminate.
    rewrite insert_insert_eq. reflexivity.
Qed.

End StatusMarks.

(** X13.  In [telegram-bot/bot.py] the status is all that [/suspender]
    and [/cancelar] leave behind, and the next command overwrites it:
    after either of them, a [/suspender], [/cancelar] or (on the same
    day) [/renovar] of the same identifier leaves the list that it would
    have left without the earlier command.  So suspending or cancelling
    twice is the same as once, and a renewal gives a suspended or
    cancelled license what it gives one that was never marked: the same
    key and the time that remained. *)
Theorem telegram_status_is_overwritten {py : Date.version}
    (e1 e2 : env) (arg : string) (meses : Z)
    (o1 : outcome) :
  Telegram.suspender e1 arg = Ok o1 \/ Telegram.cancelar e1 arg = Ok o1 ->
  (get_licenses e2).1 = licenses_after o1 ->
  list_after (Telegram.suspender e2 arg) = list_after (Telegram.suspender e1 arg)
  /\ list_after (Telegram.cancelar e2 arg) = list_after (Telegram.cancelar e1 arg)
  /\ (today e2 = today e1 ->
      list_after (Telegram.renovar e2 arg meses)
      = list_after (Telegram.renovar e1 arg meses))
  /\ (Telegram.suspender e1 arg = Ok o1 ->
      list_after (Telegram.suspender e2 arg) = Ok (licenses_after o1))
  /\ (Telegram.cancelar e1 arg = Ok o1 ->
      list_after (Telegram.cancelar e2 arg) = Ok (licenses_after o1)).
Proof.
  intros H Hget.
  assert (Hm : exists s, marked s e1 arg = Ok (licenses_after o1)).
  { destruct H as [H|H]; apply list_after_Ok in H.
    - exists "suspended". rewrite <- suspender_marked. exact H.
    - exists "cancelled". rewrite <- cancelar_marked. exact H. }
  destruct Hm as [s Hm].
  assert (Hs : list_after (Telegram.suspender e2 arg)
               = list_after (Telegram.suspender e1 arg))
    by (rewrite !suspender_marked; exact (marked_after _ _ _ _ _ _ Hm Hget)).
  assert (Hc : list_after (Telegram.cancelar e2 arg)
               = list_after (Telegram.cancelar e1 arg))
    by (rewrite !cancelar_marked; exact (marked_after _ _ _ _ _ _ Hm Hget)).
  split; [exact Hs|]. split; [exact Hc|].
  split; [intros Ht; exact (renovar_after_mark _ _ _ _ _ _ Hm Hget Ht)|].
  split; intros Ho; [rewrite Hs|rewrite Hc]; apply list_after_Ok; exact Ho.
Qed.

Section Python310.

(** Examples run on Python 3.10; their dates are written [YYYY-MM-DD],
    which every version reads alike. *)
#[local] Existing Instance Date.py310.

Lemma telegram_status_is_overwritten_witness :
  let lic' := <["status" := VStr "suspended"]> ana in
  let o1 := {| replies := [Processing; Suspended "Ana"];
               licenses_after := [lic'];
               put := Some {| put_licenses := [lic'];
                              put_updated_at := "2025-06-01T12:00:00";
                              put_message := "Suspender licenca: Ana";
                              put_sha := Some "3f2a" |} |} in
  let e1 := mk_env day0 [ana] in
  let e2 := mk_env day0 [lic'] in
  Telegram.suspender e1 "123.456.789-01" = Ok o1
  /\ list_after (Telegram.suspender e2 "123.456.789-01") = Ok [lic']
  /\ list_after (Telegram.renovar e2 "123.456.789-01" 1)
     = list_after (Telegram.renovar e1 "123.456.789-01" 1).
Proof.
  cbv zeta.
  set (lic' := <["status" := VStr "suspended"]> ana).
  set (o1 := {| replies := _; licenses_after := _; put := _ |}).
  assert (Ho : Telegram.suspender (mk_env day0 [ana]) "123.456.789-01" = Ok o1)
    by (subst o1 lic'; vm_refl).
  split; [exact Ho|].
  destruct (telegram_status_is_overwritten (mk_env day0 [ana]) (mk_env day0 [lic'])
              "123.456.789-01" 1 o1 (or_introl Ho) eq_refl)
    as (_ & _ & Hr & Hs & _).
  split; [exact (Hs Ho)|exact (Hr eq_refl)].
Defined.

End Python310.

(** ** Renewal of an activated license *)

Section ActivatedThenRenewed.

Context {py : Date.version}.





End ActivatedThenRenewed.


Section Python310.

(** Examples run on Python 3.10; their dates are written [YYYY-MM-DD],
    which every version reads alike. *)
#[local] Existing Instance Date.py310.


End Python310.

(** ** Who is an administrator *)

Section Decimal.

(** [str(n)] for an [int]: digits and a sign. *)
Lemma pretty_N_go_chars (P : ascii -> bool) (x : N) (s : string) :
  (forall n, P (pretty_N_char n) = true) ->
  forallb P (Str.chars s) = true ->
  forallb P (Str.chars (pretty_N_go x s)) = true.
Proof.
  intros HP. revert s.
  induction (N.lt_wf_0 x) as [x _ IH]. intros s Hs.
  destruct (decide (x = 0)%N) as [->|Hx]; [rewrite pretty_N_go_0; exact Hs|].
  rewrite pretty_N_go_step by lia.
  apply IH; [apply N.div_lt; lia|].
  unfold Str.chars in *. cbn [list_ascii_of_string forallb].
  rewrite HP, Hs. reflexivity.
Qed.

Lemma pretty_N_go_length (x : N) (s : string) :
  (String.length s <= String.length (pretty_N_go x s))%nat.
Proof.
  revert s. induction (N.lt_wf_0 x) as [x _ IH]. intros s.
  destruct (decide (x = 0)%N) as [->|Hx]; [rewrite pretty_N_go_0; lia|].
  rewrite pretty_N_go_step by lia.
  etransitivity; [|apply IH; apply N.div_lt; lia]. cbn. lia.
Qed.

Lemma pretty_N_go_nonempty (x : N) : (0 < x)%N -> pretty_N_go x "" <> "".
Proof.
  intros Hx Hempty. rewrite pretty_N_go_step in Hempty by exact Hx.
  pose proof (pretty_N_go_length (x `div` 10)
                (String (pretty_N_char (x `mod` 10)) "")) as Hl.
  rewrite Hempty in Hl. cbn in Hl. lia.
Qed.

Lemma pretty_Z_chars (P : ascii -> bool) (z : Z) :
  (forall n, P (pretty_N_char n) = true) -> P "-"%char = true ->
  forallb P (Str.chars (pretty z)) = true.
Proof.
  intros HP Hminus. destruct z as [|p|p].
  - change (Str.chars (pretty 0)) with [pretty_N_char 0].
    cbn [forallb]. rewrite HP. reflexivity.
  - unfold pretty, pretty_Z, pretty, pretty_positive, pretty, pretty_N.
    destruct (decide (N.pos p = 0%N)); [discriminate|].
    apply pretty_N_go_chars; [exact HP|reflexivity].
  - unfold pretty, pretty_Z, pretty, pretty_positive, pretty, pretty_N.
    destruct (decide (N.pos p = 0%N)); [discriminate|].
    change ("-" +:+ pretty_N_go (N.pos p) "")
      with (String "-"%char (pretty_N_go (N.pos p) "")).
    unfold Str.chars. cbn [list_ascii_of_string forallb].
    rewrite Hminus. cbn [andb].
    apply pretty_N_go_chars; [exact HP|reflexivity].
Qed.

Lemma pretty_Z_nonempty (z : Z) : pretty z <> "".
Proof.
  destruct z as [|p|p]; [discriminate| |discriminate].
  unfold pretty, pretty_Z, pretty, pretty_positive, pretty, pretty_N.
  destruct (decide (N.pos p = 0%N)); [discriminate|].
  apply pretty_N_go_nonempty. lia.
Qed.

Lemma pretty_Z_plain (z : Z) : forallb plain_char (Str.chars (pretty z)) = true.
Proof.
  apply pretty_Z_chars; [|reflexivity].
  intros n. unfold pretty_N_char. repeat case_match; reflexivity.
Qed.

Lemma pretty_Z_eqb (u z : Z) : String.eqb (pretty u) (pretty z) = (u =? z).
Proof.
  destruct (Z.eqb_spec u z) as [->|Hne]; [apply String.eqb_refl|].
  apply String.eqb_neq. intros Heq. apply Hne. exact (pretty_Z_inj _ _ Heq).
Qed.

End Decimal.

Section Entries.

Lemma plain_no_comma (w : list ascii) :
  forallb plain_char w = true -> ~ In ","%char w.
Proof.
  intros H Hin. rewrite forallb_forall in H. specialize (H _ Hin). discriminate H.
Qed.

Lemma split_on_app (sep : ascii) (w r : list ascii) :
  ~ In sep w ->
  Str.split_on sep (w ++ sep :: r) = w :: Str.split_on sep r.
Proof.
  induction w as [|c w IH]; intros Hw; cbn [app Str.split_on].
  - rewrite Ascii.eqb_refl. reflexivity.
  - destruct (Ascii.eqb_spec c sep) as [->|_]; [exfalso; apply Hw; left; reflexivity|].
    rewrite IH by (intros Hin; apply Hw; right; exact Hin). reflexivity.
Qed.

Lemma split_on_plain (sep : ascii) (w : list ascii) :
  ~ In sep w -> Str.split_on sep w = [w].
Proof.
  induction w as [|c w IH]; intros Hw; cbn [Str.split_on]; [reflexivity|].
  destruct (Ascii.eqb_spec c sep) as [->|_]; [exfalso; apply Hw; left; reflexivity|].
  rewrite IH by (intros Hin; apply Hw; right; exact Hin). reflexivity.
Qed.

Lemma join_cons (sep p q : string) (rest : list string) :
  Str.chars (Str.join sep (p :: q :: rest))
  = (Str.chars p ++ Str.chars sep ++ Str.chars (Str.join sep (q :: rest)))%list.
Proof.
  change (Str.join sep (p :: q :: rest))
    with (p +:+ sep +:+ Str.join sep (q :: rest)).
  rewrite !chars_append. reflexivity.
Qed.

(** The entries of a setting written with commas, and with a comma and
    a space. *)
Lemma split_on_join_comma (p : string) (ps : list string) :
  Forall plain (p :: ps) ->
  Str.split_on "," (Str.chars (Str.join "," (p :: ps)))
  = Str.chars p :: List.map Str.chars ps.
Proof.
  revert p. induction ps as [|q rest IH]; intros p Hp.
  - apply split_on_plain, plain_no_comma. by inversion Hp.
  - rewrite join_cons. change (Str.chars ",") with [","%char]. cbn [app].
    rewrite split_on_app by (apply plain_no_comma; by inversion Hp).
    rewrite IH by (by inversion Hp). reflexivity.
Qed.

Lemma split_on_join_comma_space (p : string) (ps : list string) :
  Forall plain (p :: ps) ->
  Str.split_on "," (Str.chars (Str.join ", " (p :: ps)))
  = Str.chars p :: List.map (fun s => " "%char :: Str.chars s) ps.
Proof.
  revert p. induction ps as [|q rest IH]; intros p Hp.
  - apply split_on_plain, plain_no_comma. by inversion Hp.
  - rewrite join_cons. change (Str.chars ", ") with [","%char; " "%char]. cbn [app].
    rewrite split_on_app by (apply plain_no_comma; by inversion Hp).
    cbn [Str.split_on]. change (Ascii.eqb " " ",") with false. cbv iota.
    rewrite IH by (by inversion Hp). reflexivity.
Qed.

Lemma lstrip_plain (l : list ascii) :
  forallb plain_char l = true -> Str.lstrip l = l.
Proof.
  destruct l as [|c l]; [reflexivity|]. cbn [forallb Str.lstrip].
  unfold plain_char. destruct (Str.is_space c); [discriminate|reflexivity].
Qed.

Lemma forallb_rev {A} (f : A -> bool) (l : list A) :
  forallb f l = true -> forallb f (rev l) = true.
Proof.
  rewrite !forallb_forall. intros H x Hx. apply H, in_rev, Hx.
Qed.

Lemma strip_plain (s : string) : plain s -> Str.strip s = s.
Proof.
  intros Hs. unfold Str.strip.
  rewrite (lstrip_plain _ Hs), (lstrip_plain _ (forallb_rev _ _ Hs)), rev_involutive.
  apply of_chars_chars.
Qed.

Lemma strip_space_plain (s : string) : plain s -> Str.strip (String " " s) = s.
Proof.
  intros Hs. unfold Str.strip.
  change (Str.chars (String " " s)) with (" "%char :: Str.chars s).
  change (Str.lstrip (" "%char :: Str.chars s)) with (Str.lstrip (Str.chars s)).
  rewrite (lstrip_plain _ Hs), (lstrip_plain _ (forallb_rev _ _ Hs)), rev_involutive.
  apply of_chars_chars.
Qed.

Lemma plain_pretty (ids : list Z) : Forall plain (List.map pretty ids).
Proof.
  apply List.Forall_forall. intros s Hs.
  apply in_map_iff in Hs as (z & <- & _). apply pretty_Z_plain.
Qed.

Lemma pretty_not_spaced (u : Z) (s : string) :
  String.eqb (pretty u) (String " " s) = false.
Proof.
  apply String.eqb_neq. intros Heq.
  pose proof (pretty_Z_plain u) as Hp. rewrite Heq in Hp. discriminate Hp.
Qed.

Lemma existsb_pretty (u : Z) (ids : list Z) :
  existsb (String.eqb (pretty u)) (List.map pretty ids) = existsb (Z.eqb u) ids.
Proof.
  induction ids as [|z ids IH]; [reflexivity|].
  cbn [List.map existsb]. rewrite pretty_Z_eqb, IH. reflexivity.
Qed.

Lemma existsb_spaced (u : Z) (ids : list Z) :
  existsb (String.eqb (pretty u)) (List.map (fun z => String " " (pretty z)) ids)
  = false.
Proof.
  induction ids as [|z ids IH]; [reflexivity|].
  cbn [List.map existsb]. rewrite pretty_not_spaced, IH. reflexivity.
Qed.

Lemma nonblank_pretty (ids : list Z) :
  List.filter (fun x => negb (String.eqb x "")) (List.map pretty ids)
  = List.map pretty ids.
Proof.
  apply filter_all, List.Forall_forall. intros s Hs.
  apply in_map_iff in Hs as (z & <- & _).
  apply negb_true_iff, String.eqb_neq, pretty_Z_nonempty.
Qed.

(** The entries of the two settings for a list of users. *)
Lemma split_id_list_comma (z : Z) (ids : list Z) :
  Str.split "," (id_list "," (z :: ids)) = List.map pretty (z :: ids).
Proof.
  unfold Str.split, id_list. cbn [List.map].
  rewrite split_on_join_comma by apply (plain_pretty (z :: ids)).
  cbn [List.map]. rewrite of_chars_chars. f_equal.
  rewrite !List.map_map. apply map_ext. intros a. apply of_chars_chars.
Qed.

Lemma split_id_list_comma_space (z : Z) (ids : list Z) :
  Str.split "," (id_list ", " (z :: ids))
  = pretty z :: List.map (fun a => String " " (pretty a)) ids.
Proof.
  unfold Str.split, id_list. cbn [List.map].
  rewrite split_on_join_comma_space by apply (plain_pretty (z :: ids)).
  cbn [List.map]. rewrite of_chars_chars. f_equal.
  rewrite !List.map_map. apply map_ext. intros a.
  change (Str.of_chars (" "%char :: Str.chars (pretty a)))
    with (String " " (Str.of_chars (Str.chars (pretty a)))).
  rewrite of_chars_chars. reflexivity.
Qed.

End Entries.

(** X15.  For a setting that lists one or more users by their numbers:
    - written with commas only, both variants admit exactly the users
      listed;
    - written with a comma and a space, [bot.py] still admits exactly
      the users listed, while [telegram-bot/bot.py], which does not
      strip the entries, admits the first user only. *)
Theorem is_admin_id_list (ids : list Z) (u : Z) :
  ids <> [] ->
  Root.is_admin (id_list "," ids) u = existsb (Z.eqb u) ids
  /\ Telegram.is_admin (id_list "," ids) u = existsb (Z.eqb u) ids
  /\ Root.is_admin (id_list ", " ids) u = existsb (Z.eqb u) ids
  /\ Telegram.is_admin (id_list ", " ids) u
     = match ids with
       | z :: _ => u =? z
       | [] => false
       end.
Proof.
  destruct ids as [|z ids]; [contradiction|]. intros _.
  assert (Hstrip : List.map Str.strip (List.map pretty (z :: ids))
                   = List.map pretty (z :: ids)).
  { rewrite List.map_map. apply map_ext. intros a.
    apply strip_plain, pretty_Z_plain. }
  assert (Hstrip' : List.map Str.strip
                      (pretty z :: List.map (fun a => String " " (pretty a)) ids)
                    = List.map pretty (z :: ids)).
  { cbn [List.map]. rewrite (strip_plain _ (pretty_Z_plain z)). f_equal.
    rewrite List.map_map. apply map_ext. intros a.
    apply strip_space_plain, pretty_Z_plain. }
  assert (Hne : String.eqb (pretty z) "" = false)
    by (apply String.eqb_neq, pretty_Z_nonempty).
  unfold Root.is_admin, Telegram.is_admin, Root.ADMIN_USER_IDS,
    Telegram.ADMIN_USER_IDS.
  rewrite split_id_list_comma, split_id_list_comma_space, Hstrip, Hstrip',
    nonblank_pretty.
  cbn [List.map]. rewrite <- (existsb_pretty u (z :: ids)). cbn [List.map].
  split; [reflexivity|].
  split; [rewrite Hne; apply orb_false_r|].
  split; [reflexivity|].
  cbn [existsb]. rewrite existsb_spaced, Hne, pretty_Z_eqb, !orb_false_r.
  reflexivity.
Qed.

Lemma is_admin_id_list_witness :
  Root.is_admin (id_list ", " [7; 42]) 42 = true
  /\ Telegram.is_admin (id_list ", " [7; 42]) 42 = false
  /\ Telegram.is_admin (id_list "," [7; 42]) 42 = true.
Proof.
  destruct (is_admin_id_list [7; 42] 42) as (_ & Ht & Hr & Ht'); [discriminate|].
  split; [exact Hr|]. split; [exact Ht'|exact Ht].
Defined.

Section OpenAccess.

(** Some user is not among finitely many entries. *)
Lemma fresh_id (entries : list string) : exists u : Z, ~ In (pretty u) entries.
Proof.
  set (candidates := List.map (fun n => pretty (Z.of_nat n))
                       (seq 0 (S (List.length entries)))).
  destruct (@List.Forall_Exists_dec _ (fun c => In c entries)
              (fun c => in_dec string_dec c entries) candidates) as [Hall|Hex].
  - exfalso.
    assert (Hnd : List.NoDup candidates).
    { apply NoDup_map_NoDup_ForallPairs; [|apply seq_NoDup].
      intros a b _ _ Hab. apply pretty_Z_inj in Hab. lia. }
    assert (Hincl : incl candidates entries)
      by (intros c Hc; exact (proj1 (List.Forall_forall _ _) Hall c Hc)).
    pose proof (NoDup_incl_length Hnd Hincl) as Hlen.
    unfold candidates in Hlen. rewrite length_map, length_seq in Hlen. lia.
  - apply List.Exists_exists in Hex as (c & Hc & Hnot).
    apply in_map_iff in Hc as (n & <- & _).
    exists (Z.of_nat n). exact Hnot.
Qed.

Lemma existsb_fresh (u : Z) (entries : list string) :
  ~ In (pretty u) entries -> existsb (String.eqb (pretty u)) entries = false.
Proof.
  intros Hnot. apply not_true_is_false. intros Hex.
  apply existsb_exists in Hex as (x & Hx & Heq).
  apply String.eqb_eq in Heq. subst x. exact (Hnot Hx).
Qed.

Lemma nonblank_nil (entries : list string) :
  List.filter (fun x => negb (String.eqb x "")) (List.map Str.strip entries) = []
  <-> Forall (fun x => Str.strip x = "") entries.
Proof.
  induction entries as [|x entries IH]; [split; [constructor|reflexivity]|].
  cbn [List.map List.filter].
  destruct (String.eqb_spec (Str.strip x) "") as [Hx|Hx]; cbn [negb].
  - rewrite IH. split; [intros H; constructor; assumption|by inversion 1].
  - split; [discriminate|]. inversion 1. contradiction.
Qed.

(** The first entry of a setting is empty exactly when the setting is
    empty or begins with a comma. *)
Lemma first_entry_empty (s : string) :
  match Str.split "," s with
  | first :: _ => String.eqb first ""
  | [] => false
  end = true
  <-> s = "" \/ exists r, s = String "," r.
Proof.
  destruct s as [|c r].
  - split; [intros _; left; reflexivity|reflexivity].
  - unfold Str.split.
    change (Str.chars (String c r)) with (c :: Str.chars r).
    cbn [Str.split_on].
    destruct (Ascii.eqb_spec c ","%char) as [->|Hc].
    + split; [intros _; right; exists r; reflexivity|reflexivity].
    + split.
      * destruct (Str.split_on "," (Str.chars r)); discriminate.
      * intros [H|[r' H]]; [discriminate H|].
        injection H as -> _. contradiction.
Qed.

End OpenAccess.

(** X16.  When everybody is an administrator.  [bot.py] admits every
    user exactly when every entry of the setting is blank (the setting
    is not set, is empty, or holds only commas and white space).
    [telegram-bot/bot.py] admits every user exactly when the setting is
    empty or begins with a comma, whatever follows the comma. *)
Theorem is_admin_open_access (setting : string) :
  ((forall u, Root.is_admin setting u = true)
   <-> Forall (fun x => Str.strip x = "") (Str.split "," setting))
  /\ ((forall u, Telegram.is_admin setting u = true)
      <-> setting = "" \/ exists r, setting = String "," r).
Proof.
  split.
  - unfold Root.is_admin, Root.ADMIN_USER_IDS. rewrite <- nonblank_nil.
    destruct (List.filter _ _) as [|a ids] eqn:E.
    + split; [reflexivity|]. intros _ u. reflexivity.
    + split; [|discriminate].
      intros Hall. exfalso.
      destruct (fresh_id (a :: ids)) as [u Hu].
      specialize (Hall u). rewrite (existsb_fresh _ _ Hu) in Hall. discriminate Hall.
  - rewrite <- first_entry_empty. unfold Telegram.is_admin, Telegram.ADMIN_USER_IDS.
    split.
    + intros Hall.
      destruct (fresh_id (Str.split "," setting)) as [u Hu].
      specialize (Hall u). rewrite (existsb_fresh _ _ Hu) in Hall. exact Hall.
    + intros Hfirst u. rewrite Hfirst. apply orb_true_r.
Qed.

Lemma is_admin_open_access_witness :
  (forall u, Root.is_admin (String "160" "") u = true)
  /\ (forall u, Telegram.is_admin ", 7" u = true)
  /\ ~ (forall u, Root.is_admin ", 7" u = true).
Proof.
  destruct (is_admin_open_access ", 7") as [Hr Ht].
  split.
  { destruct (is_admin_open_access (String "160" "")) as [Hs _].
    apply (proj2 Hs). repeat constructor. }
  split.
  - apply (proj2 Ht). right. exists " 7". reflexivity.
  - intros Hall. apply (proj1 Hr) in Hall.
    inversion Hall as [|x l _ Hrest]. inversion Hrest as [|y l' Hy _].
    discriminate Hy.
Defined.

(** ** The listing of [bot.py] *)

Section RootListing.






End RootListing.



(** ** Keys and draws *)

Section Draws.

Lemma secrets_choice_mod (r : nat) :
  secrets_choice key_chars r = secrets_choice key_chars (r mod 31).
Proof.
  unfold secrets_choice.
  change (List.length (Str.chars key_chars)) with 31%nat.
  rewrite Nat.Div0.mod_mod. reflexivity.
Qed.

Lemma secrets_choice_eq (r1 r2 : nat) :
  secrets_choice key_chars r1 = secrets_choice key_chars r2
  <-> (r1 mod 31 = r2 mod 31)%nat.
Proof.
  split.
  - rewrite (secrets_choice_mod r1), (secrets_choice_mod r2).
    apply secrets_choice_inj; apply Nat.mod_upper_bound; discriminate.
  - intros H. rewrite (secrets_choice_mod r1), (secrets_choice_mod r2), H.
    reflexivity.
Qed.

Lemma generate_license_key_chars (rnd : nat -> nat) :
  Str.chars (generate_license_key rnd)
  = [secrets_choice key_chars (rnd 0); secrets_choice key_chars (rnd 1);
     secrets_choice key_chars (rnd 2); secrets_choice key_chars (rnd 3); "-";
     secrets_choice key_chars (rnd 4); secrets_choice key_chars (rnd 5);
     secrets_choice key_chars (rnd 6); secrets_choice key_chars (rnd 7); "-";
     secrets_choice key_chars (rnd 8); secrets_choice key_chars (rnd 9);
     secrets_choice key_chars (rnd 10); secrets_choice key_chars (rnd 11); "-";
     secrets_choice key_chars (rnd 12); secrets_choice key_chars (rnd 13);
     secrets_choice key_chars (rnd 14); secrets_choice key_chars (rnd 15)]%nat%char.
Proof. reflexivity. Qed.

End Draws.

(** X18.  The key tells the draws: two runs of [generate_license_key]
    return the same key exactly when each of the 16 draws chose the same
    index of the alphabet in both.  So the 31^16 sequences of indices
    give 31^16 different keys, and draws after the sixteenth do not
    matter. *)
Theorem generate_license_key_inj (rnd rnd' : nat -> nat) :
  generate_license_key rnd = generate_license_key rnd'
  <-> forall k, (k < 16)%nat -> (rnd k mod 31 = rnd' k mod 31)%nat.
Proof.
  split.
  - intros Heq k Hk.
    apply (f_equal Str.chars) in Heq.
    rewrite !generate_license_key_chars in Heq.
    injection Heq as H0 H1 H2 H3 H4 H5 H6 H7 H8 H9 H10 H11 H12 H13 H14 H15.
    apply secrets_choice_eq.
    do 16 (destruct k as [|k]; [assumption|]). lia.
  - intros H.
    rewrite <- (of_chars_chars (generate_license_key rnd)),
      <- (of_chars_chars (generate_license_key rnd')).
    rewrite !generate_license_key_chars.
    assert (E : forall k, (k < 16)%nat ->
                secrets_choice key_chars (rnd k) = secrets_choice key_chars (rnd' k))
      by (intros k Hk; apply secrets_choice_eq, H, Hk).
    rewrite !E by lia. reflexivity.
Qed.
